(** * DashboardGC: CSV statistics scripts

    A shallow embedding of the two reporting scripts of the repository,

    - [scripts/analyze-csv.py]        (prints three fixed-width tables), and
    - [scripts/generate-csv-stats.py] (prints one JSON object),

    together with the properties of their aggregation and frequency logic.

    Conventions of the embedding.

    - A Python [str] is a [string]; each [ascii] stands for the code point
      of the same number, so the strings covered are those over
      U+0000..U+00FF.  On that range the decimal digits are ["0"].."9" and
      the white space of [str.strip], [str.split] and the regular expression
      class [\s] is the set given by [isspace] below.
    - A row produced by [csv.DictReader] is a finite map from column names
      to [None] or a string ([gmap string (option string)]).
    - The three [defaultdict]s are insertion-ordered association lists, the
      order being the one [dict.items()] enumerates.
    - Python integers are [Z]; [a / b] and the format spec [.1f] are
      computed on binary64 numbers ([spec_float]).
    - Exceptions are values of [exn]; code that can raise runs in the error
      monad [result].
    - [strftime] is the one of the C library of Linux, where [%Y] prints
      the year without padding; [strptime] is CPython's own.
    - The scripts are modelled from the list of rows on: reading the file
      and [csv.DictReader] come before, [print] and [json.dumps] after.  The
      table entry point yields the lines it prints, the JSON entry point the
      dictionary it serialises. *)

From Stdlib Require Import ZArith Ascii String List Bool Lia.
From Stdlib Require Import DecimalString Sorted Permutation.
From Stdlib Require Import Floats.SpecFloat.
From stdpp Require Import base option gmap strings.

Import ListNotations.
Local Open Scope Z_scope.

(** ** Exceptions and the error monad *)

Inductive exn :=
| KeyError (key : string)
| TypeError
| ValueError
| IndexError
| ZeroDivisionError.

Inductive result (A : Type) :=
| Ok (a : A)
| Raise (e : exn).
Arguments Ok {A} a.
Arguments Raise {A} e.

Definition bind {A B} (m : result A) (k : A -> result B) : result B :=
  match m with
  | Ok a => k a
  | Raise e => Raise e
  end.

Notation "x <-- m ;; k" := (bind m (fun x => k))
  (at level 100, m at next level, right associativity).

(** ** Python sequences *)

Module PySeq.

(** [l[0]] and [l[-1]] *)
Definition first {A} (l : list A) : result A :=
  match l with
  | x :: _ => Ok x
  | [] => Raise IndexError
  end.

Definition last {A} (l : list A) : result A := first (rev l).

End PySeq.

(** ** Python string primitives *)

Module PyStr.

(** [len(s)] *)
Definition len (s : string) : nat := String.length s.

(** [str.isspace] on one character, for code points below 256. *)
Definition isspace (c : ascii) : bool :=
  let n := nat_of_ascii c in
  ((9 <=? n) && (n <=? 13) || (28 <=? n) && (n <=? 32)
   || (n =? 133) || (n =? 160))%nat.

(** [s[n:]] for [n >= 0] *)
Fixpoint drop (n : nat) (s : string) : string :=
  match n, s with
  | O, _ => s
  | S n', String _ s' => drop n' s'
  | S _, EmptyString => EmptyString
  end.

(** [s[:n]] for [n >= 0] *)
Fixpoint take (n : nat) (s : string) : string :=
  match n, s with
  | O, _ => EmptyString
  | S n', String c s' => String c (take n' s')
  | S _, EmptyString => EmptyString
  end.

(** [s[:-n]] for [n > 0] *)
Definition drop_last (n : nat) (s : string) : string :=
  take (len s - n) s.

(** [s.startswith(p)] *)
Definition startswith (p s : string) : bool := String.prefix p s.

(** [s.endswith(p)] *)
Definition endswith (p s : string) : bool :=
  (len p <=? len s)%nat && String.eqb (drop (len s - len p) s) p.

(** [s.lstrip()] *)
Fixpoint lstrip (s : string) : string :=
  match s with
  | EmptyString => EmptyString
  | String c s' => if isspace c then lstrip s' else s
  end.

(** [s.rstrip()] *)
Fixpoint rstrip (s : string) : string :=
  match s with
  | EmptyString => EmptyString
  | String c s' =>
      match rstrip s' with
      | EmptyString => if isspace c then EmptyString else String c EmptyString
      | r => String c r
      end
  end.

(** [s.strip()] *)
Definition strip (s : string) : string := rstrip (lstrip s).

(** [s.split(sep)] for a one-character separator: never empty. *)
Fixpoint split (sep : ascii) (s : string) : list string :=
  match s with
  | EmptyString => [EmptyString]
  | String c s' =>
      if Ascii.eqb c sep then EmptyString :: split sep s'
      else match split sep s' with
           | t :: ts => String c t :: ts
           | [] => [String c EmptyString]
           end
  end.

(** The longest prefix without white space. *)
Fixpoint word (s : string) : string :=
  match s with
  | EmptyString => EmptyString
  | String c s' => if isspace c then EmptyString else String c (word s')
  end.

(** [s.split()[0]]: the first white-space separated word; [IndexError]
    when [s] has none. *)
Definition first_word (s : string) : result string :=
  match lstrip s with
  | EmptyString => Raise IndexError
  | t => Ok (word t)
  end.

(** [s.replace(old, "")] for non-empty [old]: occurrences are found from
    the left and do not overlap.  [skip] counts the characters of the
    occurrence being deleted that are still to be passed over. *)
Fixpoint remove_from (old : string) (skip : nat) (s : string) : string :=
  match s with
  | EmptyString => EmptyString
  | String c s' =>
      match skip with
      | S k => remove_from old k s'
      | O => if String.prefix old s then remove_from old (len old - 1) s'
             else String c (remove_from old O s')
      end
  end.

Definition remove (old s : string) : string := remove_from old O s.

(** [c in s] for a character [c] *)
Fixpoint contains (c : ascii) (s : string) : bool :=
  match s with
  | EmptyString => false
  | String c' s' => Ascii.eqb c c' || contains c s'
  end.

(** Whether [s] holds white space. *)
Fixpoint has_space (s : string) : bool :=
  match s with
  | EmptyString => false
  | String c s' => isspace c || has_space s'
  end.

(** [s.ljust(w)] and [s.rjust(w)], as done by the format specs [<w], [>w] *)
Fixpoint spaces (n : nat) : string :=
  match n with
  | O => EmptyString
  | S n' => String " " (spaces n')
  end.

Definition ljust (w : nat) (s : string) : string :=
  String.append s (spaces (w - len s)).

Definition rjust (w : nat) (s : string) : string :=
  String.append (spaces (w - len s)) s.

(** [str(n)] for an integer *)
Definition of_Z (n : Z) : string := NilZero.string_of_int (Z.to_int n).

(** An integer zero-padded on the left to [w] digits ([n >= 0]). *)
Fixpoint zeros (n : nat) : string :=
  match n with
  | O => EmptyString
  | S n' => String "0" (zeros n')
  end.

Definition zfill (w : nat) (n : Z) : string :=
  let s := of_Z n in String.append (zeros (w - len s)) s.

End PyStr.

(** ** Dates: the part of [datetime] the scripts use *)

Module PyDate.

(** A naive [datetime]; neither script produces microseconds. *)
Record datetime := mk_datetime {
  year : Z; month : Z; day : Z;
  hour : Z; minute : Z; second : Z
}.

Definition is_leap (y : Z) : bool :=
  (y mod 4 =? 0) && (negb (y mod 100 =? 0) || (y mod 400 =? 0)).

Definition days_in_month (y m : Z) : Z :=
  if (m =? 2) && is_leap y then 29
  else nth (Z.to_nat m) [-1; 31; 28; 31; 30; 31; 30; 31; 31; 30; 31; 30; 31] 0.

Definition days_before_year (y : Z) : Z :=
  let y := y - 1 in y * 365 + y / 4 - y / 100 + y / 400.

Definition days_before_month (y m : Z) : Z :=
  nth (Z.to_nat m) [-1; 0; 31; 59; 90; 120; 151; 181; 212; 243; 273; 304; 334] 0
  + (if (2 <? m) && is_leap y then 1 else 0).

(** [d.toordinal()]: 1 for 0001-01-01. *)
Definition toordinal (d : datetime) : Z :=
  days_before_year (year d) + days_before_month (year d) (month d) + day d.

Definition seconds_of_day (d : datetime) : Z :=
  hour d * 3600 + minute d * 60 + second d.

(** The range checks of the [datetime] constructor. *)
Definition valid (d : datetime) : bool :=
  (1 <=? year d) && (year d <=? 9999)
  && (1 <=? month d) && (month d <=? 12)
  && (1 <=? day d) && (day d <=? days_in_month (year d) (month d))
  && (0 <=? hour d) && (hour d <=? 23)
  && (0 <=? minute d) && (minute d <=? 59)
  && (0 <=? second d) && (second d <=? 59).

Definition make (y m d H M sec : Z) : result datetime :=
  let x := mk_datetime y m d H M sec in
  if valid x then Ok x else Raise ValueError.

(** [a <= b]: datetimes compare field by field. *)
Definition fields (d : datetime) : list Z :=
  [year d; month d; day d; hour d; minute d; second d].

Fixpoint lex_leb (a b : list Z) : bool :=
  match a, b with
  | x :: a', y :: b' => (x <? y) || ((x =? y) && lex_leb a' b')
  | _, _ => true
  end.

Definition leb (a b : datetime) : bool := lex_leb (fields a) (fields b).

Definition le (a b : datetime) : Prop := leb a b = true.

(** A datetime without a time of day, as ['%Y-%m-%d'] gives it. *)
Definition midnight (d : datetime) : Prop :=
  hour d = 0 /\ minute d = 0 /\ second d = 0.

(** The two datetimes fall on the same calendar day. *)
Definition same_day (a b : datetime) : Prop :=
  year a = year b /\ month a = month b /\ day a = day b.

(** [lo] is an earliest and [hi] a latest element of [l]. *)
Definition bounds (lo hi : datetime) (l : list datetime) : Prop :=
  In lo l /\ In hi l /\ forall d, In d l -> le lo d /\ le d hi.

(** [(a - b).days]: a [timedelta] keeps [0 <= seconds < 86400], so the
    days are rounded towards minus infinity. *)
Definition sub_days (a b : datetime) : Z :=
  toordinal a - toordinal b + (seconds_of_day a - seconds_of_day b) / 86400.

(** [d.strftime('%Y-%m-%d')]: CPython hands the format to the C library,
    and the C library of Linux prints the year of [%Y] as it is, without
    padding (['999-01-01'] for the year 999); month and day have two
    digits. *)
Definition strftime_ymd (d : datetime) : string :=
  String.append (PyStr.of_Z (year d))
    (String "-" (String.append (PyStr.zfill 2 (month d))
       (String "-" (PyStr.zfill 2 (day d))))).

(** [sorted(dates)]: a stable insertion sort. *)
Fixpoint insert (x : datetime) (l : list datetime) : list datetime :=
  match l with
  | [] => [x]
  | y :: l' => if leb x y then x :: l else y :: insert x l'
  end.

Definition sorted (l : list datetime) : list datetime :=
  fold_right insert [] l.

(** *** [datetime.strptime]

    [_strptime] turns the format into a regular expression, matches it at
    the start of the input with a backtracking matcher, takes the first
    match in the order of the alternatives and rejects the input when
    characters remain after it.  A matcher here lists its matches in that
    order, each with the rest of the input. *)

Definition matcher (A : Type) := string -> list (A * string).

Definition digit (c : ascii) : option Z :=
  let n := nat_of_ascii c in
  if ((48 <=? n) && (n <=? 57))%nat then Some (Z.of_nat n - 48) else None.

(** One digit [a] with [p a]. *)
Definition one (p : Z -> bool) : matcher Z := fun s =>
  match s with
  | String c r =>
      match digit c with
      | Some a => if p a then [(a, r)] else []
      | None => []
      end
  | EmptyString => []
  end.

(** Two digits [a], [b] with [p a b], read as the number [10 a + b]. *)
Definition two (p : Z -> Z -> bool) : matcher Z := fun s =>
  match s with
  | String c (String c' r) =>
      match digit c, digit c' with
      | Some a, Some b => if p a b then [(10 * a + b, r)] else []
      | _, _ => []
      end
  | _ => []
  end.

Definition alt {A} (m1 m2 : matcher A) : matcher A := fun s => m1 s ++ m2 s.

Definition seq {A B} (m : matcher A) (k : A -> matcher B) : matcher B :=
  fun s => flat_map (fun '(a, r) => k a r) (m s).

Definition ret {A} (a : A) : matcher A := fun s => [(a, s)].

Definition lit (c : ascii) : matcher unit := fun s =>
  match s with
  | String c' r => if Ascii.eqb c c' then [(tt, r)] else []
  | EmptyString => []
  end.

(** [\s+]: greedy, so the longest run of white space comes first. *)
Fixpoint spaces_star (s : string) : list (unit * string) :=
  match s with
  | String c r => if PyStr.isspace c then spaces_star r ++ [(tt, s)] else [(tt, s)]
  | EmptyString => [(tt, s)]
  end.

Definition spaces_plus : matcher unit := fun s =>
  match s with
  | String c r => if PyStr.isspace c then spaces_star r else []
  | EmptyString => []
  end.

(** [%Y]: [\d\d\d\d] *)
Definition re_Y : matcher Z :=
  seq (two (fun _ _ => true)) (fun hi =>
  seq (two (fun _ _ => true)) (fun lo => ret (100 * hi + lo))).

(** [%m]: [1[0-2]|0[1-9]|[1-9]] *)
Definition re_m : matcher Z :=
  alt (two (fun a b => (a =? 1) && (b <=? 2)))
 (alt (two (fun a b => (a =? 0) && (1 <=? b)))
      (one (fun a => 1 <=? a))).

(** [%d]: [3[0-1]|[1-2]\d|0[1-9]|[1-9]| [1-9]] *)
Definition re_d : matcher Z :=
  alt (two (fun a b => (a =? 3) && (b <=? 1)))
 (alt (two (fun a b => (1 <=? a) && (a <=? 2)))
 (alt (two (fun a b => (a =? 0) && (1 <=? b)))
 (alt (one (fun a => 1 <=? a))
      (seq (lit " ") (fun _ => one (fun a => 1 <=? a)))))).

(** [%H]: [2[0-3]|[0-1]\d|\d] *)
Definition re_H : matcher Z :=
  alt (two (fun a b => (a =? 2) && (b <=? 3)))
 (alt (two (fun a b => a <=? 1))
      (one (fun _ => true))).

(** [%M]: [[0-5]\d|\d] *)
Definition re_M : matcher Z :=
  alt (two (fun a b => a <=? 5)) (one (fun _ => true)).

(** [%S]: [6[0-1]|[0-5]\d|\d] *)
Definition re_S : matcher Z :=
  alt (two (fun a b => (a =? 6) && (b <=? 1)))
 (alt (two (fun a b => a <=? 5))
      (one (fun _ => true))).

(** The expression of ['%Y-%m-%d'] *)
Definition re_ymd : matcher (Z * Z * Z) :=
  seq re_Y (fun y => seq (lit "-") (fun _ =>
  seq re_m (fun m => seq (lit "-") (fun _ =>
  seq re_d (fun d => ret (y, m, d)))))).

(** The expression of ['%Y-%m-%d %H:%M:%S']; the blank of the format
    stands for [\s+]. *)
Definition re_ymd_hms : matcher (Z * Z * Z * Z * Z * Z) :=
  seq re_ymd (fun '(y, m, d) => seq spaces_plus (fun _ =>
  seq re_H (fun H => seq (lit ":") (fun _ =>
  seq re_M (fun M => seq (lit ":") (fun _ =>
  seq re_S (fun sec => ret (y, m, d, H, M, sec)))))))).

(** The first match, which has to take the whole input. *)
Definition full_match {A} (m : matcher A) (s : string) : result A :=
  match m s with
  | (a, EmptyString) :: _ => Ok a
  | _ => Raise ValueError
  end.

(** [datetime.strptime(s, '%Y-%m-%d')] *)
Definition strptime_ymd (s : string) : result datetime :=
  f <-- full_match re_ymd s ;;
  let '(y, m, d) := f in make y m d 0 0 0.

(** [datetime.strptime(s, '%Y-%m-%d %H:%M:%S')] *)
Definition strptime_ymd_hms (s : string) : result datetime :=
  f <-- full_match re_ymd_hms s ;;
  let '(y, m, d, H, M, sec) := f in make y m d H M sec.

(** [strptime] applied to a cell of the row, which is [None] for a short
    line: [TypeError], the argument is not a string. *)
Definition strptime_cell (f : string -> result datetime)
    (v : option string) : result datetime :=
  match v with
  | Some s => f s
  | None => Raise TypeError
  end.

End PyDate.

(** ** Floats: [a / b] on integers and the format spec [.1f] *)

Module PyFloat.

Definition prec : Z := 53.
Definition emax : Z := 1024.

Definition of_int (n : Z) : spec_float :=
  match n with
  | Z0 => S754_zero false
  | Zpos p => S754_finite false p 0
  | Zneg p => S754_finite true p 0
  end.

(** [a / b] on two integers: the binary64 number nearest to the quotient
    (ties to even); [ZeroDivisionError] when [b] is zero. *)
Definition truediv (a b : Z) : result spec_float :=
  if b =? 0 then Raise ZeroDivisionError
  else Ok (SFdiv prec emax (of_int a) (of_int b)).

(** The integer nearest to [10 * m * 2^e], ties to even. *)
Definition tenths (m : positive) (e : Z) : Z :=
  let n := 10 * Zpos m in
  if 0 <=? e then n * 2 ^ e
  else
    let d := 2 ^ (- e) in
    let q := n / d in
    match 2 * (n mod d) ?= d with
    | Lt => q
    | Gt => q + 1
    | Eq => if Z.even q then q else q + 1
    end.

Definition sign (s : bool) : string := if s then "-" else "".

(** [format(x, '.1f')]: the decimal with one fractional digit nearest to
    the exact value of [x]. *)
Definition format_1f (x : spec_float) : string :=
  match x with
  | S754_zero s => String.append (sign s) "0.0"
  | S754_infinity s => String.append (sign s) "inf"
  | S754_nan => "nan"
  | S754_finite s m e =>
      let t := tenths m e in
      String.append (sign s)
        (String.append (PyStr.of_Z (t / 10))
           (String "." (PyStr.of_Z (t mod 10))))
  end.

End PyFloat.

(** ** The aggregation dictionaries

    Both scripts declare
    [defaultdict(lambda: {"count": 0, "dates": []})] three times. *)

Module Stats.

Section Bucket.
Context {D : Type}.

Record bucket := mk_bucket { count : Z; dates : list D }.

Definition stats := list (string * bucket).

Definition fresh : bucket := {| count := 0; dates := [] |}.

(** [stats[k]] followed by the in-place update [f] of the bucket; a
    missing key is first bound to [fresh], at the end of the dictionary. *)
Fixpoint update (k : string) (f : bucket -> bucket) (m : stats) : stats :=
  match m with
  | [] => [(k, f fresh)]
  | (k', b) :: m' =>
      if String.eqb k k' then (k', f b) :: m'
      else (k', b) :: update k f m'
  end.

(** [b["count"] += 1] *)
Definition incr (b : bucket) : bucket :=
  {| count := count b + 1; dates := dates b |}.

(** [b["dates"].append(d)] *)
Definition append (d : D) (b : bucket) : bucket :=
  {| count := count b; dates := dates b ++ [d] |}.

Fixpoint lookup (k : string) (m : stats) : option bucket :=
  match m with
  | [] => None
  | (k', b) :: m' => if String.eqb k k' then Some b else lookup k m'
  end.

(** The count shown for [k]: [0] while [k] has no bucket. *)
Definition count_of (k : string) (m : stats) : Z :=
  match lookup k m with
  | Some b => count b
  | None => 0
  end.

(** The dates held for [k]. *)
Definition dates_of (k : string) (m : stats) : list D :=
  match lookup k m with
  | Some b => dates b
  | None => []
  end.
(** [list(stats)]: the keys, in insertion order. *)
Definition keys (m : stats) : list string := map fst m.

(** The counts of all buckets added up. *)
Definition total (m : stats) : Z :=
  fold_right (fun kb acc => count (snd kb) + acc) 0 m.

End Bucket.
Arguments bucket : clear implicits.
Arguments stats : clear implicits.

(** [sorted(l, key=..., reverse=True)] and
    [l.sort(key=..., reverse=True)]: descending in the key, elements with
    equal keys staying in their order. *)
Section SortDesc.
Context {A : Type} (key : A -> Z).

Fixpoint insert_desc (x : A) (l : list A) : list A :=
  match l with
  | [] => [x]
  | y :: l' => if key x <? key y then y :: insert_desc x l' else x :: l
  end.

Definition sort_desc (l : list A) : list A := fold_right insert_desc [] l.
End SortDesc.

(** A cell of a row used as a grouping key: [if v and v != 'NULL']. *)
Definition grouping (v : option string) : option string :=
  match v with
  | Some s => if String.eqb s "" || String.eqb s "NULL" then None else Some s
  | None => None
  end.

End Stats.

(** A row of [csv.DictReader]: column name to cell, a cell being [None]
    when the line is shorter than the header. *)
Abbreviation row := (gmap string (option string)).

(** A cell that names no group: absent from a short line, empty, or the
    sentinel. *)
Definition blank (v : option string) : Prop :=
  v = None \/ v = Some "" \/ v = Some "NULL".

(** The rows [r] and [r'] have the same cell, or both none, in column [k]. *)
Definition same_cell (k : string) (r r' : row) : Prop := r !! k = r' !! k.

(** A row with the four columns the scripts read. *)
Definition complete_row (data_pubblicazione category geo template_articolo
    : option string) : row :=
  <["data_pubblicazione" := data_pubblicazione]>
    (<["category" := category]>
       (<["geo" := geo]>
          (<["template_articolo" := template_articolo]> ∅))).

(** ** scripts/analyze-csv.py: the table entry point *)

Module AnalyzeCsv.
Import PyDate Stats.

(** The three module-level dictionaries; their buckets hold parsed
    [datetime]s. *)
Record tables := mk_tables {
  category_stats : stats datetime;
  geo_stats : stats datetime;
  template_stats : stats datetime
}.

Definition empty : tables := mk_tables [] [] [].

(** [row[k]] *)
Definition getitem (r : row) (k : string) : result (option string) :=
  match r !! k with
  | Some v => Ok v
  | None => Raise (KeyError k)
  end.

(** [stats[k]["count"] += 1; stats[k]["dates"].append(date)] *)
Definition record (k : string) (date : datetime) (m : stats datetime)
  : stats datetime :=
  update k (append date) (update k incr m).

(** [template.replace('templates/post-', '').replace('.php', '')] *)
Definition formatted_template (template : string) : string :=
  PyStr.remove ".php" (PyStr.remove "templates/post-" template).

(** The body of [for row in reader]. *)
Definition step (st : tables) (r : row) : result tables :=
  date_str <-- getitem r "data_pubblicazione" ;;
  match strptime_cell strptime_ymd_hms date_str with
  | Raise _ => Ok st
  | Ok date =>
      category <-- getitem r "category" ;;
      let cs := match grouping category with
                | Some c => record c date (category_stats st)
                | None => category_stats st
                end in
      geo <-- getitem r "geo" ;;
      let gs := match grouping geo with
                | Some g => record g date (geo_stats st)
                | None => geo_stats st
                end in
      template <-- getitem r "template_articolo" ;;
      let ts := match grouping template with
                | Some t => record (formatted_template t) date (template_stats st)
                | None => template_stats st
                end in
      Ok (mk_tables cs gs ts)
  end.

(** The whole loop, from the state [st]. *)
Fixpoint run (st : tables) (rows : list row) : result tables :=
  match rows with
  | [] => Ok st
  | r :: rows' => st' <-- step st r ;; run st' rows'
  end.

Definition aggregate (rows : list row) : result tables := run empty rows.

Definition calculate_frequency (dates : list datetime) : result string :=
  if (length dates <? 2)%nat then Ok "N/A"
  else
    let sorted_dates := sorted dates in
    first_date <-- PySeq.first sorted_dates ;;
    last_date <-- PySeq.last sorted_dates ;;
    let total_days := sub_days last_date first_date in
    if total_days =? 0 then Ok "< 1 day"
    else
      avg_days <-- PyFloat.truediv total_days (Z.of_nat (length dates) - 1) ;;
      Ok (String.append (PyFloat.format_1f avg_days) " days").

(** [max(dates)]: the first of the greatest elements. *)
Fixpoint max_from (m : datetime) (l : list datetime) : datetime :=
  match l with
  | [] => m
  | x :: l' => max_from (if leb x m then m else x) l'
  end.

(** The cells of one printed line. *)
Record cells := mk_cells {
  display_name : string;
  shown_count : Z;
  last_date : string;
  frequency : string
}.

Definition cells_of (name : string) (data : bucket datetime) : result cells :=
  let last_date := match dates data with
                   | d :: l => strftime_ymd (max_from d l)
                   | [] => "N/A"
                   end in
  frequency <-- calculate_frequency (dates data) ;;
  let display_name :=
    if (45 <? PyStr.len name)%nat
    then String.append (PyStr.take 42 name) "..." else name in
  Ok (mk_cells display_name (count data) last_date frequency).

(** The last column of the data line: [1 every {frequency:<10}]. *)
Definition frequency_column (c : cells) : string :=
  String.append "1 every " (PyStr.ljust 10 (frequency c)).

(** The f-string of the data line. *)
Definition format_cells (c : cells) : string :=
  String.append (PyStr.ljust 45 (display_name c))
 (String.append " "
 (String.append (PyStr.rjust 8 (PyStr.of_Z (shown_count c)))
 (String.append " "
 (String.append (PyStr.ljust 12 (last_date c))
 (String.append " " (frequency_column c)))))).

Fixpoint table_cells (l : list (string * bucket datetime)) : result (list cells) :=
  match l with
  | [] => Ok []
  | (name, data) :: l' =>
      c <-- cells_of name data ;;
      cs <-- table_cells l' ;;
      Ok (c :: cs)
  end.

(** The data lines of [print_table], in printing order. *)
Definition table (m : stats datetime) : result (list cells) :=
  table_cells (sort_desc (fun x => count (snd x)) m).

Fixpoint repeat_char (c : ascii) (n : nat) : string :=
  match n with
  | O => EmptyString
  | S n' => String c (repeat_char c n')
  end.

(** The lines written by [print_table(title, stats)]. *)
Definition print_table (title : string) (m : stats datetime)
  : result (list string) :=
  cs <-- table m ;;
  Ok ([ ""; repeat_char "=" 80; String " " title; repeat_char "=" 80;
        String.append (PyStr.ljust 45 "Name")
       (String.append " "
       (String.append (PyStr.rjust 8 "Count")
       (String.append " "
       (String.append (PyStr.ljust 12 "Last Entry")
       (String.append " " (PyStr.ljust 15 "Frequency"))))));
        repeat_char "-" 80 ]
      ++ map format_cells cs).

(** The lines written by the script on the rows [rows]. *)
Definition main (rows : list row) : result (list string) :=
  st <-- aggregate rows ;;
  t1 <-- print_table "CATEGORY STATISTICS" (category_stats st) ;;
  t2 <-- print_table "GEO STATISTICS" (geo_stats st) ;;
  t3 <-- print_table "TEMPLATE STATISTICS" (template_stats st) ;;
  Ok (t1 ++ t2 ++ t3
      ++ [ ""; ""; "Summary:";
           String.append "Total unique categories: "
             (PyStr.of_Z (Z.of_nat (length (category_stats st))));
           String.append "Total unique geo locations: "
             (PyStr.of_Z (Z.of_nat (length (geo_stats st))));
           String.append "Total unique templates: "
             (PyStr.of_Z (Z.of_nat (length (template_stats st)))) ]).

(** What holds of every bucket the loop builds: each increment of the
    count comes with one appended date, and dates come out of [strptime]. *)
Definition wf_bucket (b : bucket datetime) : Prop :=
  1 <= count b /\ count b = Z.of_nat (length (dates b))
  /\ Forall (fun d => valid d = true) (dates b).

Definition wf_stats (m : stats datetime) : Prop :=
  Forall (fun kb => wf_bucket (snd kb)) m.

Definition wf_tables (st : tables) : Prop :=
  wf_stats (category_stats st) /\ wf_stats (geo_stats st)
  /\ wf_stats (template_stats st).

(** The three dictionaries of a state. *)
Definition groupings (st : tables) : list (stats datetime) :=
  [category_stats st; geo_stats st; template_stats st].

(** The loop counts a row when its date parses. *)
Definition dated (r : row) : bool :=
  match r !! "data_pubblicazione" with
  | Some v =>
      match strptime_cell strptime_ymd_hms v with
      | Ok _ => true
      | Raise _ => false
      end
  | None => false
  end.

(** The bucket a counted row names in the column [col], the cell turned
    into a key by [key_of]. *)
Definition cell_names (key_of : string -> string) (col : string) (r : row)
  : list string :=
  if dated r then
    match r !! col with
    | Some v =>
        match grouping v with
        | Some g => [key_of g]
        | None => []
        end
    | None => []
    end
  else [].

Definition category_names : row -> list string := cell_names id "category".
Definition geo_names : row -> list string := cell_names id "geo".
Definition template_names : row -> list string :=
  cell_names formatted_template "template_articolo".

End AnalyzeCsv.

(** ** scripts/generate-csv-stats.py: the JSON entry point *)

Module GenerateCsvStats.
Import PyDate Stats.

(** The three dictionaries; their buckets hold the date strings. *)
Record tables := mk_tables {
  category_stats : stats string;
  geo_stats : stats string;
  template_stats : stats string
}.

Definition empty : tables := mk_tables [] [] [].

(** [row.get(k, default)] *)
Definition get (r : row) (k : string) (default : string) : option string :=
  match r !! k with
  | Some v => v
  | None => Some default
  end.

(** [stats[k]["count"] += 1] and, [if date_str], the append of it. *)
Definition record (k : string) (date_str : option string) (m : stats string)
  : stats string :=
  let m' := update k incr m in
  match date_str with
  | Some d => if String.eqb d "" then m' else update k (append d) m'
  | None => m'
  end.

(** [for cat in category.split(',')] with its body. *)
Fixpoint record_tokens (tokens : list string) (date_str : option string)
    (m : stats string) : stats string :=
  match tokens with
  | [] => m
  | cat :: tokens' =>
      let cat := PyStr.strip cat in
      record_tokens tokens' date_str
        (if String.eqb cat "" then m else record cat date_str m)
  end.

Definition clean_template (template : string) : string :=
  let clean_template := template in
  let clean_template :=
    if PyStr.startswith "templates/post-" clean_template
    then PyStr.drop 15 clean_template else clean_template in
  let clean_template :=
    if PyStr.endswith ".php" clean_template
    then PyStr.drop_last 4 clean_template else clean_template in
  clean_template.

(** The body of [for row in rows]. *)
Definition step (st : tables) (r : row) : tables :=
  let date_str := get r "data_pubblicazione" "" in
  let category := get r "category" "NULL" in
  let geo := get r "geo" "NULL" in
  let template := get r "template_articolo" "NULL" in
  let cs := match grouping category with
            | Some c => record_tokens (PyStr.split "," c) date_str (category_stats st)
            | None => category_stats st
            end in
  let gs := match grouping geo with
            | Some g => record g date_str (geo_stats st)
            | None => geo_stats st
            end in
  let ts := match grouping template with
            | Some t => record (clean_template t) date_str (template_stats st)
            | None => template_stats st
            end in
  mk_tables cs gs ts.

Definition aggregate (rows : list row) : tables := fold_left step rows empty.

(** [datetime.strptime(d.split()[0], '%Y-%m-%d')] *)
Definition parse (d : string) : result datetime :=
  w <-- PyStr.first_word d ;; strptime_ymd w.

(** The loop filling [parsed_dates]: [except: pass] drops a string that
    does not parse. *)
Fixpoint parsed_dates (dates : list string) : list datetime :=
  match dates with
  | [] => []
  | d :: dates' =>
      match parse d with
      | Ok x => x :: parsed_dates dates'
      | Raise _ => parsed_dates dates'
      end
  end.

(** One element of a result list. *)
Record entry := mk_entry {
  name : string;
  count : Z;
  lastEntry : string;
  frequency : string
}.

(** The body of the loop of [calculate_stats]. *)
Definition entry_of (name : string) (data : bucket string) : result entry :=
  let count := Stats.count data in
  match parsed_dates (dates data) with
  | [] => Ok (mk_entry name count "N/A" "N/A")
  | _ :: _ =>
      let parsed := sorted (parsed_dates (dates data)) in
      last_date <-- PySeq.last parsed ;;
      let last_entry := strftime_ymd last_date in
      if (1 <? length parsed)%nat then
        first_date <-- PySeq.first parsed ;;
        let total_days := sub_days last_date first_date in
        if (0 <? total_days) && (1 <? count) then
          avg_days <-- PyFloat.truediv total_days (count - 1) ;;
          Ok (mk_entry name count last_entry
                (String.append "1 every "
                   (String.append (PyFloat.format_1f avg_days) " days")))
        else Ok (mk_entry name count last_entry "N/A")
      else Ok (mk_entry name count last_entry "N/A")
  end.

Fixpoint entries (l : list (string * bucket string)) : result (list entry) :=
  match l with
  | [] => Ok []
  | (name, data) :: l' =>
      e <-- entry_of name data ;;
      es <-- entries l' ;;
      Ok (e :: es)
  end.

Definition calculate_stats (stats_dict : stats string) : result (list entry) :=
  results <-- entries stats_dict ;;
  Ok (sort_desc count results).

(** The dictionary handed to [json.dumps]. *)
Record output := mk_output {
  categories : list entry;
  geos : list entry;
  templates : list entry;
  totalArticles : Z
}.

Definition main (rows : list row) : result output :=
  let st := aggregate rows in
  category_results <-- calculate_stats (category_stats st) ;;
  geo_results <-- calculate_stats (geo_stats st) ;;
  template_results <-- calculate_stats (template_stats st) ;;
  Ok (mk_output category_results geo_results template_results
        (Z.of_nat (length rows))).

(** What [record] does to the bucket of its key. *)
Definition recorded (date_str : option string) (b : bucket string)
  : bucket string :=
  match date_str with
  | Some d => if String.eqb d "" then incr b else append d (incr b)
  | None => incr b
  end.

(** What holds of every bucket the loop builds: not every increment of the
    count comes with a date. *)
Definition wf_bucket (b : bucket string) : Prop :=
  1 <= Stats.count b /\ Z.of_nat (length (dates b)) <= Stats.count b.

Definition wf_stats (m : stats string) : Prop :=
  Forall (fun kb => wf_bucket (snd kb)) m.

Definition wf_tables (st : tables) : Prop :=
  wf_stats (category_stats st) /\ wf_stats (geo_stats st)
  /\ wf_stats (template_stats st).

(** The three dictionaries of a state. *)
Definition groupings (st : tables) : list (stats string) :=
  [category_stats st; geo_stats st; template_stats st].

(** A date cell that [calculate_stats] will not parse. *)
Definition unparsed (date_str : option string) : Prop :=
  forall s, date_str = Some s -> exists e, parse s = Raise e.

(** The sum of the counts of a result list. *)
Definition sum_counts (l : list entry) : Z :=
  fold_right (fun e acc => count e + acc) 0 l.

(** The bucket keys a category cell stands for. *)
Definition category_keys (c : string) : list string :=
  List.filter (fun t => negb (String.eqb t "")) (map PyStr.strip (PyStr.split "," c)).

(** How many times the cell names the key [k]. *)
Definition occurrences (k : string) (c : string) : Z :=
  Z.of_nat (count_occ String.string_dec (category_keys c) k).

(** The buckets a row names in each grouping, in the order the loop
    records them. *)
Definition category_names (r : row) : list string :=
  match grouping (get r "category" "NULL") with
  | Some c => category_keys c
  | None => []
  end.

Definition geo_names (r : row) : list string :=
  match grouping (get r "geo" "NULL") with
  | Some g => [g]
  | None => []
  end.

Definition template_names (r : row) : list string :=
  match grouping (get r "template_articolo" "NULL") with
  | Some t => [clean_template t]
  | None => []
  end.

End GenerateCsvStats.

(** * Properties *)

(** ** The error monad *)

Lemma bind_Ok {A B} (m : result A) (k : A -> result B) (b : B) :
  bind m k = Ok b -> exists a, m = Ok a /\ k a = Ok b.
Proof. destruct m as [a|e]; simpl; [eauto | discriminate]. Qed.

(** ** The dictionaries *)

Section StatsFacts.
Context {D : Type}.
Implicit Types (m : Stats.stats D) (b : Stats.bucket D) (k : string).

Lemma lookup_update_eq k f m :
  Stats.lookup k (Stats.update k f m)
  = Some (f (default Stats.fresh (Stats.lookup k m))).
Proof.
  induction m as [|[k' b] m IH]; simpl.
  - now rewrite String.eqb_refl.
  - destruct (String.eqb k k') eqn:E; simpl; rewrite E; auto.
Qed.

Lemma lookup_update_ne k k' f m :
  k <> k' -> Stats.lookup k' (Stats.update k f m) = Stats.lookup k' m.
Proof.
  intros Hne. induction m as [|[k0 b] m IH]; simpl.
  - destruct (String.eqb k' k) eqn:E; auto.
    apply String.eqb_eq in E. congruence.
  - destruct (String.eqb k k0) eqn:E; simpl.
    + apply String.eqb_eq in E. subst k0.
      destruct (String.eqb k' k) eqn:E'; auto.
      apply String.eqb_eq in E'. congruence.
    + now rewrite IH.
Qed.

Lemma update_update k f g m :
  Stats.update k g (Stats.update k f m) = Stats.update k (fun b => g (f b)) m.
Proof.
  induction m as [|[k' b] m IH]; simpl.
  - now rewrite String.eqb_refl.
  - destruct (String.eqb k k') eqn:E; simpl; rewrite E; congruence.
Qed.

Lemma count_of_update_eq k f m :
  Stats.count_of k (Stats.update k f m)
  = Stats.count (f (default Stats.fresh (Stats.lookup k m))).
Proof. unfold Stats.count_of. now rewrite lookup_update_eq. Qed.

Lemma count_of_update_ne k k' f m :
  k <> k' -> Stats.count_of k' (Stats.update k f m) = Stats.count_of k' m.
Proof. intros. unfold Stats.count_of. now rewrite lookup_update_ne. Qed.

Lemma dates_of_update_eq k f m :
  Stats.dates_of k (Stats.update k f m)
  = Stats.dates (f (default Stats.fresh (Stats.lookup k m))).
Proof. unfold Stats.dates_of. now rewrite lookup_update_eq. Qed.

Lemma dates_of_update_ne k k' f m :
  k <> k' -> Stats.dates_of k' (Stats.update k f m) = Stats.dates_of k' m.
Proof. intros. unfold Stats.dates_of. now rewrite lookup_update_ne. Qed.

(** A property of buckets that the update keeps, holds of every bucket. *)
Lemma Forall_update (P : Stats.bucket D -> Prop) k f m :
  Forall (fun kb => P (snd kb)) m ->
  P (f Stats.fresh) -> (forall b, P b -> P (f b)) ->
  Forall (fun kb => P (snd kb)) (Stats.update k f m).
Proof.
  intros Hm H0 Hf. induction Hm as [|[k' b] m Hb Hm IH]; simpl.
  - constructor; auto.
  - destruct (String.eqb k k'); constructor; simpl in *; auto.
Qed.

End StatsFacts.

(** ** The order of datetimes and [sorted] *)

Section DateOrder.
Import PyDate.

Lemma lex_leb_total a b : lex_leb a b = true \/ lex_leb b a = true.
Proof.
  revert b. induction a as [|x a IH]; intros [|y b]; simpl; auto.
  destruct (IH b) as [H|H]; rewrite H;
    destruct (Z.ltb_spec x y), (Z.ltb_spec y x), (Z.eqb_spec x y),
      (Z.eqb_spec y x); simpl; auto; lia.
Qed.

Lemma lex_leb_refl a : lex_leb a a = true.
Proof.
  induction a as [|x a IH]; simpl; auto.
  rewrite IH, Z.eqb_refl. apply orb_true_r.
Qed.

Lemma lex_leb_trans a b c :
  length a = length b -> length b = length c ->
  lex_leb a b = true -> lex_leb b c = true -> lex_leb a c = true.
Proof.
  revert b c. induction a as [|x a IH]; intros [|y b] [|z c]; simpl;
    try discriminate; auto.
  intros Hab Hbc H1 H2.
  apply orb_true_iff in H1, H2. apply orb_true_iff.
  destruct H1 as [H1|H1], H2 as [H2|H2];
    rewrite ?andb_true_iff, ?Z.ltb_lt, ?Z.eqb_eq in *.
  - left. lia.
  - left. lia.
  - left. lia.
  - right. split; [lia|]. apply (IH b c); try lia; tauto.
Qed.

Lemma lex_leb_antisym a b :
  length a = length b ->
  lex_leb a b = true -> lex_leb b a = true -> a = b.
Proof.
  revert b. induction a as [|x a IH]; intros [|y b]; simpl;
    try discriminate; auto.
  intros Hl H1 H2.
  apply orb_true_iff in H1, H2.
  rewrite ?andb_true_iff, ?Z.ltb_lt, ?Z.eqb_eq in *.
  assert (x = y) by lia. subst y. f_equal.
  apply IH; try lia; destruct H1, H2; try lia; tauto.
Qed.

Lemma le_total a b : le a b \/ le b a.
Proof. apply lex_leb_total. Qed.

Lemma le_refl a : le a a.
Proof. apply lex_leb_refl. Qed.

Lemma le_trans a b c : le a b -> le b c -> le a c.
Proof. apply lex_leb_trans; reflexivity. Qed.

Lemma le_antisym a b : le a b -> le b a -> a = b.
Proof.
  intros H1 H2.
  assert (E : fields a = fields b) by (apply lex_leb_antisym; auto).
  destruct a, b. unfold fields in E. simpl in E. congruence.
Qed.

Lemma insert_perm x l : Permutation (insert x l) (x :: l).
Proof.
  induction l as [|y l IH]; simpl; auto.
  destruct (leb x y); auto.
  rewrite IH. apply perm_swap.
Qed.

Lemma sorted_perm l : Permutation (sorted l) l.
Proof.
  induction l as [|x l IH]; simpl; auto.
  rewrite insert_perm. now constructor.
Qed.

Lemma insert_sorted x l :
  StronglySorted le l -> StronglySorted le (insert x l).
Proof.
  induction 1 as [|y l Hs IH Hy]; simpl.
  - repeat constructor.
  - destruct (leb x y) eqn:E.
    + constructor; [now constructor|].
      constructor; [exact E|].
      eapply Forall_impl; [exact Hy|]. intros z Hz. now apply le_trans with y.
    + constructor; auto.
      eapply Permutation_Forall; [symmetry; apply insert_perm|].
      constructor; auto.
      destruct (le_total x y) as [H|H]; [unfold le in H; congruence | exact H].
Qed.

Lemma sorted_sorted l : StronglySorted le (sorted l).
Proof.
  induction l as [|x l IH]; simpl; [constructor | now apply insert_sorted].
Qed.

Lemma length_sorted l : length (sorted l) = length l.
Proof. apply Permutation_length, sorted_perm. Qed.

End DateOrder.

Lemma last_snoc {A} (l : list A) (z : A) : PySeq.last (l ++ [z]) = Ok z.
Proof. unfold PySeq.last. now rewrite rev_unit. Qed.

Lemma first_Ok {A} (l : list A) :
  l <> [] -> exists x t, l = x :: t /\ PySeq.first l = Ok x.
Proof. destruct l as [|x t]; [congruence | eauto]. Qed.

Lemma last_Ok {A} (l : list A) :
  l <> [] -> exists t z, l = t ++ [z] /\ PySeq.last l = Ok z.
Proof.
  intros H. destruct (exists_last H) as (t & z & ->).
  exists t, z. split; [reflexivity | apply last_snoc].
Qed.

Lemma StronglySorted_snoc {A} (R : A -> A -> Prop) (l : list A) (z : A) :
  StronglySorted R (l ++ [z]) -> Forall (fun y => R y z) l.
Proof.
  induction l as [|x l IH]; simpl; intros H; [constructor|].
  inversion H as [|? ? Hs Hx]; subst. constructor; auto.
  rewrite List.Forall_forall in Hx. apply Hx, in_or_app. right. now left.
Qed.

(** ** The ends of a sorted list of datetimes *)

Section SortedEnds.
Import PyDate.

(** [sorted(l)[0]] and [sorted(l)[-1]] exist for a non-empty [l] and are
    an earliest and a latest element of it. *)
Lemma sorted_ends l :
  l <> [] ->
  exists lo hi,
    PySeq.first (sorted l) = Ok lo /\ PySeq.last (sorted l) = Ok hi
    /\ bounds lo hi l.
Proof.
  intros Hne.
  assert (Hs : sorted l <> []).
  { intros E. apply Hne. apply length_zero_iff_nil.
    rewrite <- length_sorted, E. reflexivity. }
  destruct (first_Ok _ Hs) as (lo & t & Elo & Hlo).
  destruct (last_Ok _ Hs) as (t' & hi & Ehi & Hhi).
  exists lo, hi. split; [exact Hlo|]. split; [exact Hhi|].
  pose proof (sorted_sorted l) as Hsorted.
  pose proof (sorted_perm l) as Hp.
  assert (Hin : forall d, In d l <-> In d (sorted l)).
  { intros d. split; apply Permutation_in; [symmetry|]; exact Hp. }
  split; [|split].
  - apply Hin. rewrite Elo. now left.
  - apply Hin. rewrite Ehi. apply in_or_app. right. now left.
  - intros d Hd. apply Hin in Hd. split.
    + rewrite Elo in Hd, Hsorted. inversion Hsorted as [|? ? _ Hall]; subst.
      destruct Hd as [<-|Hd]; [apply le_refl|].
      rewrite List.Forall_forall in Hall. now apply Hall.
    + rewrite Ehi in Hd, Hsorted.
      apply StronglySorted_snoc in Hsorted.
      apply in_app_or in Hd. destruct Hd as [Hd|[<-|[]]]; [|apply le_refl].
      rewrite List.Forall_forall in Hsorted. now apply Hsorted.
Qed.

(** The ends are the only bounds: the order is antisymmetric. *)
Lemma bounds_unique lo hi lo' hi' l :
  bounds lo hi l -> bounds lo' hi' l -> lo = lo' /\ hi = hi'.
Proof.
  intros (Hlo & Hhi & H) (Hlo' & Hhi' & H').
  split; apply le_antisym.
  - apply H, Hlo'.
  - apply H', Hlo.
  - apply H', Hhi.
  - apply H, Hhi'.
Qed.

Lemma sorted_bounds lo hi l :
  bounds lo hi l ->
  PySeq.first (sorted l) = Ok lo /\ PySeq.last (sorted l) = Ok hi.
Proof.
  intros Hb.
  assert (Hne : l <> []) by (destruct Hb as (Hin & _); destruct l; [destruct Hin | congruence]).
  destruct (sorted_ends l Hne) as (lo' & hi' & H1 & H2 & Hb').
  destruct (bounds_unique _ _ _ _ _ Hb Hb') as [-> ->]. auto.
Qed.

Lemma valid_seconds d :
  valid d = true -> 0 <= seconds_of_day d < 86400.
Proof.
  unfold valid, seconds_of_day. rewrite !andb_true_iff, !Z.leb_le. lia.
Qed.

(** Ordered datetimes of one calendar day are less than a day apart. *)
Lemma same_day_sub_days lo hi :
  valid lo = true -> valid hi = true -> le lo hi -> same_day lo hi ->
  sub_days hi lo = 0.
Proof.
  intros Vlo Vhi Hle (Ey & Em & Ed).
  pose proof (valid_seconds _ Vlo) as Slo.
  pose proof (valid_seconds _ Vhi) as Shi.
  assert (Hs : seconds_of_day lo <= seconds_of_day hi).
  { unfold valid in Vlo, Vhi. rewrite !andb_true_iff, !Z.leb_le in Vlo, Vhi.
    unfold le, leb, fields in Hle. simpl in Hle.
    rewrite Ey, Em, Ed, !Z.ltb_irrefl, !Z.eqb_refl in Hle. simpl in Hle.
    rewrite !orb_true_iff, !andb_true_iff, !Z.ltb_lt, !Z.eqb_eq in Hle.
    unfold seconds_of_day. lia. }
  unfold sub_days, toordinal. rewrite Ey, Em, Ed.
  rewrite Z.div_small by lia. lia.
Qed.

End SortedEnds.

(** ** The table entry point: invariant of the aggregation *)

Section AnalyzeFacts.
Import PyDate Stats AnalyzeCsv.

Lemma make_valid y m d H M sec x :
  make y m d H M sec = Ok x -> valid x = true.
Proof.
  unfold make. destruct (valid (mk_datetime y m d H M sec)) eqn:E;
    [|discriminate]. intros [= <-]. exact E.
Qed.

Lemma strptime_ymd_hms_valid s x :
  strptime_ymd_hms s = Ok x -> valid x = true.
Proof.
  unfold strptime_ymd_hms. intros H.
  apply bind_Ok in H as ([[[[[y m] d] h] mi] sec] & _ & H).
  now apply make_valid in H.
Qed.

Lemma strptime_ymd_valid s x :
  strptime_ymd s = Ok x -> valid x = true.
Proof.
  unfold strptime_ymd. intros H.
  apply bind_Ok in H as ([[y m] d] & _ & H).
  now apply make_valid in H.
Qed.

Lemma record_update k date (m : stats datetime) :
  record k date m = update k (fun b => append date (incr b)) m.
Proof. unfold record. apply update_update. Qed.

Lemma wf_bucket_record date (b : bucket datetime) :
  valid date = true ->
  (b = fresh \/ wf_bucket b) -> wf_bucket (append date (incr b)).
Proof.
  intros Hv [-> | (H1 & H2 & H3)]; unfold wf_bucket; simpl.
  - repeat split; try lia. repeat constructor. exact Hv.
  - rewrite length_app, Nat2Z.inj_add. simpl. repeat split; try lia.
    apply Forall_app. split; [exact H3 | repeat constructor; exact Hv].
Qed.

Lemma record_wf k date m :
  valid date = true -> wf_stats m -> wf_stats (record k date m).
Proof.
  intros Hv Hm. rewrite record_update. unfold wf_stats.
  apply Forall_update; auto using wf_bucket_record.
Qed.

Lemma step_wf st r st' :
  wf_tables st -> step st r = Ok st' -> wf_tables st'.
Proof.
  intros (Hc & Hg & Ht) H. unfold step in H.
  apply bind_Ok in H as (date_str & _ & H).
  destruct (strptime_cell strptime_ymd_hms date_str) as [date|e] eqn:Ed.
  2:{ injection H as <-. now repeat split. }
  assert (Hv : valid date = true).
  { destruct date_str as [s|]; simpl in Ed;
      [now apply strptime_ymd_hms_valid in Ed | discriminate]. }
  apply bind_Ok in H as (category & _ & H).
  apply bind_Ok in H as (geo & _ & H).
  apply bind_Ok in H as (template & _ & H).
  injection H as <-. unfold wf_tables. simpl.
  repeat split.
  - destruct (grouping category); auto using record_wf.
  - destruct (grouping geo); auto using record_wf.
  - destruct (grouping template); auto using record_wf.
Qed.

Lemma run_wf rows : forall st st',
  wf_tables st -> run st rows = Ok st' -> wf_tables st'.
Proof.
  induction rows as [|r rows IH]; simpl; intros st st' Hst H.
  - now injection H as <-.
  - apply bind_Ok in H as (st1 & H1 & H). eauto using step_wf.
Qed.

Lemma aggregate_wf rows st : aggregate rows = Ok st -> wf_tables st.
Proof.
  apply run_wf. repeat split; constructor.
Qed.

Lemma wf_groupings st m name data :
  wf_tables st -> In m (groupings st) -> In (name, data) m -> wf_bucket data.
Proof.
  intros (Hc & Hg & Ht) Hm Hin.
  assert (Hw : wf_stats m).
  { destruct Hm as [<-|[<-|[<-|[]]]]; assumption. }
  unfold wf_stats in Hw. rewrite List.Forall_forall in Hw.
  apply (Hw (name, data) Hin).
Qed.

End AnalyzeFacts.

(** ** Strings: lengths *)

Lemma length_append (s t : string) :
  String.length (String.append s t) = (String.length s + String.length t)%nat.
Proof. induction s as [|c s IH]; simpl; auto. Qed.

Lemma length_zeros n : String.length (PyStr.zeros n) = n.
Proof. induction n; simpl; auto. Qed.

Lemma length_zfill w n : (w <= String.length (PyStr.zfill w n))%nat.
Proof.
  unfold PyStr.zfill, PyStr.len. rewrite length_append, length_zeros. lia.
Qed.

Lemma length_strftime d : (6 <= String.length (PyDate.strftime_ymd d))%nat.
Proof.
  unfold PyDate.strftime_ymd. rewrite length_append. simpl.
  rewrite length_append. simpl.
  pose proof (length_zfill 2 (PyDate.month d)).
  pose proof (length_zfill 2 (PyDate.day d)).
  lia.
Qed.


(** ** The table entry point: frequency and printed cells *)

Section FrequencyFacts.
Import PyDate Stats AnalyzeCsv.

Lemma truediv_Ok a b :
  b <> 0 ->
  PyFloat.truediv a b
  = Ok (SFdiv PyFloat.prec PyFloat.emax (PyFloat.of_int a) (PyFloat.of_int b)).
Proof.
  intros Hb. unfold PyFloat.truediv.
  destruct (Z.eqb_spec b 0); [contradiction | reflexivity].
Qed.

Lemma calculate_frequency_short dates :
  (length dates < 2)%nat -> calculate_frequency dates = Ok "N/A".
Proof.
  intros H. unfold calculate_frequency.
  destruct (Nat.ltb_spec (length dates) 2); [reflexivity | lia].
Qed.

Lemma calculate_frequency_zero dates lo hi :
  (2 <= length dates)%nat -> bounds lo hi dates -> sub_days hi lo = 0 ->
  calculate_frequency dates = Ok "< 1 day".
Proof.
  intros Hlen Hb Hz. unfold calculate_frequency.
  destruct (Nat.ltb_spec (length dates) 2); [lia|].
  destruct (sorted_bounds _ _ _ Hb) as [-> ->]. simpl.
  now rewrite Hz.
Qed.

Lemma calculate_frequency_span dates lo hi :
  (2 <= length dates)%nat -> bounds lo hi dates -> sub_days hi lo <> 0 ->
  exists avg_days,
    PyFloat.truediv (sub_days hi lo) (Z.of_nat (length dates) - 1) = Ok avg_days
    /\ calculate_frequency dates
       = Ok (String.append (PyFloat.format_1f avg_days) " days").
Proof.
  intros Hlen Hb Hz. unfold calculate_frequency.
  destruct (Nat.ltb_spec (length dates) 2); [lia|].
  destruct (sorted_bounds _ _ _ Hb) as [-> ->]. simpl.
  destruct (Z.eqb_spec (sub_days hi lo) 0); [contradiction|].
  rewrite truediv_Ok by lia. simpl. eauto.
Qed.


Lemma max_from_spec l : forall m,
  In (max_from m l) (m :: l) /\ forall x, In x (m :: l) -> le x (max_from m l).
Proof.
  induction l as [|y l IH]; intros m; simpl.
  - split; [now left|]. intros x [<-|[]]. apply le_refl.
  - destruct (IH (if leb y m then m else y)) as [Hin Hmax]. split.
    + destruct Hin as [E|Hin]; [|now right; right].
      rewrite <- E. destruct (leb y m); [now left | right; now left].
    + intros x Hx.
      assert (Hm : le (if leb y m then m else y) (max_from (if leb y m then m else y) l))
        by (apply Hmax; now left).
      destruct Hx as [<-|[<-|Hx]].
      * eapply le_trans; [|exact Hm].
        destruct (leb y m) eqn:E; [apply le_refl|].
        destruct (le_total m y) as [H|H]; [exact H | unfold le in H; congruence].
      * eapply le_trans; [|exact Hm].
        destruct (leb y m) eqn:E; [exact E | apply le_refl].
      * apply Hmax. now right.
Qed.

(** [max(dates)] is the latest date of the bucket. *)
Lemma max_from_bounds lo hi d l :
  bounds lo hi (d :: l) -> max_from d l = hi.
Proof.
  intros (_ & Hhi & Hb). destruct (max_from_spec l d) as [Hin Hmax].
  apply le_antisym; [apply Hb, Hin | apply Hmax, Hhi].
Qed.

End FrequencyFacts.

(** ** The printed tables *)

Section TableFacts.
Import PyDate Stats AnalyzeCsv.

Lemma insert_desc_perm {A} (key : A -> Z) x l :
  Permutation (insert_desc key x l) (x :: l).
Proof.
  induction l as [|y l IH]; simpl; auto.
  destruct (key x <? key y); auto.
  rewrite IH. apply perm_swap.
Qed.

Lemma sort_desc_perm {A} (key : A -> Z) l : Permutation (sort_desc key l) l.
Proof.
  induction l as [|x l IH]; simpl; auto.
  rewrite insert_desc_perm. now constructor.
Qed.



End TableFacts.

(** ** The JSON entry point: invariant of the aggregation *)

Section GenerateFacts.
Import PyDate Stats GenerateCsvStats.

Lemma record_update_json k date_str (m : stats string) :
  record k date_str m = update k (recorded date_str) m.
Proof.
  unfold record, recorded. destruct date_str as [d|]; [|reflexivity].
  destruct (String.eqb d ""); [reflexivity | apply update_update].
Qed.

Lemma count_recorded date_str b :
  Stats.count (recorded date_str b) = Stats.count b + 1.
Proof.
  unfold recorded. destruct date_str as [d|]; [|reflexivity].
  destruct (String.eqb d ""); reflexivity.
Qed.

Lemma wf_bucket_recorded date_str b :
  (b = fresh \/ wf_bucket b) -> wf_bucket (recorded date_str b).
Proof.
  assert (H : forall b : bucket string,
             0 <= Stats.count b /\ Z.of_nat (length (dates b)) <= Stats.count b ->
             wf_bucket (recorded date_str b)).
  { clear b. intros b [H1 H2]. unfold wf_bucket. rewrite count_recorded.
    split; [lia|]. unfold recorded. destruct date_str as [d|]; simpl; [|lia].
    destruct (String.eqb d ""); simpl; [lia|].
    rewrite length_app. simpl. lia. }
  intros [-> | [H1 H2]]; apply H; simpl; lia.
Qed.

Lemma record_wf_json k date_str m : wf_stats m -> wf_stats (record k date_str m).
Proof.
  intros Hm. rewrite record_update_json. unfold wf_stats.
  apply Forall_update; auto using wf_bucket_recorded.
Qed.

Lemma record_tokens_wf tokens date_str : forall m,
  wf_stats m -> wf_stats (record_tokens tokens date_str m).
Proof.
  induction tokens as [|t tokens IH]; simpl; intros m Hm; [exact Hm|].
  apply IH. destruct (String.eqb (PyStr.strip t) ""); auto using record_wf_json.
Qed.

Lemma step_wf_json st r : wf_tables st -> wf_tables (step st r).
Proof.
  intros (Hc & Hg & Ht). unfold step, wf_tables. simpl. repeat split.
  - destruct (grouping _); auto using record_tokens_wf.
  - destruct (grouping _); auto using record_wf_json.
  - destruct (grouping _); auto using record_wf_json.
Qed.

Lemma fold_step_wf rows : forall st,
  wf_tables st -> wf_tables (fold_left step rows st).
Proof.
  induction rows as [|r rows IH]; simpl; intros st Hst; auto using step_wf_json.
Qed.

Lemma aggregate_wf_json rows : wf_tables (aggregate rows).
Proof. apply fold_step_wf. repeat split; constructor. Qed.

Lemma wf_groupings_json st m name data :
  wf_tables st -> In m (groupings st) -> In (name, data) m -> wf_bucket data.
Proof.
  intros (Hc & Hg & Ht) Hm Hin.
  assert (Hw : wf_stats m).
  { destruct Hm as [<-|[<-|[<-|[]]]]; assumption. }
  unfold wf_stats in Hw. rewrite List.Forall_forall in Hw.
  apply (Hw (name, data) Hin).
Qed.

Lemma length_parsed_dates l : (length (parsed_dates l) <= length l)%nat.
Proof.
  induction l as [|d l IH]; simpl; [lia|].
  destruct (parse d); simpl; lia.
Qed.

Lemma parsed_dates_valid l : Forall (fun d => valid d = true) (parsed_dates l).
Proof.
  induction l as [|d l IH]; simpl; [constructor|].
  destruct (parse d) as [x|e] eqn:E; [|exact IH].
  constructor; [|exact IH].
  unfold parse in E. apply bind_Ok in E as (w & _ & E).
  now apply strptime_ymd_valid in E.
Qed.

Lemma parsed_dates_app l l' :
  parsed_dates (l ++ l') = parsed_dates l ++ parsed_dates l'.
Proof.
  induction l as [|d l IH]; simpl; [reflexivity|].
  destruct (parse d); simpl; now rewrite IH.
Qed.

(** The shape of [entry_of] on a bucket with two parsed dates or more. *)
Lemma entry_of_many name data lo hi :
  (2 <= length (parsed_dates (dates data)))%nat ->
  bounds lo hi (parsed_dates (dates data)) ->
  entry_of name data
  = if (0 <? sub_days hi lo) && (1 <? Stats.count data) then
      avg_days <-- PyFloat.truediv (sub_days hi lo) (Stats.count data - 1) ;;
      Ok (mk_entry name (Stats.count data) (strftime_ymd hi)
            (String.append "1 every "
               (String.append (PyFloat.format_1f avg_days) " days")))
    else Ok (mk_entry name (Stats.count data) (strftime_ymd hi) "N/A").
Proof.
  intros Hlen Hb. unfold entry_of.
  destruct (sorted_bounds _ _ _ Hb) as [Hlo Hhi].
  destruct (parsed_dates (dates data)) as [|x t] eqn:E; [simpl in Hlen; lia|].
  cbv zeta. rewrite Hhi, length_sorted. cbn [bind].
  destruct (Nat.ltb_spec 1 (length (x :: t))) as [_|Hc]; [|lia].
  rewrite Hlo. reflexivity.
Qed.

End GenerateFacts.

(** ** Counting rows per key *)

Section CountFacts.
Import Stats.

Lemma count_of_fresh {D} (k : string) (m : stats D) :
  Stats.count (default fresh (lookup k m)) = count_of k m.
Proof. unfold count_of. destruct (lookup k m); reflexivity. Qed.

Lemma dates_of_fresh {D} (k : string) (m : stats D) :
  Stats.dates (default fresh (lookup k m)) = dates_of k m.
Proof. unfold dates_of. destruct (lookup k m); reflexivity. Qed.

Lemma count_of_record k k' date m :
  count_of k' (AnalyzeCsv.record k date m)
  = count_of k' m + (if String.eqb k k' then 1 else 0).
Proof.
  rewrite record_update. destruct (String.eqb_spec k k') as [<-|Hne].
  - rewrite count_of_update_eq. simpl. now rewrite count_of_fresh.
  - rewrite count_of_update_ne by exact Hne. lia.
Qed.

Lemma count_of_record_json k k' date_str m :
  count_of k' (GenerateCsvStats.record k date_str m)
  = count_of k' m + (if String.eqb k k' then 1 else 0).
Proof.
  rewrite record_update_json. destruct (String.eqb_spec k k') as [<-|Hne].
  - rewrite count_of_update_eq, count_recorded. now rewrite count_of_fresh.
  - rewrite count_of_update_ne by exact Hne. lia.
Qed.

Lemma count_of_record_tokens k tokens date_str : forall m,
  count_of k (GenerateCsvStats.record_tokens tokens date_str m)
  = count_of k m
    + Z.of_nat (count_occ String.string_dec
                  (List.filter (fun t => negb (String.eqb t ""))
                     (map PyStr.strip tokens)) k).
Proof.
  induction tokens as [|t tokens IH]; intros m; simpl; [lia|].
  rewrite IH. destruct (String.eqb (PyStr.strip t) "") eqn:E; simpl; [reflexivity|].
  rewrite count_of_record_json.
  destruct (String.string_dec (PyStr.strip t) k) as [->|Hne].
  - rewrite String.eqb_refl. lia.
  - apply String.eqb_neq in Hne. rewrite Hne. lia.
Qed.

Lemma grouping_Some c :
  c <> "" -> c <> "NULL" -> grouping (Some c) = Some c.
Proof.
  intros H1 H2. unfold grouping.
  apply String.eqb_neq in H1, H2. now rewrite H1, H2.
Qed.

End CountFacts.

(** ** One row in the table entry point *)

Section StepFacts.
Import PyDate Stats AnalyzeCsv.

Lemma getitem_Ok r k v : getitem r k = Ok v <-> r !! k = Some v.
Proof.
  unfold getitem. destruct (r !! k) as [w|]; split; intros H;
    try discriminate; congruence.
Qed.

Lemma getitem_missing r k : r !! k = None -> getitem r k = Raise (KeyError k).
Proof. unfold getitem. now intros ->. Qed.

(** A row whose date does not parse is passed over. *)
Lemma step_unparsed st r v e :
  r !! "data_pubblicazione" = Some v ->
  strptime_cell strptime_ymd_hms v = Raise e ->
  step st r = Ok st.
Proof.
  intros Hv He. unfold step.
  apply getitem_Ok in Hv. rewrite Hv. cbn [bind]. now rewrite He.
Qed.

(** A row whose date parses updates each dictionary from its own cell. *)
Lemma step_parsed st r v date category geo template :
  r !! "data_pubblicazione" = Some v ->
  strptime_cell strptime_ymd_hms v = Ok date ->
  r !! "category" = Some category ->
  r !! "geo" = Some geo ->
  r !! "template_articolo" = Some template ->
  step st r
  = Ok (mk_tables
          (match grouping category with
           | Some c => record c date (category_stats st)
           | None => category_stats st
           end)
          (match grouping geo with
           | Some g => record g date (geo_stats st)
           | None => geo_stats st
           end)
          (match grouping template with
           | Some t => record (formatted_template t) date (template_stats st)
           | None => template_stats st
           end)).
Proof.
  intros Hv Hd Hc Hg Ht. unfold step.
  apply getitem_Ok in Hv, Hc, Hg, Ht.
  rewrite Hv. cbn [bind]. rewrite Hd, Hc. cbn [bind].
  rewrite Hg. cbn [bind]. rewrite Ht. reflexivity.
Qed.

(** The two ways a row leaves the loop body without an exception. *)
Lemma step_inv st r st' :
  step st r = Ok st' ->
  exists v, r !! "data_pubblicazione" = Some v
  /\ ((exists e, strptime_cell strptime_ymd_hms v = Raise e) /\ st' = st
      \/ exists date category geo template,
           strptime_cell strptime_ymd_hms v = Ok date
           /\ r !! "category" = Some category
           /\ r !! "geo" = Some geo
           /\ r !! "template_articolo" = Some template).
Proof.
  intros H. unfold step in H.
  apply bind_Ok in H as (v & Hv & H). apply getitem_Ok in Hv.
  exists v. split; [exact Hv|].
  destruct (strptime_cell strptime_ymd_hms v) as [date|e].
  - right. apply bind_Ok in H as (category & Hc & H).
    apply bind_Ok in H as (geo & Hg & H).
    apply bind_Ok in H as (template & Ht & H).
    apply getitem_Ok in Hc, Hg, Ht. exists date, category, geo, template. auto.
  - left. injection H as <-. eauto.
Qed.

End StepFacts.

(** ** Strings: slices, prefixes and suffixes *)

Section StringFacts.
Import PyStr.

Lemma append_cons c s t :
  String.append (String c s) t = String c (String.append s t).
Proof. reflexivity. Qed.

Lemma take_drop n s : String.append (take n s) (drop n s) = s.
Proof.
  revert s. induction n as [|n IH]; intros [|c s]; simpl; auto.
  now rewrite append_cons, IH.
Qed.

Lemma drop_app_length p s : drop (String.length p) (String.append p s) = s.
Proof. induction p as [|c p IH]; simpl; auto. Qed.

Lemma take_app_length p s : take (String.length p) (String.append p s) = p.
Proof.
  induction p as [|c p IH]; [now destruct s|].
  rewrite append_cons. simpl. now rewrite IH.
Qed.

Lemma prefix_app p s : String.prefix p (String.append p s) = true.
Proof.
  induction p as [|c p IH]; [now destruct s|].
  rewrite append_cons. cbn [String.prefix].
  destruct (ascii_dec c c); [exact IH | congruence].
Qed.

Lemma prefix_drop p s :
  String.prefix p s = true -> s = String.append p (drop (String.length p) s).
Proof.
  revert s. induction p as [|c p IH]; intros [|c' s] H;
    try reflexivity; try discriminate.
  cbn [String.prefix] in H.
  destruct (ascii_dec c c') as [<-|]; [|discriminate].
  rewrite append_cons. simpl. f_equal. now apply IH.
Qed.

Lemma endswith_app p s : endswith p (String.append s p) = true.
Proof.
  unfold endswith, len. rewrite length_append.
  replace (String.length s + String.length p - String.length p)%nat
    with (String.length s) by lia.
  rewrite drop_app_length, String.eqb_refl.
  apply andb_true_iff. split; [apply Nat.leb_le; lia | reflexivity].
Qed.

Lemma endswith_drop_last p s :
  endswith p s = true -> s = String.append (drop_last (String.length p) s) p.
Proof.
  unfold endswith, drop_last, len. intros H.
  apply andb_true_iff in H as [_ H]. apply String.eqb_eq in H.
  transitivity (String.append (take (String.length s - String.length p) s)
                  (drop (String.length s - String.length p) s)).
  - symmetry. apply take_drop.
  - now rewrite H.
Qed.

Lemma drop_last_app p s : drop_last (String.length p) (String.append s p) = s.
Proof.
  unfold drop_last, len. rewrite length_append.
  replace (String.length s + String.length p - String.length p)%nat
    with (String.length s) by lia.
  apply take_app_length.
Qed.

Lemma append_empty_r s : String.append s "" = s.
Proof.
  induction s as [|c s IH]; [reflexivity|]. now rewrite append_cons, IH.
Qed.

(** A match of [old] at the front needs every character of [old]. *)
Lemma prefix_contains c old s :
  String.prefix old s = true -> contains c old = true -> contains c s = true.
Proof.
  revert s. induction old as [|a old IH]; intros [|b s] Hp Hc;
    try discriminate.
  cbn [String.prefix] in Hp.
  destruct (ascii_dec a b) as [<-|]; [|discriminate]. simpl in *.
  apply orb_true_iff in Hc as [Hc|Hc]; apply orb_true_iff; eauto.
Qed.

Lemma contains_app c s t :
  contains c (String.append s t) = contains c s || contains c t.
Proof.
  induction s as [|a s IH]; [reflexivity|].
  rewrite append_cons. simpl. now rewrite IH, orb_assoc.
Qed.

(** Nothing is removed from a string that lacks a character of [old]. *)
Lemma remove_absent c old s :
  contains c old = true -> contains c s = false -> remove old s = s.
Proof.
  intros Hold. unfold remove. induction s as [|a s IH]; intros Hs; auto.
  cbn [remove_from].
  destruct (String.prefix old (String a s)) eqn:E.
  - rewrite (prefix_contains c _ _ E Hold) in Hs. discriminate.
  - f_equal. apply IH. simpl in Hs. apply orb_false_iff in Hs. tauto.
Qed.

(** An occurrence being skipped is passed over whole. *)
Lemma remove_from_skip old u s :
  remove_from old (String.length u) (String.append u s) = remove old s.
Proof.
  induction u as [|a u IH]; [reflexivity|].
  rewrite append_cons. simpl. exact IH.
Qed.

(** An occurrence at the front is removed. *)
Lemma remove_front old s :
  old <> "" -> remove old (String.append old s) = remove old s.
Proof.
  intros Hne. destruct old as [|a old]; [congruence|].
  unfold remove at 1. change (String.append (String a old) s)
    with (String a (String.append old s)).
  cbn [remove_from].
  change (String a (String.append old s)) with (String.append (String a old) s).
  rewrite prefix_app. unfold len. simpl String.length.
  replace (S (String.length old) - 1)%nat with (String.length old) by lia.
  apply remove_from_skip.
Qed.

(** Characters other than the first of [old] are kept up to an occurrence
    at the very end. *)
Lemma remove_back c old s :
  contains c s = false ->
  remove (String c old) (String.append s (String c old)) = s.
Proof.
  intros Hs. unfold remove. induction s as [|a s IH].
  - pose proof (remove_front (String c old) "" ltac:(discriminate)) as H.
    rewrite append_empty_r in H. exact H.
  - simpl in Hs. apply orb_false_iff in Hs as [Ha Hs].
    change (String.append (String a s) (String c old))
      with (String a (String.append s (String c old))).
    cbn [remove_from]. cbn [String.prefix].
    destruct (ascii_dec c a) as [->|Hne].
    + rewrite Ascii.eqb_refl in Ha. discriminate.
    + f_equal. now apply IH.
Qed.

End StringFacts.

(** ** The JSON entry point never raises *)

Section GenerateTotal.
Import PyDate Stats GenerateCsvStats.

Lemma entry_of_Ok name data :
  exists e, entry_of name data = Ok e.
Proof.
  destruct (parsed_dates (dates data)) as [|x l] eqn:E.
  - unfold entry_of. rewrite E. simpl. eauto.
  - assert (Hne : parsed_dates (dates data) <> []) by (rewrite E; discriminate).
    destruct (sorted_ends _ Hne) as (lo & hi & _ & _ & Hb).
    destruct l as [|y l].
    + (* one parsed date *)
      unfold entry_of. rewrite E. simpl. eauto.
    + rewrite (entry_of_many name data lo hi); [|rewrite E; simpl; lia | exact Hb].
      destruct (Z.ltb_spec 0 (sub_days hi lo)); [|simpl; eauto].
      destruct (Z.ltb_spec 1 (Stats.count data)); [|simpl; eauto].
      cbn [andb]. rewrite truediv_Ok by lia. simpl. eauto.
Qed.

Lemma entries_Ok l : exists es, entries l = Ok es.
Proof.
  induction l as [|[name data] l (es & IH)]; simpl; [eauto|].
  destruct (entry_of_Ok name data) as (e & ->). rewrite IH. simpl. eauto.
Qed.

Lemma calculate_stats_Ok m : exists es, calculate_stats m = Ok es.
Proof.
  unfold calculate_stats. destruct (entries_Ok m) as (es & ->). simpl. eauto.
Qed.

(** The script reaches [json.dumps] on every list of rows. *)
Lemma main_Ok rows :
  exists cs gs ts,
    main rows = Ok (mk_output cs gs ts (Z.of_nat (length rows))).
Proof.
  unfold main.
  destruct (calculate_stats_Ok (category_stats (aggregate rows))) as (cs & ->).
  destruct (calculate_stats_Ok (geo_stats (aggregate rows))) as (gs & ->).
  destruct (calculate_stats_Ok (template_stats (aggregate rows))) as (ts & ->).
  simpl. eauto.
Qed.

End GenerateTotal.

(** ** The JSON entry point: a date string that does not parse *)

Section UnparsedFacts.
Import PyDate Stats GenerateCsvStats.

Lemma get_present r k default v :
  r !! k = Some v -> get r k default = v.
Proof. unfold get. now intros ->. Qed.

Lemma parsed_dates_recorded date_str b :
  unparsed date_str ->
  parsed_dates (dates (recorded date_str b)) = parsed_dates (dates b).
Proof.
  intros Hu. unfold recorded. destruct date_str as [s|]; [|reflexivity].
  destruct (String.eqb s ""); [reflexivity|]. simpl.
  rewrite parsed_dates_app. simpl.
  destruct (Hu s eq_refl) as (e & ->). apply app_nil_r.
Qed.

Lemma parsed_dates_record k k' date_str m :
  unparsed date_str ->
  parsed_dates (dates_of k' (record k date_str m))
  = parsed_dates (dates_of k' m).
Proof.
  intros Hu. rewrite record_update_json.
  destruct (String.eqb_spec k k') as [<-|Hne].
  - rewrite dates_of_update_eq, parsed_dates_recorded by exact Hu.
    now rewrite dates_of_fresh.
  - now rewrite dates_of_update_ne.
Qed.

Lemma parsed_dates_record_tokens k tokens date_str : forall m,
  unparsed date_str ->
  parsed_dates (dates_of k (record_tokens tokens date_str m))
  = parsed_dates (dates_of k m).
Proof.
  induction tokens as [|t tokens IH]; intros m Hu; simpl; [reflexivity|].
  rewrite IH by exact Hu.
  destruct (String.eqb (PyStr.strip t) ""); [reflexivity|].
  now apply parsed_dates_record.
Qed.

(** A date string that is not empty is appended where the row counts. *)
Lemma dates_of_record_json k k' d m :
  d <> "" ->
  dates_of k' (record k (Some d) m)
  = dates_of k' m ++ (if String.eqb k k' then [d] else []).
Proof.
  intros Hd. rewrite record_update_json. unfold recorded.
  apply String.eqb_neq in Hd. rewrite Hd.
  destruct (String.eqb_spec k k') as [<-|Hne].
  - rewrite dates_of_update_eq. simpl. now rewrite dates_of_fresh.
  - rewrite dates_of_update_ne by exact Hne. now rewrite app_nil_r.
Qed.

End UnparsedFacts.

(** ** Ordinals and the span of a bucket *)

Section OrdinalFacts.
Import PyDate.

Lemma is_leap_spec y :
  is_leap y = true <-> (y mod 4 = 0 /\ (y mod 100 <> 0 \/ y mod 400 = 0)).
Proof.
  unfold is_leap. rewrite andb_true_iff, orb_true_iff, negb_true_iff,
    !Z.eqb_eq, Z.eqb_neq. tauto.
Qed.

Lemma days_before_year_succ y :
  days_before_year (y + 1)
  = days_before_year y + 365 + (if is_leap y then 1 else 0).
Proof.
  unfold days_before_year.
  replace (y + 1 - 1) with y by lia.
  destruct (is_leap y) eqn:E.
  - apply is_leap_spec in E. Z.div_mod_to_equations. lia.
  - assert (H : ~ (y mod 4 = 0 /\ (y mod 100 <> 0 \/ y mod 400 = 0))).
    { rewrite <- is_leap_spec. congruence. }
    Z.div_mod_to_equations. lia.
Qed.

Lemma days_before_year_mono y1 y2 :
  y1 <= y2 -> days_before_year y1 <= days_before_year y2.
Proof.
  unfold days_before_year. intros H. Z.div_mod_to_equations. lia.
Qed.

Ltac month_cases m :=
  let H := fresh in
  assert (H : m = 1 \/ m = 2 \/ m = 3 \/ m = 4 \/ m = 5 \/ m = 6 \/ m = 7
              \/ m = 8 \/ m = 9 \/ m = 10 \/ m = 11 \/ m = 12) by lia;
  repeat (destruct H as [H|H]; [subst m|]); [..|subst m].

Lemma days_before_month_succ y m :
  1 <= m <= 11 ->
  days_before_month y (m + 1) = days_before_month y m + days_in_month y m.
Proof.
  intros H. unfold days_before_month, days_in_month.
  month_cases m; try lia; destruct (is_leap y); reflexivity.
Qed.

Lemma days_in_month_pos y m : 1 <= m <= 12 -> 28 <= days_in_month y m <= 31.
Proof.
  intros H. unfold days_in_month.
  month_cases m; destruct (is_leap y); simpl; lia.
Qed.

Lemma days_before_month_mono y m1 m2 :
  1 <= m1 -> m1 <= m2 -> m2 <= 12 ->
  days_before_month y m1 <= days_before_month y m2.
Proof.
  intros H1 H12 H2.
  replace m2 with (m1 + Z.of_nat (Z.to_nat (m2 - m1))) in * by lia.
  induction (Z.to_nat (m2 - m1)) as [|n IH].
  - replace (m1 + Z.of_nat 0) with m1 by lia. lia.
  - rewrite Nat2Z.inj_succ in *.
    replace (m1 + Z.succ (Z.of_nat n)) with (m1 + Z.of_nat n + 1) in * by lia.
    rewrite days_before_month_succ by lia.
    pose proof (days_in_month_pos y (m1 + Z.of_nat n)). lia.
Qed.

Lemma day_of_year_bounds d :
  valid d = true ->
  1 <= days_before_month (year d) (month d) + day d
    <= 365 + (if is_leap (year d) then 1 else 0).
Proof.
  unfold valid. rewrite !andb_true_iff, !Z.leb_le.
  intros H. destruct d as [y m dd h mi s]. simpl in *.
  unfold days_before_month, days_in_month in *.
  month_cases m; destruct (is_leap y); simpl in *; lia.
Qed.

(** The ordinal grows with the calendar date. *)
Lemma toordinal_lt a b :
  valid a = true -> valid b = true ->
  lex_leb [year a; month a; day a] [year b; month b; day b] = true ->
  ~ same_day a b -> toordinal a < toordinal b.
Proof.
  intros Va Vb Hle Hne.
  pose proof (day_of_year_bounds a Va) as Ba.
  pose proof (day_of_year_bounds b Vb) as Bb.
  unfold valid in Va, Vb. rewrite !andb_true_iff, !Z.leb_le in Va, Vb.
  simpl in Hle.
  repeat first [rewrite orb_true_iff in Hle | rewrite andb_true_iff in Hle].
  rewrite !Z.ltb_lt, !Z.eqb_eq in Hle.
  unfold toordinal, same_day in *.
  destruct Hle as [Hy | [Ey [Hm | [Em [Hd | [Ed _]]]]]].
  - pose proof (days_before_year_succ (year a)).
    pose proof (days_before_year_mono (year a + 1) (year b)). lia.
  - rewrite Ey in *.
    pose proof (days_before_month_succ (year b) (month a)).
    pose proof (days_before_month_mono (year b) (month a + 1) (month b)).
    lia.
  - rewrite Ey, Em in *. lia.
  - tauto.
Qed.

Lemma le_ymd a b :
  le a b -> lex_leb [year a; month a; day a] [year b; month b; day b] = true.
Proof.
  unfold le, leb, fields. simpl.
  destruct (year a <? year b); [reflexivity|].
  destruct (year a =? year b); [|discriminate]. simpl.
  destruct (month a <? month b); [reflexivity|].
  destruct (month a =? month b); [|discriminate]. simpl.
  destruct (day a <? day b); [reflexivity|].
  destruct (day a =? day b); [reflexivity | discriminate].
Qed.

Lemma same_day_dec a b : {same_day a b} + {~ same_day a b}.
Proof.
  unfold same_day.
  destruct (Z.eq_dec (year a) (year b)), (Z.eq_dec (month a) (month b)),
    (Z.eq_dec (day a) (day b)); (left; tauto) || (right; tauto).
Qed.

(** From an earlier to a later datetime the days never count below zero,
    and they count zero on one calendar day. *)
Lemma sub_days_nonneg lo hi :
  valid lo = true -> valid hi = true -> le lo hi -> 0 <= sub_days hi lo.
Proof.
  intros Vlo Vhi Hle. destruct (same_day_dec lo hi) as [Hs|Hn].
  - rewrite same_day_sub_days by assumption. lia.
  - pose proof (toordinal_lt lo hi Vlo Vhi (le_ymd _ _ Hle) Hn).
    pose proof (valid_seconds _ Vlo). pose proof (valid_seconds _ Vhi).
    unfold sub_days.
    assert (-1 <= (seconds_of_day hi - seconds_of_day lo) / 86400)
      by (apply Z.div_le_lower_bound; lia).
    lia.
Qed.

(** Without a time of day the days are the difference of the ordinals,
    positive from one calendar day to a later one. *)
Lemma sub_days_midnight lo hi :
  valid lo = true -> valid hi = true -> midnight lo -> midnight hi ->
  le lo hi -> ~ same_day lo hi -> 0 < sub_days hi lo.
Proof.
  intros Vlo Vhi (H1 & H2 & H3) (H4 & H5 & H6) Hle Hn.
  pose proof (toordinal_lt lo hi Vlo Vhi (le_ymd _ _ Hle) Hn).
  unfold sub_days, seconds_of_day. rewrite H1, H2, H3, H4, H5, H6.
  rewrite Z.div_small by lia. lia.
Qed.

(** The days between two datetimes are the days between their calendar
    dates, less one when the later has the earlier time of day. *)
Lemma sub_days_seconds lo hi :
  valid lo = true -> valid hi = true ->
  sub_days hi lo
  = toordinal hi - toordinal lo
    - (if seconds_of_day lo <=? seconds_of_day hi then 0 else 1).
Proof.
  intros Vlo Vhi.
  pose proof (valid_seconds _ Vlo). pose proof (valid_seconds _ Vhi).
  unfold sub_days.
  destruct (Z.leb_spec (seconds_of_day lo) (seconds_of_day hi)).
  - rewrite Z.div_small by lia. lia.
  - assert ((seconds_of_day hi - seconds_of_day lo) / 86400 = -1).
    { symmetry.
      apply (Z.div_unique_pos _ _ _
               (seconds_of_day hi - seconds_of_day lo + 86400)); lia. }
    lia.
Qed.

(** Without a time of day they are the days between the calendar dates. *)
Lemma sub_days_dates lo hi :
  midnight lo -> midnight hi -> sub_days hi lo = toordinal hi - toordinal lo.
Proof.
  intros (H1 & H2 & H3) (H4 & H5 & H6).
  unfold sub_days, seconds_of_day. rewrite H1, H2, H3, H4, H5, H6.
  rewrite Z.div_small by lia. lia.
Qed.

End OrdinalFacts.

(** ** The texts of a frequency, and dates without a time of day *)

Section FrequencyCases.
Import PyDate Stats.

Lemma days_not_NA s : String.append s " days" <> "N/A".
Proof.
  intros E. apply (f_equal String.length) in E.
  rewrite length_append in E. simpl in E. lia.
Qed.

Lemma days_not_under_a_day s : String.append s " days" <> "< 1 day".
Proof.
  intros E. pose proof (f_equal String.length E) as Hl.
  rewrite length_append in Hl. simpl in Hl.
  destruct s as [|a [|b [|c s]]]; simpl in Hl; try lia.
  discriminate E.
Qed.

Lemma parse_midnight s x : GenerateCsvStats.parse s = Ok x -> midnight x.
Proof.
  unfold GenerateCsvStats.parse, strptime_ymd. intros H.
  apply bind_Ok in H as (w & _ & H).
  apply bind_Ok in H as ([[y m] d] & _ & H).
  unfold make in H. destruct (valid _); [|discriminate].
  injection H as <-. repeat split.
Qed.

Lemma parsed_dates_midnight l :
  Forall midnight (GenerateCsvStats.parsed_dates l).
Proof.
  induction l as [|d l IH]; simpl; [constructor|].
  destruct (GenerateCsvStats.parse d) as [x|e] eqn:E; [|exact IH].
  constructor; [now apply parse_midnight in E | exact IH].
Qed.

End FrequencyCases.

(** ** Claims *)



(** C2, as the code has it.  A bucket with two parseable dates or more,
    [lo] its earliest and [hi] its latest.  The JSON entry point parses the
    dates without their time of day: its span is the days from the calendar
    date of [lo] to that of [hi], positive when the two are different
    calendar days, and it then reports ["1 every "] followed by the span
    divided by the count less one, with one decimal, and [" days"].  The
    table entry point takes the span between the datetimes with their time
    of day: the days between the calendar dates, less one when [hi] has the
    earlier time of day.  When that span is positive it prints the span
    divided by the count less one in the same form (padded to ten
    characters); when it is zero it prints ["< 1 day"], also for two
    different calendar days.  Both show the latest date as the last
    entry. *)
Theorem frequency_is_span_over_count :
  (forall rows st m name data lo hi,
      AnalyzeCsv.aggregate rows = Ok st ->
      In m (AnalyzeCsv.groupings st) -> In (name, data) m ->
      (2 <= length (Stats.dates data))%nat ->
      PyDate.bounds lo hi (Stats.dates data) ->
      PyDate.sub_days hi lo
      = PyDate.toordinal hi - PyDate.toordinal lo
        - (if PyDate.seconds_of_day lo <=? PyDate.seconds_of_day hi
           then 0 else 1)
      /\ 0 <= PyDate.sub_days hi lo
      /\ (~ PyDate.same_day lo hi ->
          1 <= PyDate.toordinal hi - PyDate.toordinal lo)
      /\ exists c,
           AnalyzeCsv.cells_of name data = Ok c
           /\ AnalyzeCsv.last_date c = PyDate.strftime_ymd hi
           /\ (PyDate.sub_days hi lo = 0 -> AnalyzeCsv.frequency c = "< 1 day")
           /\ (0 < PyDate.sub_days hi lo ->
               exists avg_days,
                 PyFloat.truediv (PyDate.sub_days hi lo) (Stats.count data - 1)
                 = Ok avg_days
                 /\ AnalyzeCsv.frequency c
                    = String.append (PyFloat.format_1f avg_days) " days"
                 /\ AnalyzeCsv.frequency_column c
                    = String.append "1 every "
                        (PyStr.ljust 10
                           (String.append (PyFloat.format_1f avg_days) " days"))))
  /\ (forall rows m name data lo hi,
      In m (GenerateCsvStats.groupings (GenerateCsvStats.aggregate rows)) ->
      In (name, data) m ->
      (2 <= length (GenerateCsvStats.parsed_dates (Stats.dates data)))%nat ->
      PyDate.bounds lo hi (GenerateCsvStats.parsed_dates (Stats.dates data)) ->
      PyDate.sub_days hi lo = PyDate.toordinal hi - PyDate.toordinal lo
      /\ (~ PyDate.same_day lo hi -> 0 < PyDate.sub_days hi lo)
      /\ (0 < PyDate.sub_days hi lo ->
          exists avg_days,
            PyFloat.truediv (PyDate.sub_days hi lo) (Stats.count data - 1)
            = Ok avg_days
            /\ GenerateCsvStats.entry_of name data
               = Ok (GenerateCsvStats.mk_entry name (Stats.count data)
                       (PyDate.strftime_ymd hi)
                       (String.append "1 every "
                          (String.append (PyFloat.format_1f avg_days) " days"))))).
Proof.
  split.
  - intros rows st m name data lo hi Hagg Hm Hin Hlen Hb.
    apply aggregate_wf in Hagg.
    destruct (wf_groupings _ _ _ _ Hagg Hm Hin) as (H1 & H2 & Hv).
    rewrite List.Forall_forall in Hv.
    pose proof Hb as (Hlo & Hhi & Hle).
    assert (Vlo : PyDate.valid lo = true) by auto.
    assert (Vhi : PyDate.valid hi = true) by auto.
    assert (Hord : PyDate.le lo hi) by apply Hle, Hlo.
    split; [now apply sub_days_seconds|].
    split; [now apply sub_days_nonneg|].
    split.
    { intros Hn.
      pose proof (toordinal_lt lo hi Vlo Vhi (le_ymd _ _ Hord) Hn). lia. }
    assert (Hlast : match Stats.dates data with
                    | d :: l => PyDate.strftime_ymd (AnalyzeCsv.max_from d l)
                    | [] => "N/A"
                    end = PyDate.strftime_ymd hi).
    { destruct (Stats.dates data) as [|d l]; [simpl in Hlen; lia|].
      f_equal. apply (max_from_bounds lo hi). exact Hb. }
    unfold AnalyzeCsv.cells_of. rewrite Hlast.
    destruct (Z.eq_dec (PyDate.sub_days hi lo) 0) as [Hz|Hz].
    + rewrite (calculate_frequency_zero _ lo hi Hlen Hb Hz). cbn [bind].
      eexists. split; [reflexivity|]. split; [reflexivity|].
      split; [reflexivity | lia].
    + destruct (calculate_frequency_span _ lo hi Hlen Hb Hz)
        as (avg & Havg & Hf).
      rewrite <- H2 in Havg. rewrite Hf. cbn [bind].
      eexists. split; [reflexivity|]. split; [reflexivity|].
      split; [contradiction|]. intros _. exists avg.
      split; [exact Havg|]. split; reflexivity.
  - intros rows m name data lo hi Hm Hin Hlen Hb.
    destruct (wf_groupings_json _ _ _ _ (aggregate_wf_json rows) Hm Hin)
      as (H1 & H2).
    pose proof (length_parsed_dates (Stats.dates data)) as Hp.
    pose proof (parsed_dates_valid (Stats.dates data)) as Hv.
    pose proof (parsed_dates_midnight (Stats.dates data)) as Hmid.
    rewrite List.Forall_forall in Hv, Hmid.
    pose proof Hb as (Hlo & Hhi & Hle).
    split; [apply sub_days_dates; auto|].
    split.
    { intros Hn. apply sub_days_midnight; auto. apply Hle, Hlo. }
    intros Hpos.
    rewrite (entry_of_many name data lo hi Hlen Hb).
    destruct (Z.ltb_spec 0 (PyDate.sub_days hi lo)); [|lia].
    destruct (Z.ltb_spec 1 (Stats.count data)); [|lia].
    cbn [andb]. rewrite truediv_Ok by lia. cbn [bind]. eauto.
Qed.

Lemma frequency_is_span_over_count_witness :
  (exists c,
     AnalyzeCsv.cells_of "a"
       (Stats.mk_bucket 2 [PyDate.mk_datetime 2024 1 1 23 0 0;
                           PyDate.mk_datetime 2024 1 11 1 0 0]) = Ok c
     /\ AnalyzeCsv.last_date c = "2024-01-11"
     /\ AnalyzeCsv.frequency_column c = "1 every 9.0 days  ")
  /\ GenerateCsvStats.entry_of "a"
       (Stats.mk_bucket 2 ["2024-01-01 23:00:00"; "2024-01-11 01:00:00"])
     = Ok (GenerateCsvStats.mk_entry "a" 2 "2024-01-11" "1 every 10.0 days").
Proof.
  destruct frequency_is_span_over_count as [T J]. split.
  - destruct (T [ complete_row (Some "2024-01-01 23:00:00") (Some "a") None None;
                  complete_row (Some "2024-01-11 01:00:00") (Some "a") None None ]
                (AnalyzeCsv.mk_tables
                   [("a", Stats.mk_bucket 2 [PyDate.mk_datetime 2024 1 1 23 0 0;
                                             PyDate.mk_datetime 2024 1 11 1 0 0])] [] [])
                [("a", Stats.mk_bucket 2 [PyDate.mk_datetime 2024 1 1 23 0 0;
                                          PyDate.mk_datetime 2024 1 11 1 0 0])]
                "a"
                (Stats.mk_bucket 2 [PyDate.mk_datetime 2024 1 1 23 0 0;
                                    PyDate.mk_datetime 2024 1 11 1 0 0])
                (PyDate.mk_datetime 2024 1 1 23 0 0)
                (PyDate.mk_datetime 2024 1 11 1 0 0))
      as (_ & _ & _ & c & Hc & Hlast & _ & Hpos).
    + vm_compute. reflexivity.
    + left. reflexivity.
    + left. reflexivity.
    + simpl. lia.
    + split; [now left|]. split; [right; now left|].
      intros d [<-|[<-|[]]]; split; reflexivity.
    + destruct Hpos as (avg & Havg & _ & Hcol); [reflexivity|].
      exists c. split; [exact Hc|]. rewrite Hlast, Hcol.
      vm_compute in Havg. injection Havg as <-. split; reflexivity.
  - destruct (J [ complete_row (Some "2024-01-01 23:00:00") (Some "a") None None;
                  complete_row (Some "2024-01-11 01:00:00") (Some "a") None None ]
                [("a", Stats.mk_bucket 2 ["2024-01-01 23:00:00";
                                          "2024-01-11 01:00:00"])]
                "a"
                (Stats.mk_bucket 2 ["2024-01-01 23:00:00"; "2024-01-11 01:00:00"])
                (PyDate.mk_datetime 2024 1 1 0 0 0)
                (PyDate.mk_datetime 2024 1 11 0 0 0))
      as (_ & _ & Hpos).
    + left. reflexivity.
    + left. reflexivity.
    + simpl. lia.
    + split; [now left|]. split; [right; now left|].
      intros d [<-|[<-|[]]]; split; reflexivity.
    + destruct Hpos as (avg & Havg & He); [reflexivity|].
      rewrite He. vm_compute in Havg. injection Havg as <-. reflexivity.
Defined.

(** C2 as stated fails in the table entry point, which counts the days
    between the datetimes and not between the calendar dates: rows of
    2024-01-01 23:00 and 2024-01-11 01:00 give the frequency
    ["9.0 days"] there and ["1 every 10.0 days"] in the JSON entry point;
    rows of 2024-01-01 23:00 and 2024-01-02 01:00, a positive span of
    calendar days, give ["< 1 day"] there and ["1 every 1.0 days"] in the
    JSON entry point. *)
Lemma analyze_span_counts_whole_days :
  let rows := [ complete_row (Some "2024-01-01 23:00:00") (Some "a") None None;
                complete_row (Some "2024-01-11 01:00:00") (Some "a") None None ] in
  let rows' := [ complete_row (Some "2024-01-01 23:00:00") (Some "a") None None;
                 complete_row (Some "2024-01-02 01:00:00") (Some "a") None None ] in
  (exists st,
     AnalyzeCsv.aggregate rows = Ok st
     /\ AnalyzeCsv.table (AnalyzeCsv.category_stats st)
        = Ok [AnalyzeCsv.mk_cells "a" 2 "2024-01-11" "9.0 days"])
  /\ GenerateCsvStats.calculate_stats
       (GenerateCsvStats.category_stats (GenerateCsvStats.aggregate rows))
     = Ok [GenerateCsvStats.mk_entry "a" 2 "2024-01-11" "1 every 10.0 days"]
  /\ (exists st,
        AnalyzeCsv.aggregate rows' = Ok st
        /\ AnalyzeCsv.table (AnalyzeCsv.category_stats st)
           = Ok [AnalyzeCsv.mk_cells "a" 2 "2024-01-02" "< 1 day"])
  /\ GenerateCsvStats.calculate_stats
       (GenerateCsvStats.category_stats (GenerateCsvStats.aggregate rows'))
     = Ok [GenerateCsvStats.mk_entry "a" 2 "2024-01-02" "1 every 1.0 days"].
Proof.
  split; [|split; [|split]].
  - eexists. split; [vm_compute; reflexivity|]. vm_compute. reflexivity.
  - vm_compute. reflexivity.
  - eexists. split; [vm_compute; reflexivity|]. vm_compute. reflexivity.
  - vm_compute. reflexivity.
Qed.

(** C3.  Two dates or more, the earliest [lo] and the latest [hi] on one
    calendar day: [calculate_frequency] of the table entry point answers
    ["< 1 day"], on the datetimes of any bucket it built, and the JSON entry
    point reports the frequency ["N/A"] (with the day as the last entry),
    on the parsed dates of any bucket. *)
Theorem zero_span_frequency :
  (forall rows st m name data lo hi,
      AnalyzeCsv.aggregate rows = Ok st ->
      In m (AnalyzeCsv.groupings st) -> In (name, data) m ->
      (2 <= length (Stats.dates data))%nat ->
      PyDate.bounds lo hi (Stats.dates data) ->
      PyDate.same_day lo hi ->
      AnalyzeCsv.calculate_frequency (Stats.dates data) = Ok "< 1 day"
      /\ exists c, AnalyzeCsv.cells_of name data = Ok c
                   /\ AnalyzeCsv.frequency c = "< 1 day")
  /\ (forall name data lo hi,
      (2 <= length (GenerateCsvStats.parsed_dates (Stats.dates data)))%nat ->
      PyDate.bounds lo hi (GenerateCsvStats.parsed_dates (Stats.dates data)) ->
      PyDate.same_day lo hi ->
      GenerateCsvStats.entry_of name data
      = Ok (GenerateCsvStats.mk_entry name (Stats.count data)
              (PyDate.strftime_ymd hi) "N/A")).
Proof.
  split.
  - intros rows st m name data lo hi Hagg Hm Hin Hlen Hb Hday.
    apply aggregate_wf in Hagg.
    destruct (wf_groupings _ _ _ _ Hagg Hm Hin) as (_ & _ & Hv).
    rewrite List.Forall_forall in Hv.
    assert (Hz : PyDate.sub_days hi lo = 0).
    { destruct Hb as (Hlo & Hhi & Hle).
      apply same_day_sub_days; auto. apply Hle, Hlo. }
    pose proof (calculate_frequency_zero _ lo hi Hlen Hb Hz) as Hf.
    split; [exact Hf|].
    unfold AnalyzeCsv.cells_of. rewrite Hf. cbn [bind]. eauto.
  - intros name data lo hi Hlen Hb Hday.
    pose proof (parsed_dates_valid (Stats.dates data)) as Hv.
    rewrite List.Forall_forall in Hv.
    assert (Hz : PyDate.sub_days hi lo = 0).
    { destruct Hb as (Hlo & Hhi & Hle).
      apply same_day_sub_days; auto. apply Hle, Hlo. }
    rewrite (entry_of_many name data lo hi Hlen Hb), Hz. reflexivity.
Qed.

Lemma zero_span_frequency_witness :
  AnalyzeCsv.calculate_frequency
    [PyDate.mk_datetime 2024 1 1 23 30 0; PyDate.mk_datetime 2024 1 1 8 0 0]
  = Ok "< 1 day"
  /\ GenerateCsvStats.entry_of "it"
       (Stats.mk_bucket 2 ["2024-01-01 23:30:00"; "2024-01-01 08:00:00"])
     = Ok (GenerateCsvStats.mk_entry "it" 2 "2024-01-01" "N/A").
Proof.
  destruct zero_span_frequency as [T J]. split.
  - apply (T [ complete_row (Some "2024-01-01 23:30:00") None (Some "it") None;
               complete_row (Some "2024-01-01 08:00:00") None (Some "it") None ]
             (AnalyzeCsv.mk_tables []
                [("it", Stats.mk_bucket 2 [PyDate.mk_datetime 2024 1 1 23 30 0;
                                           PyDate.mk_datetime 2024 1 1 8 0 0])] [])
             [("it", Stats.mk_bucket 2 [PyDate.mk_datetime 2024 1 1 23 30 0;
                                        PyDate.mk_datetime 2024 1 1 8 0 0])]
             "it"
             (Stats.mk_bucket 2 [PyDate.mk_datetime 2024 1 1 23 30 0;
                                 PyDate.mk_datetime 2024 1 1 8 0 0])
             (PyDate.mk_datetime 2024 1 1 8 0 0)
             (PyDate.mk_datetime 2024 1 1 23 30 0)).
    + vm_compute. reflexivity.
    + right. left. reflexivity.
    + left. reflexivity.
    + simpl. lia.
    + split; [right; now left|]. split; [now left|].
      intros d [<-|[<-|[]]]; split; reflexivity.
    + repeat split.
  - apply (J "it" (Stats.mk_bucket 2 ["2024-01-01 23:30:00"; "2024-01-01 08:00:00"])
             (PyDate.mk_datetime 2024 1 1 0 0 0)
             (PyDate.mk_datetime 2024 1 1 0 0 0)).
    + simpl. lia.
    + split; [now left|]. split; [now left|].
      intros d [<-|[<-|[]]]; split; reflexivity.
    + repeat split.
Defined.

(** C1, as the code has it.  In the JSON entry point a category cell that
    is neither empty nor ["NULL"] is split on commas and every trimmed,
    non-empty token counts once for the bucket of its own name: the count
    of each key grows by the number of tokens equal to it.  In the table
    entry point the cell is not split: the row counts for no bucket but
    the one named by the whole cell, for that one once when its date
    parses, and for none when its date does not parse: the dictionary is
    then left as it was. *)
Theorem category_cell_buckets :
  (forall st r c k,
      r !! "category" = Some (Some c) -> c <> "" -> c <> "NULL" ->
      Stats.count_of k
        (GenerateCsvStats.category_stats (GenerateCsvStats.step st r))
      = Stats.count_of k (GenerateCsvStats.category_stats st)
        + GenerateCsvStats.occurrences k c)
  /\ (forall st r c st',
      r !! "category" = Some (Some c) -> c <> "" -> c <> "NULL" ->
      AnalyzeCsv.step st r = Ok st' ->
      (forall k, k <> c ->
         Stats.count_of k (AnalyzeCsv.category_stats st')
         = Stats.count_of k (AnalyzeCsv.category_stats st))
      /\ (forall v date,
            r !! "data_pubblicazione" = Some v ->
            PyDate.strptime_cell PyDate.strptime_ymd_hms v = Ok date ->
            Stats.count_of c (AnalyzeCsv.category_stats st')
            = Stats.count_of c (AnalyzeCsv.category_stats st) + 1)
      /\ (forall v e,
            r !! "data_pubblicazione" = Some v ->
            PyDate.strptime_cell PyDate.strptime_ymd_hms v = Raise e ->
            AnalyzeCsv.category_stats st' = AnalyzeCsv.category_stats st
            /\ forall k,
                 Stats.count_of k (AnalyzeCsv.category_stats st')
                 = Stats.count_of k (AnalyzeCsv.category_stats st))).
Proof.
  split.
  - intros st r c k Hc H1 H2.
    unfold GenerateCsvStats.step, GenerateCsvStats.get. simpl.
    rewrite Hc, (grouping_Some c H1 H2).
    apply count_of_record_tokens.
  - intros st r c st' Hc H1 H2 Hstep.
    destruct (step_inv _ _ _ Hstep) as (v & Hv & [[[e He] ->] | Hok]).
    + split; [reflexivity|]. split; [|auto].
      intros v' date Hv' Hd. congruence.
    + destruct Hok as (date & category & geo & template & Hd & Hc' & Hg & Ht).
      rewrite (step_parsed st r v date category geo template) in Hstep by assumption.
      injection Hstep as <-. simpl.
      assert (category = Some c) by congruence. subst category.
      rewrite (grouping_Some c H1 H2). split; [|split].
      * intros k Hk. rewrite count_of_record.
        destruct (String.eqb_spec c k); [congruence | lia].
      * intros v' date' Hv' Hd'. rewrite count_of_record, String.eqb_refl.
        reflexivity.
      * intros v' e Hv' He. congruence.
Qed.

Lemma category_cell_buckets_witness :
  let r := complete_row (Some "2024-01-01 08:00:00") (Some "a, b") None None in
  let r' := complete_row (Some "2024-01-01") (Some "a, b") None None in
  let cj := GenerateCsvStats.category_stats
              (GenerateCsvStats.step GenerateCsvStats.empty r) in
  let ct := [("a, b", Stats.mk_bucket 1 [PyDate.mk_datetime 2024 1 1 8 0 0])] in
  (Stats.count_of "a" cj = 1 /\ Stats.count_of "b" cj = 1
   /\ Stats.count_of "a, b" cj = 0)
  /\ (Stats.count_of "a" ct = 0 /\ Stats.count_of "b" ct = 0
      /\ Stats.count_of "a, b" ct = 1)
  /\ (exists st',
        AnalyzeCsv.step (AnalyzeCsv.mk_tables ct [] []) r' = Ok st'
        /\ AnalyzeCsv.category_stats st' = ct).
Proof.
  intros r r' cj ct.
  destruct category_cell_buckets as [J T]. split; [|split].
  - unfold cj. rewrite !(J GenerateCsvStats.empty r "a, b") by
      (reflexivity || discriminate).
    repeat split; reflexivity.
  - destruct (T AnalyzeCsv.empty r "a, b" (AnalyzeCsv.mk_tables ct [] []))
      as (Hother & Hself & _); try reflexivity; try discriminate.
    cbn [AnalyzeCsv.category_stats AnalyzeCsv.empty] in Hother, Hself.
    rewrite (Hother "a"), (Hother "b") by discriminate.
    rewrite (Hself (Some "2024-01-01 08:00:00")
               (PyDate.mk_datetime 2024 1 1 8 0 0)) by reflexivity.
    repeat split; reflexivity.
  - exists (AnalyzeCsv.mk_tables ct [] []). split; [reflexivity|].
    destruct (T (AnalyzeCsv.mk_tables ct [] []) r' "a, b"
                (AnalyzeCsv.mk_tables ct [] []))
      as (_ & _ & Hnone);
      [reflexivity | discriminate | discriminate | reflexivity |].
    destruct (Hnone (Some "2024-01-01") ValueError) as [Heq _];
      [reflexivity | reflexivity |].
    exact Heq.
Defined.

(** C1 as stated fails in the table entry point: a row with the category
    ["a, b"] and a date that parses leaves the counts of ["a"] and ["b"]
    at zero and counts for the bucket ["a, b"]. *)
Lemma analyze_keeps_category_cell_whole :
  let r := complete_row (Some "2024-01-01 08:00:00") (Some "a, b") None None in
  exists st,
    AnalyzeCsv.aggregate [r] = Ok st
    /\ Stats.count_of "a" (AnalyzeCsv.category_stats st) = 0
    /\ Stats.count_of "b" (AnalyzeCsv.category_stats st) = 0
    /\ Stats.count_of "a, b" (AnalyzeCsv.category_stats st) = 1.
Proof.
  eexists. split; [vm_compute; reflexivity|].
  repeat split; reflexivity.
Qed.

(** C5, as the code has it.  The JSON entry point strips
    ["templates/post-"] from a template that starts with it, then [".php"]
    from what is left when that ends with it, and nothing else: the template
    is the stripped prefix, the key and the stripped suffix in a row; the
    row counts once, for the bucket of that key.  The table entry point
    deletes every occurrence of ["templates/post-"] and then every
    occurrence of [".php"], and the row, when its date parses, counts once
    for the bucket of what remains.  The two keys are the same, the bare
    name, for ["templates/post-"], a name without ["/"] and ["."], and
    [".php"]. *)
Theorem template_bucket_key :
  (forall t,
      let pre := if PyStr.startswith "templates/post-" t
                 then "templates/post-" else "" in
      let rest := if PyStr.startswith "templates/post-" t
                  then PyStr.drop 15 t else t in
      let suf := if PyStr.endswith ".php" rest then ".php" else "" in
      t = String.append pre
            (String.append (GenerateCsvStats.clean_template t) suf))
  /\ (forall st r t k,
      r !! "template_articolo" = Some (Some t) -> t <> "" -> t <> "NULL" ->
      Stats.count_of k
        (GenerateCsvStats.template_stats (GenerateCsvStats.step st r))
      = Stats.count_of k (GenerateCsvStats.template_stats st)
        + (if String.eqb (GenerateCsvStats.clean_template t) k then 1 else 0))
  /\ (forall st r t v date st',
      r !! "template_articolo" = Some (Some t) -> t <> "" -> t <> "NULL" ->
      r !! "data_pubblicazione" = Some v ->
      PyDate.strptime_cell PyDate.strptime_ymd_hms v = Ok date ->
      AnalyzeCsv.step st r = Ok st' ->
      forall k,
        Stats.count_of k (AnalyzeCsv.template_stats st')
        = Stats.count_of k (AnalyzeCsv.template_stats st)
          + (if String.eqb (AnalyzeCsv.formatted_template t) k then 1 else 0))
  /\ (forall name,
      PyStr.contains "/" name = false -> PyStr.contains "." name = false ->
      let t := String.append "templates/post-" (String.append name ".php") in
      AnalyzeCsv.formatted_template t = name
      /\ GenerateCsvStats.clean_template t = name).
Proof.
  split; [|split; [|split]].
  - intros t. cbv zeta. unfold GenerateCsvStats.clean_template.
    destruct (PyStr.startswith "templates/post-" t) eqn:Ep.
    + apply prefix_drop in Ep. change (String.length "templates/post-") with 15%nat in Ep.
      rewrite Ep at 1. f_equal.
      destruct (PyStr.endswith ".php" (PyStr.drop 15 t)) eqn:Es.
      * apply (endswith_drop_last ".php") in Es. exact Es.
      * symmetry. apply append_empty_r.
    + change (String.append "" ?x) with x.
      destruct (PyStr.endswith ".php" t) eqn:Es.
      * apply (endswith_drop_last ".php") in Es. exact Es.
      * symmetry. apply append_empty_r.
  - intros st r t k Ht H1 H2.
    unfold GenerateCsvStats.step, GenerateCsvStats.get. simpl.
    rewrite Ht, (grouping_Some t H1 H2).
    apply count_of_record_json.
  - intros st r t v date st' Ht H1 H2 Hv Hd Hstep k.
    destruct (step_inv _ _ _ Hstep) as (v' & Hv' & [[[e He] _] | Hok]);
      [congruence|].
    destruct Hok as (date' & category & geo & template & Hd' & Hc & Hg & Ht').
    rewrite (step_parsed st r v' date' category geo template) in Hstep by assumption.
    injection Hstep as <-. simpl.
    assert (template = Some t) by congruence. subst template.
    rewrite (grouping_Some t H1 H2). apply count_of_record.
  - intros name Hslash Hdot. cbv zeta. split.
    + unfold AnalyzeCsv.formatted_template.
      rewrite remove_front by discriminate.
      rewrite (remove_absent "/" "templates/post-") by
        (reflexivity || (rewrite contains_app, Hslash; reflexivity)).
      apply (remove_back "." "php"). exact Hdot.
    + unfold GenerateCsvStats.clean_template, PyStr.startswith.
      rewrite prefix_app.
      rewrite (drop_app_length "templates/post-"), endswith_app.
      apply (drop_last_app ".php").
Qed.

Lemma template_bucket_key_witness :
  AnalyzeCsv.formatted_template "templates/post-news.php" = "news"
  /\ GenerateCsvStats.clean_template "templates/post-news.php" = "news".
Proof.
  destruct template_bucket_key as (_ & _ & _ & H).
  apply (H "news"); reflexivity.
Defined.

(** C5 as stated fails in the table entry point: [".php"] in the middle of
    a template is deleted too, so the row counts for ["a.orig"], where the
    JSON entry point counts it for ["a.php.orig"]. *)
Lemma analyze_removes_inner_suffix :
  let r := complete_row (Some "2024-01-01 08:00:00") None None
             (Some "templates/post-a.php.orig") in
  (exists st,
     AnalyzeCsv.aggregate [r] = Ok st
     /\ Stats.count_of "a.orig" (AnalyzeCsv.template_stats st) = 1
     /\ Stats.count_of "a.php.orig" (AnalyzeCsv.template_stats st) = 0)
  /\ Stats.count_of "a.php.orig"
       (GenerateCsvStats.template_stats (GenerateCsvStats.aggregate [r])) = 1.
Proof.
  split; [eexists; split; [vm_compute; reflexivity|] |]; repeat split; reflexivity.
Qed.

Lemma grouping_blank v : blank v -> Stats.grouping v = None.
Proof. intros [->|[->| ->]]; reflexivity. Qed.

(** C6.  In both entry points a grouping cell that is empty or ["NULL"]
    leaves the dictionary of its grouping as it was, and the other cells
    of the row are processed as in any row: a cell that is neither empty
    nor ["NULL"] counts for its bucket (in the table entry point when the
    date of the row parses), and what a row does to the dictionary of a
    grouping depends on the row's cell of that grouping and on its date
    only. *)
Theorem blank_cell_contributes_nothing :
  (forall st r,
      (forall v, r !! "category" = Some v -> blank v ->
         GenerateCsvStats.category_stats (GenerateCsvStats.step st r)
         = GenerateCsvStats.category_stats st)
      /\ (forall v, r !! "geo" = Some v -> blank v ->
         GenerateCsvStats.geo_stats (GenerateCsvStats.step st r)
         = GenerateCsvStats.geo_stats st)
      /\ (forall v, r !! "template_articolo" = Some v -> blank v ->
         GenerateCsvStats.template_stats (GenerateCsvStats.step st r)
         = GenerateCsvStats.template_stats st)
      /\ (forall r', same_cell "data_pubblicazione" r r' ->
           (same_cell "category" r r' ->
              GenerateCsvStats.category_stats (GenerateCsvStats.step st r)
              = GenerateCsvStats.category_stats (GenerateCsvStats.step st r'))
           /\ (same_cell "geo" r r' ->
              GenerateCsvStats.geo_stats (GenerateCsvStats.step st r)
              = GenerateCsvStats.geo_stats (GenerateCsvStats.step st r'))
           /\ (same_cell "template_articolo" r r' ->
              GenerateCsvStats.template_stats (GenerateCsvStats.step st r)
              = GenerateCsvStats.template_stats (GenerateCsvStats.step st r')))
      /\ ((forall c k,
             r !! "category" = Some (Some c) -> c <> "" -> c <> "NULL" ->
             Stats.count_of k
               (GenerateCsvStats.category_stats (GenerateCsvStats.step st r))
             = Stats.count_of k (GenerateCsvStats.category_stats st)
               + GenerateCsvStats.occurrences k c)
          /\ (forall g k,
             r !! "geo" = Some (Some g) -> g <> "" -> g <> "NULL" ->
             Stats.count_of k
               (GenerateCsvStats.geo_stats (GenerateCsvStats.step st r))
             = Stats.count_of k (GenerateCsvStats.geo_stats st)
               + (if String.eqb g k then 1 else 0))
          /\ (forall t k,
             r !! "template_articolo" = Some (Some t) -> t <> "" -> t <> "NULL" ->
             Stats.count_of k
               (GenerateCsvStats.template_stats (GenerateCsvStats.step st r))
             = Stats.count_of k (GenerateCsvStats.template_stats st)
               + (if String.eqb (GenerateCsvStats.clean_template t) k
                  then 1 else 0))))
  /\ (forall st r st',
      AnalyzeCsv.step st r = Ok st' ->
      (forall v, r !! "category" = Some v -> blank v ->
         AnalyzeCsv.category_stats st' = AnalyzeCsv.category_stats st)
      /\ (forall v, r !! "geo" = Some v -> blank v ->
         AnalyzeCsv.geo_stats st' = AnalyzeCsv.geo_stats st)
      /\ (forall v, r !! "template_articolo" = Some v -> blank v ->
         AnalyzeCsv.template_stats st' = AnalyzeCsv.template_stats st)
      /\ (forall r' st'',
           AnalyzeCsv.step st r' = Ok st'' ->
           same_cell "data_pubblicazione" r r' ->
           (same_cell "category" r r' ->
              AnalyzeCsv.category_stats st' = AnalyzeCsv.category_stats st'')
           /\ (same_cell "geo" r r' ->
              AnalyzeCsv.geo_stats st' = AnalyzeCsv.geo_stats st'')
           /\ (same_cell "template_articolo" r r' ->
              AnalyzeCsv.template_stats st' = AnalyzeCsv.template_stats st''))
      /\ (forall v date,
           r !! "data_pubblicazione" = Some v ->
           PyDate.strptime_cell PyDate.strptime_ymd_hms v = Ok date ->
           (forall c k,
              r !! "category" = Some (Some c) -> c <> "" -> c <> "NULL" ->
              Stats.count_of k (AnalyzeCsv.category_stats st')
              = Stats.count_of k (AnalyzeCsv.category_stats st)
                + (if String.eqb c k then 1 else 0))
           /\ (forall g k,
              r !! "geo" = Some (Some g) -> g <> "" -> g <> "NULL" ->
              Stats.count_of k (AnalyzeCsv.geo_stats st')
              = Stats.count_of k (AnalyzeCsv.geo_stats st)
                + (if String.eqb g k then 1 else 0))
           /\ (forall t k,
              r !! "template_articolo" = Some (Some t) -> t <> "" -> t <> "NULL" ->
              Stats.count_of k (AnalyzeCsv.template_stats st')
              = Stats.count_of k (AnalyzeCsv.template_stats st)
                + (if String.eqb (AnalyzeCsv.formatted_template t) k
                   then 1 else 0)))).
Proof.
  split.
  - intros st r. unfold GenerateCsvStats.step, GenerateCsvStats.get. simpl.
    split; [|split; [|split; [|split]]].
    + intros v -> Hb. now rewrite (grouping_blank v Hb).
    + intros v -> Hb. now rewrite (grouping_blank v Hb).
    + intros v -> Hb. now rewrite (grouping_blank v Hb).
    + intros r' Hdate. unfold same_cell in *.
      repeat split; intros Hc; now rewrite <- Hdate, <- Hc.
    + split; [|split].
      * intros c k -> H1 H2. rewrite (grouping_Some c H1 H2).
        apply count_of_record_tokens.
      * intros g k -> H1 H2. rewrite (grouping_Some g H1 H2).
        apply count_of_record_json.
      * intros t k -> H1 H2. rewrite (grouping_Some t H1 H2).
        apply count_of_record_json.
  - intros st r st' Hstep.
    destruct (step_inv _ _ _ Hstep) as (v & Hv & [[[e He] ->] | Hok]).
    + (* the date of [r] does not parse: nothing changes, for [r'] neither *)
      split; [|split; [|split; [|split]]]; auto.
      * intros r' st'' Hstep' Hdate. unfold same_cell in Hdate.
        destruct (step_inv _ _ _ Hstep') as (v' & Hv' & [[_ ->] | Hok]); auto.
        destruct Hok as (date & ? & ? & ? & Hd & _). congruence.
      * intros v' date Hv' Hd. congruence.
    + destruct Hok as (date & category & geo & template & Hd & Hc & Hg & Ht).
      rewrite (step_parsed st r v date category geo template) in Hstep
        by assumption.
      injection Hstep as <-. simpl. split; [|split; [|split; [|split]]].
      * intros w Hw Hb. assert (category = w) by congruence. subst w.
        now rewrite (grouping_blank _ Hb).
      * intros w Hw Hb. assert (geo = w) by congruence. subst w.
        now rewrite (grouping_blank _ Hb).
      * intros w Hw Hb. assert (template = w) by congruence. subst w.
        now rewrite (grouping_blank _ Hb).
      * intros r' st'' Hstep' Hdate. unfold same_cell in *.
        destruct (step_inv _ _ _ Hstep') as (v' & Hv' & [[[e He] _] | Hok]);
          [congruence|].
        destruct Hok as (date' & category' & geo' & template'
                         & Hd' & Hc' & Hg' & Ht').
        rewrite (step_parsed st r' v' date' category' geo' template') in Hstep'
          by assumption.
        injection Hstep' as <-. simpl.
        assert (v' = v) by congruence. subst v'.
        assert (date' = date) by congruence. subst date'.
        repeat split; intros Hsame.
        -- assert (category' = category) by congruence. now subst.
        -- assert (geo' = geo) by congruence. now subst.
        -- assert (template' = template) by congruence. now subst.
      * intros v' date' _ _. split; [|split].
        -- intros c k Hc' H1 H2.
           assert (category = Some c) by congruence. subst category.
           rewrite (grouping_Some c H1 H2). apply count_of_record.
        -- intros g k Hg' H1 H2.
           assert (geo = Some g) by congruence. subst geo.
           rewrite (grouping_Some g H1 H2). apply count_of_record.
        -- intros t k Ht' H1 H2.
           assert (template = Some t) by congruence. subst template.
           rewrite (grouping_Some t H1 H2). apply count_of_record.
Qed.

Lemma blank_cell_contributes_nothing_witness :
  let r := complete_row (Some "2024-01-01 08:00:00") (Some "NULL") (Some "it")
             (Some "templates/post-news.php") in
  let r' := complete_row (Some "2024-01-01 08:00:00") (Some "a") (Some "it")
              (Some "templates/post-news.php") in
  let d := PyDate.mk_datetime 2024 1 1 8 0 0 in
  let sj := GenerateCsvStats.step GenerateCsvStats.empty r in
  let st := AnalyzeCsv.mk_tables [] [("it", Stats.mk_bucket 1 [d])]
              [("news", Stats.mk_bucket 1 [d])] in
  (GenerateCsvStats.category_stats sj = []
   /\ GenerateCsvStats.geo_stats sj
      = GenerateCsvStats.geo_stats
          (GenerateCsvStats.step GenerateCsvStats.empty r')
   /\ Stats.count_of "it" (GenerateCsvStats.geo_stats sj) = 1
   /\ Stats.count_of "news" (GenerateCsvStats.template_stats sj) = 1)
  /\ (AnalyzeCsv.step AnalyzeCsv.empty r = Ok st
      /\ AnalyzeCsv.category_stats st = []
      /\ AnalyzeCsv.geo_stats st
         = AnalyzeCsv.geo_stats
             (AnalyzeCsv.mk_tables [("a", Stats.mk_bucket 1 [d])]
                [("it", Stats.mk_bucket 1 [d])]
                [("news", Stats.mk_bucket 1 [d])])
      /\ Stats.count_of "it" (AnalyzeCsv.geo_stats st) = 1
      /\ Stats.count_of "news" (AnalyzeCsv.template_stats st) = 1).
Proof.
  intros r r' d sj st.
  destruct blank_cell_contributes_nothing as [J T]. split.
  - destruct (J GenerateCsvStats.empty r) as (Hc & _ & _ & Hother & _ & Hg & Ht).
    split; [|split; [|split]].
    + apply (Hc (Some "NULL")); [reflexivity | right; right; reflexivity].
    + apply (Hother r'); reflexivity.
    + unfold sj. rewrite (Hg "it" "it"); reflexivity || discriminate.
    + unfold sj. rewrite (Ht "templates/post-news.php" "news");
        reflexivity || discriminate.
  - assert (Hstep : AnalyzeCsv.step AnalyzeCsv.empty r = Ok st) by reflexivity.
    destruct (T AnalyzeCsv.empty r st Hstep) as (Hc & _ & _ & Hother & Hcount).
    destruct (Hcount (Some "2024-01-01 08:00:00") d) as (_ & Hg & Ht);
      [reflexivity | reflexivity |].
    split; [exact Hstep|]. split; [|split; [|split]].
    + apply (Hc (Some "NULL")); [reflexivity | right; right; reflexivity].
    + apply (Hother r'); reflexivity.
    + rewrite (Hg "it" "it"); reflexivity || discriminate.
    + rewrite (Ht "templates/post-news.php" "news");
        reflexivity || discriminate.
Defined.

(** C7.  The JSON entry point emits an object for every list of rows, and
    its [totalArticles] is the number of rows; the counts of a result list
    need not add up to it: a single row with the category ["a, b"] and no
    geo and template gives the sums 2, 0 and 0. *)
Theorem total_articles_is_row_count :
  (forall rows,
      exists out,
        GenerateCsvStats.main rows = Ok out
        /\ GenerateCsvStats.totalArticles out = Z.of_nat (length rows))
  /\ (exists rows out,
        GenerateCsvStats.main rows = Ok out
        /\ GenerateCsvStats.totalArticles out = 1
        /\ GenerateCsvStats.sum_counts (GenerateCsvStats.categories out) = 2
        /\ GenerateCsvStats.sum_counts (GenerateCsvStats.geos out) = 0
        /\ GenerateCsvStats.sum_counts (GenerateCsvStats.templates out) = 0).
Proof.
  split.
  - intros rows. destruct (main_Ok rows) as (cs & gs & ts & H).
    eexists. split; [exact H | reflexivity].
  - exists [complete_row (Some "not a date") (Some "a, b") (Some "NULL") (Some "")].
    eexists. split; [vm_compute; reflexivity|]. repeat split; reflexivity.
Qed.

(** C4.  A row whose [data_pubblicazione] does not parse: the table entry
    point passes it over, all three dictionaries staying as they were; the
    JSON entry point counts it in every bucket its cells name, once per
    naming, and the parsed dates of every bucket stay as they were. *)
Theorem unparsed_date_row :
  (forall st r s e,
      r !! "data_pubblicazione" = Some (Some s) ->
      PyDate.strptime_ymd_hms s = Raise e ->
      AnalyzeCsv.step st r = Ok st)
  /\ (forall st r s e,
      r !! "data_pubblicazione" = Some (Some s) ->
      GenerateCsvStats.parse s = Raise e ->
      (forall c k,
          r !! "category" = Some (Some c) -> c <> "" -> c <> "NULL" ->
          Stats.count_of k
            (GenerateCsvStats.category_stats (GenerateCsvStats.step st r))
          = Stats.count_of k (GenerateCsvStats.category_stats st)
            + GenerateCsvStats.occurrences k c)
      /\ (forall g k,
          r !! "geo" = Some (Some g) -> g <> "" -> g <> "NULL" ->
          Stats.count_of k
            (GenerateCsvStats.geo_stats (GenerateCsvStats.step st r))
          = Stats.count_of k (GenerateCsvStats.geo_stats st)
            + (if String.eqb g k then 1 else 0))
      /\ (forall t k,
          r !! "template_articolo" = Some (Some t) -> t <> "" -> t <> "NULL" ->
          Stats.count_of k
            (GenerateCsvStats.template_stats (GenerateCsvStats.step st r))
          = Stats.count_of k (GenerateCsvStats.template_stats st)
            + (if String.eqb (GenerateCsvStats.clean_template t) k then 1 else 0))
      /\ (forall k,
          GenerateCsvStats.parsed_dates
            (Stats.dates_of k
               (GenerateCsvStats.category_stats (GenerateCsvStats.step st r)))
          = GenerateCsvStats.parsed_dates
              (Stats.dates_of k (GenerateCsvStats.category_stats st))
          /\ GenerateCsvStats.parsed_dates
               (Stats.dates_of k
                  (GenerateCsvStats.geo_stats (GenerateCsvStats.step st r)))
             = GenerateCsvStats.parsed_dates
                 (Stats.dates_of k (GenerateCsvStats.geo_stats st))
          /\ GenerateCsvStats.parsed_dates
               (Stats.dates_of k
                  (GenerateCsvStats.template_stats (GenerateCsvStats.step st r)))
             = GenerateCsvStats.parsed_dates
                 (Stats.dates_of k (GenerateCsvStats.template_stats st)))).
Proof.
  split.
  - intros st r s e Hs He. apply (step_unparsed st r (Some s) e Hs He).
  - intros st r s e Hs He.
    assert (Hu : GenerateCsvStats.unparsed
                   (GenerateCsvStats.get r "data_pubblicazione" ""))
      by (rewrite (get_present _ _ _ _ Hs); intros s' [= <-]; eauto).
    unfold GenerateCsvStats.step. cbn [GenerateCsvStats.category_stats
      GenerateCsvStats.geo_stats GenerateCsvStats.template_stats].
    split; [|split; [|split]].
    + intros c k Hc H1 H2.
      rewrite (get_present _ _ _ _ Hc), (grouping_Some c H1 H2).
      apply count_of_record_tokens.
    + intros g k Hg H1 H2.
      rewrite (get_present _ _ _ _ Hg), (grouping_Some g H1 H2).
      apply count_of_record_json.
    + intros t k Ht H1 H2.
      rewrite (get_present _ _ _ _ Ht), (grouping_Some t H1 H2).
      apply count_of_record_json.
    + intros k. repeat split.
      * destruct (Stats.grouping _); [|reflexivity].
        now apply parsed_dates_record_tokens.
      * destruct (Stats.grouping _); [|reflexivity].
        now apply parsed_dates_record.
      * destruct (Stats.grouping _); [|reflexivity].
        now apply parsed_dates_record.
Qed.

Lemma unparsed_date_row_witness :
  let r := complete_row (Some "01/02/2024") (Some "a, b") (Some "it")
             (Some "templates/post-news.php") in
  let st := GenerateCsvStats.step GenerateCsvStats.empty r in
  AnalyzeCsv.step AnalyzeCsv.empty r = Ok AnalyzeCsv.empty
  /\ Stats.count_of "a" (GenerateCsvStats.category_stats st) = 1
  /\ Stats.count_of "b" (GenerateCsvStats.category_stats st) = 1
  /\ Stats.count_of "it" (GenerateCsvStats.geo_stats st) = 1
  /\ Stats.count_of "news" (GenerateCsvStats.template_stats st) = 1
  /\ GenerateCsvStats.parsed_dates
       (Stats.dates_of "it" (GenerateCsvStats.geo_stats st)) = [].
Proof.
  intros r st.
  destruct unparsed_date_row as [T J]. split.
  - apply (T AnalyzeCsv.empty r "01/02/2024" ValueError); reflexivity.
  - destruct (J GenerateCsvStats.empty r "01/02/2024" ValueError)
      as (Hc & Hg & Ht & Hd); try reflexivity.
    unfold st.
    rewrite !(Hc "a, b"), (Hg "it"), (Ht "templates/post-news.php") by
      (reflexivity || discriminate).
    destruct (Hd "it") as (_ & -> & _).
    repeat split; reflexivity.
Defined.

(** C9.  The bare date ["2024-01-01"] does not match the format of the
    table entry point and is a date for the JSON entry point.  Every row
    with it is passed over by the table entry point; in the JSON entry
    point it counts for the bucket of its geo cell (and likewise for its
    other cells), which gains the date string.  On a single such row the
    table entry point ends with three empty dictionaries and the JSON entry
    point reports the row, dated, in all three lists. *)
Theorem bare_date_entry_points_differ :
  PyDate.strptime_ymd_hms "2024-01-01" = Raise ValueError
  /\ GenerateCsvStats.parse "2024-01-01"
     = Ok (PyDate.mk_datetime 2024 1 1 0 0 0)
  /\ (forall st r,
        r !! "data_pubblicazione" = Some (Some "2024-01-01") ->
        AnalyzeCsv.step st r = Ok st)
  /\ (forall st r g,
        r !! "data_pubblicazione" = Some (Some "2024-01-01") ->
        r !! "geo" = Some (Some g) -> g <> "" -> g <> "NULL" ->
        let gs := GenerateCsvStats.geo_stats st in
        let gs' := GenerateCsvStats.geo_stats (GenerateCsvStats.step st r) in
        Stats.count_of g gs' = Stats.count_of g gs + 1
        /\ Stats.dates_of g gs' = Stats.dates_of g gs ++ ["2024-01-01"])
  /\ (exists r,
        r !! "data_pubblicazione" = Some (Some "2024-01-01")
        /\ AnalyzeCsv.aggregate [r] = Ok AnalyzeCsv.empty
        /\ GenerateCsvStats.main [r]
           = Ok (GenerateCsvStats.mk_output
                   [GenerateCsvStats.mk_entry "a" 1 "2024-01-01" "N/A"]
                   [GenerateCsvStats.mk_entry "it" 1 "2024-01-01" "N/A"]
                   [GenerateCsvStats.mk_entry "news" 1 "2024-01-01" "N/A"]
                   1)).
Proof.
  split; [reflexivity|]. split; [reflexivity|]. split; [|split].
  - intros st r Hd.
    apply (step_unparsed st r (Some "2024-01-01") ValueError Hd). reflexivity.
  - intros st r g Hd Hg H1 H2. cbv zeta.
    unfold GenerateCsvStats.step.
    cbn [GenerateCsvStats.geo_stats].
    rewrite (get_present _ _ _ _ Hd), (get_present _ _ _ _ Hg),
      (grouping_Some g H1 H2).
    rewrite count_of_record_json, dates_of_record_json by discriminate.
    now rewrite String.eqb_refl.
  - exists (complete_row (Some "2024-01-01") (Some "a") (Some "it")
              (Some "templates/post-news.php")).
    split; [reflexivity|]. split; vm_compute; reflexivity.
Qed.

Lemma bare_date_entry_points_differ_witness :
  let r := complete_row (Some "2024-01-01") None (Some "it") None in
  let gs' := GenerateCsvStats.geo_stats
               (GenerateCsvStats.step GenerateCsvStats.empty r) in
  AnalyzeCsv.step AnalyzeCsv.empty r = Ok AnalyzeCsv.empty
  /\ Stats.count_of "it" gs' = 1
  /\ Stats.dates_of "it" gs' = ["2024-01-01"].
Proof.
  intros r gs'.
  destruct bare_date_entry_points_differ as (_ & _ & T & J & _). split.
  - apply (T AnalyzeCsv.empty r). reflexivity.
  - destruct (J GenerateCsvStats.empty r "it") as [Hc Hd];
      [reflexivity | reflexivity | discriminate | discriminate |].
    cbv zeta in Hc, Hd. unfold gs'. rewrite Hc, Hd. split; reflexivity.
Defined.

(** C8, as the code has it.  The JSON entry point reads a missing column as
    the default of [row.get], ["NULL"] for the three groupings and the
    empty string for the date, and raises on no list of rows.  The table
    entry point indexes the row: it raises on no row that has the four
    columns, whatever their cells, but a row without
    [data_pubblicazione], or with a date that parses and without one of
    the three other columns, raises [KeyError] for a missing column, and
    the exception ends the loop. *)
Theorem missing_column_per_entry_point :
  (forall rows, exists out, GenerateCsvStats.main rows = Ok out)
  /\ (forall st r k default,
        In (k, default) [("data_pubblicazione", ""); ("category", "NULL");
                         ("geo", "NULL"); ("template_articolo", "NULL")] ->
        r !! k = None ->
        GenerateCsvStats.step st r
        = GenerateCsvStats.step st (<[k := Some default]> r))
  /\ (forall st r,
        (forall k, In k ["data_pubblicazione"; "category"; "geo";
                         "template_articolo"] -> is_Some (r !! k)) ->
        exists st', AnalyzeCsv.step st r = Ok st')
  /\ (forall st r,
        r !! "data_pubblicazione" = None ->
        AnalyzeCsv.step st r = Raise (KeyError "data_pubblicazione"))
  /\ (forall st r v date k,
        r !! "data_pubblicazione" = Some v ->
        PyDate.strptime_cell PyDate.strptime_ymd_hms v = Ok date ->
        In k ["category"; "geo"; "template_articolo"] -> r !! k = None ->
        exists k',
          In k' ["category"; "geo"; "template_articolo"] /\ r !! k' = None
          /\ AnalyzeCsv.step st r = Raise (KeyError k'))
  /\ (forall st r e rows,
        AnalyzeCsv.step st r = Raise e ->
        AnalyzeCsv.run st (r :: rows) = Raise e).
Proof.
  split; [|split; [|split; [|split; [|split]]]].
  - intros rows. destruct (main_Ok rows) as (cs & gs & ts & H). eauto.
  - intros st r k default Hk Hnone.
    assert (Hget : forall k' d,
               In (k', d) [("data_pubblicazione", ""); ("category", "NULL");
                           ("geo", "NULL"); ("template_articolo", "NULL")] ->
               GenerateCsvStats.get (<[k := Some default]> r) k' d
               = GenerateCsvStats.get r k' d).
    { intros k' d Hk'. unfold GenerateCsvStats.get.
      destruct (decide (k = k')) as [<-|Hne].
      - rewrite lookup_insert_eq, Hnone.
        simpl in Hk, Hk'.
        destruct Hk as [E|[E|[E|[E|[]]]]]; injection E as <- <-;
          destruct Hk' as [E'|[E'|[E'|[E'|[]]]]]; congruence.
      - now rewrite lookup_insert_ne. }
    unfold GenerateCsvStats.step.
    rewrite !Hget by (simpl; auto). reflexivity.
  - intros st r Hall. unfold AnalyzeCsv.step.
    destruct (Hall "data_pubblicazione") as (v & Hv); [simpl; auto|].
    destruct (Hall "category") as (c & Hc); [simpl; auto|].
    destruct (Hall "geo") as (g & Hg); [simpl; auto|].
    destruct (Hall "template_articolo") as (t & Ht); [simpl; auto|].
    apply getitem_Ok in Hv, Hc, Hg, Ht. rewrite Hv. cbn [bind].
    destruct (PyDate.strptime_cell PyDate.strptime_ymd_hms v); [|eauto].
    rewrite Hc. cbn [bind]. rewrite Hg. cbn [bind]. rewrite Ht. cbn [bind].
    eauto.
  - intros st r Hnone. unfold AnalyzeCsv.step.
    now rewrite (getitem_missing _ _ Hnone).
  - intros st r v date k Hv Hd Hk Hnone. unfold AnalyzeCsv.step.
    apply getitem_Ok in Hv. rewrite Hv. cbn [bind]. rewrite Hd.
    destruct (r !! "category") as [c|] eqn:Ec.
    2:{ exists "category". rewrite (getitem_missing _ _ Ec). simpl. auto. }
    apply getitem_Ok in Ec. rewrite Ec. cbn [bind].
    destruct (r !! "geo") as [g|] eqn:Eg.
    2:{ exists "geo". rewrite (getitem_missing _ _ Eg). simpl. auto. }
    apply getitem_Ok in Eg. rewrite Eg. cbn [bind].
    destruct (r !! "template_articolo") as [t|] eqn:Et.
    2:{ exists "template_articolo". rewrite (getitem_missing _ _ Et).
        simpl. auto 6. }
    apply getitem_Ok in Ec, Eg. simpl in Hk.
    destruct Hk as [<-|[<-|[<-|[]]]]; congruence.
  - intros st r e rows H. simpl. now rewrite H.
Qed.

Lemma missing_column_per_entry_point_witness :
  let r := <["data_pubblicazione" := Some "2024-01-01 08:00:00"]>
             (<["category" := Some "a"]>
                (<["template_articolo" := Some "NULL"]> ∅)) : row in
  GenerateCsvStats.step GenerateCsvStats.empty r
  = GenerateCsvStats.step GenerateCsvStats.empty (<["geo" := Some "NULL"]> r)
  /\ AnalyzeCsv.run AnalyzeCsv.empty [r; r] = Raise (KeyError "geo").
Proof.
  intros r.
  destruct missing_column_per_entry_point as (_ & J & _ & _ & T & P). split.
  - apply (J GenerateCsvStats.empty r "geo" "NULL");
      [right; right; left; reflexivity | reflexivity].
  - apply P.
    destruct (T AnalyzeCsv.empty r (Some "2024-01-01 08:00:00")
                (PyDate.mk_datetime 2024 1 1 8 0 0) "geo")
      as (k' & Hk' & Hnone & Hraise);
      [reflexivity | reflexivity | right; left; reflexivity | reflexivity |].
    destruct Hk' as [<-|[<-|[<-|[]]]];
      [discriminate Hnone | exact Hraise | discriminate Hnone].
Defined.

(** C8 as stated fails in the table entry point: on a row without the
    column [geo] it raises [KeyError], where the JSON entry point reports
    the row. *)
Lemma analyze_raises_on_missing_column :
  let r := <["data_pubblicazione" := Some "2024-01-01 08:00:00"]>
             (<["category" := Some "a"]>
                (<["template_articolo" := Some "NULL"]> ∅)) : row in
  r !! "geo" = None
  /\ AnalyzeCsv.main [r] = Raise (KeyError "geo")
  /\ GenerateCsvStats.main [r]
     = Ok (GenerateCsvStats.mk_output
             [GenerateCsvStats.mk_entry "a" 1 "2024-01-01" "N/A"] [] [] 1).
Proof. repeat split; vm_compute; reflexivity. Qed.

(** * Further properties of the two scripts *)

(** ** Keys of the dictionaries *)

Section KeyFacts.
Context {D : Type}.
Implicit Types (m : Stats.stats D) (k : string).
Import Stats.

Lemma lookup_None_keys k m : lookup k m = None <-> ~ In k (keys m).
Proof.
  induction m as [|[k' b] m IH]; simpl; [tauto|].
  destruct (String.eqb_spec k k') as [->|Hne].
  - split; [discriminate | intros H; exfalso; apply H; now left].
  - rewrite IH. split; intros H; [intros [E|Hin]; [congruence | tauto] | tauto].
Qed.

Lemma lookup_Some_In k b m : lookup k m = Some b -> In (k, b) m.
Proof.
  induction m as [|[k' b'] m IH]; simpl; [discriminate|].
  destruct (String.eqb_spec k k') as [->|Hne].
  - intros [= ->]. now left.
  - intros H. right. now apply IH.
Qed.



Lemma count_of_nil k : count_of k ([] : Stats.stats D) = 0.
Proof. reflexivity. Qed.

(** A key whose buckets all count at least one has a bucket exactly when
    its count is positive. *)
Lemma keys_count_of k m :
  Forall (fun kb : string * bucket D => 1 <= Stats.count (snd kb)) m ->
  (In k (keys m) <-> 1 <= count_of k m).
Proof.
  intros Hm. unfold count_of. destruct (lookup k m) as [b|] eqn:E.
  - split; intros _.
    + apply lookup_Some_In in E. rewrite List.Forall_forall in Hm.
      apply (Hm (k, b) E).
    + destruct (lookup_None_keys k m) as [_ H].
      destruct (in_dec String.string_dec k (keys m)) as [Hin|Hn]; [exact Hin|].
      rewrite (H Hn) in E. discriminate.
  - apply lookup_None_keys in E. split; [tauto | lia].
Qed.

End KeyFacts.

(** ** What each bucket counts *)

Section NamingFacts.
Import Stats.

Lemma grouping_inv v c :
  grouping v = Some c -> v = Some c /\ c <> "" /\ c <> "NULL".
Proof.
  unfold grouping. destruct v as [s|]; [|discriminate].
  destruct (String.eqb_spec s ""); [discriminate|].
  destruct (String.eqb_spec s "NULL"); [discriminate|].
  simpl. intros [= <-]. auto.
Qed.

Lemma count_occ_one (x k : string) :
  Z.of_nat (count_occ String.string_dec [x] k)
  = if String.eqb x k then 1 else 0.
Proof.
  simpl. destruct (String.string_dec x k) as [->|Hne].
  - now rewrite String.eqb_refl.
  - apply String.eqb_neq in Hne. now rewrite Hne.
Qed.

(** One row of the JSON entry point adds, to the count of each key, the
    number of times the row names it. *)
Lemma step_counts_json st r k :
  count_of k (GenerateCsvStats.category_stats (GenerateCsvStats.step st r))
  = count_of k (GenerateCsvStats.category_stats st)
    + Z.of_nat (count_occ String.string_dec (GenerateCsvStats.category_names r) k)
  /\ count_of k (GenerateCsvStats.geo_stats (GenerateCsvStats.step st r))
     = count_of k (GenerateCsvStats.geo_stats st)
       + Z.of_nat (count_occ String.string_dec (GenerateCsvStats.geo_names r) k)
  /\ count_of k (GenerateCsvStats.template_stats (GenerateCsvStats.step st r))
     = count_of k (GenerateCsvStats.template_stats st)
       + Z.of_nat (count_occ String.string_dec (GenerateCsvStats.template_names r) k).
Proof.
  unfold GenerateCsvStats.step, GenerateCsvStats.category_names,
    GenerateCsvStats.geo_names, GenerateCsvStats.template_names.
  cbn [GenerateCsvStats.category_stats GenerateCsvStats.geo_stats
       GenerateCsvStats.template_stats].
  split; [|split].
  - destruct (grouping _); [apply count_of_record_tokens | simpl; lia].
  - destruct (grouping _); [|simpl; lia].
    now rewrite count_of_record_json, count_occ_one.
  - destruct (grouping _); [|simpl; lia].
    now rewrite count_of_record_json, count_occ_one.
Qed.

Lemma fold_step_counts_json rows k : forall st,
  count_of k (GenerateCsvStats.category_stats (fold_left GenerateCsvStats.step rows st))
  = count_of k (GenerateCsvStats.category_stats st)
    + Z.of_nat (count_occ String.string_dec
                  (flat_map GenerateCsvStats.category_names rows) k)
  /\ count_of k (GenerateCsvStats.geo_stats (fold_left GenerateCsvStats.step rows st))
     = count_of k (GenerateCsvStats.geo_stats st)
       + Z.of_nat (count_occ String.string_dec
                     (flat_map GenerateCsvStats.geo_names rows) k)
  /\ count_of k (GenerateCsvStats.template_stats (fold_left GenerateCsvStats.step rows st))
     = count_of k (GenerateCsvStats.template_stats st)
       + Z.of_nat (count_occ String.string_dec
                     (flat_map GenerateCsvStats.template_names rows) k).
Proof.
  induction rows as [|r rows IH]; intros st; simpl.
  - repeat split; lia.
  - destruct (IH (GenerateCsvStats.step st r)) as (Hc & Hg & Ht).
    destruct (step_counts_json st r k) as (Hc' & Hg' & Ht').
    rewrite !count_occ_app, !Nat2Z.inj_add. repeat split; lia.
Qed.

(** The same for a row the table entry point does not raise on. *)
Lemma step_counts_analyze st r st' k :
  AnalyzeCsv.step st r = Ok st' ->
  count_of k (AnalyzeCsv.category_stats st')
  = count_of k (AnalyzeCsv.category_stats st)
    + Z.of_nat (count_occ String.string_dec (AnalyzeCsv.category_names r) k)
  /\ count_of k (AnalyzeCsv.geo_stats st')
     = count_of k (AnalyzeCsv.geo_stats st)
       + Z.of_nat (count_occ String.string_dec (AnalyzeCsv.geo_names r) k)
  /\ count_of k (AnalyzeCsv.template_stats st')
     = count_of k (AnalyzeCsv.template_stats st)
       + Z.of_nat (count_occ String.string_dec (AnalyzeCsv.template_names r) k).
Proof.
  intros Hstep.
  unfold AnalyzeCsv.category_names, AnalyzeCsv.geo_names,
    AnalyzeCsv.template_names, AnalyzeCsv.cell_names, AnalyzeCsv.dated.
  destruct (step_inv _ _ _ Hstep) as (v & Hv & [[[e He] ->] | Hok]).
  - rewrite Hv, He. simpl. repeat split; lia.
  - destruct Hok as (date & category & geo & template & Hd & Hc & Hg & Ht).
    rewrite (step_parsed st r v date category geo template) in Hstep
      by assumption.
    injection Hstep as <-. rewrite Hv, Hd, Hc, Hg, Ht.
    cbn [AnalyzeCsv.category_stats AnalyzeCsv.geo_stats
         AnalyzeCsv.template_stats].
    split; [|split].
    + destruct (grouping category); [|simpl; lia].
      now rewrite count_of_record, count_occ_one.
    + destruct (grouping geo); [|simpl; lia].
      now rewrite count_of_record, count_occ_one.
    + destruct (grouping template); [|simpl; lia].
      now rewrite count_of_record, count_occ_one.
Qed.

Lemma run_counts_analyze rows k : forall st st',
  AnalyzeCsv.run st rows = Ok st' ->
  count_of k (AnalyzeCsv.category_stats st')
  = count_of k (AnalyzeCsv.category_stats st)
    + Z.of_nat (count_occ String.string_dec
                  (flat_map AnalyzeCsv.category_names rows) k)
  /\ count_of k (AnalyzeCsv.geo_stats st')
     = count_of k (AnalyzeCsv.geo_stats st)
       + Z.of_nat (count_occ String.string_dec
                     (flat_map AnalyzeCsv.geo_names rows) k)
  /\ count_of k (AnalyzeCsv.template_stats st')
     = count_of k (AnalyzeCsv.template_stats st)
       + Z.of_nat (count_occ String.string_dec
                     (flat_map AnalyzeCsv.template_names rows) k).
Proof.
  induction rows as [|r rows IH]; intros st st' H; simpl in *.
  - injection H as <-. repeat split; lia.
  - apply bind_Ok in H as (st1 & H1 & H).
    destruct (IH _ _ H) as (Hc & Hg & Ht).
    destruct (step_counts_analyze st r st1 k H1) as (Hc' & Hg' & Ht').
    rewrite !count_occ_app, !Nat2Z.inj_add. repeat split; lia.
Qed.

End NamingFacts.

Lemma wf_counts_json m :
  GenerateCsvStats.wf_stats m ->
  Forall (fun kb : string * Stats.bucket string => 1 <= Stats.count (snd kb)) m.
Proof.
  intros H. eapply Forall_impl; [exact H|]. now intros kb [H1 _].
Qed.

Lemma wf_counts_analyze m :
  AnalyzeCsv.wf_stats m ->
  Forall (fun kb : string * Stats.bucket PyDate.datetime =>
            1 <= Stats.count (snd kb)) m.
Proof.
  intros H. eapply Forall_impl; [exact H|]. now intros kb [H1 _].
Qed.

Lemma count_occ_In_Z (l : list string) (k : string) :
  In k l <-> 1 <= Z.of_nat (count_occ String.string_dec l k).
Proof. rewrite (count_occ_In String.string_dec). lia. Qed.

Lemma keys_named {D} (m : Stats.stats D) (l : list string) (k : string) :
  Forall (fun kb : string * Stats.bucket D => 1 <= Stats.count (snd kb)) m ->
  Stats.count_of k m = Z.of_nat (count_occ String.string_dec l k) ->
  (In k (Stats.keys m) <-> In k l).
Proof.
  intros Hm Hc. rewrite (keys_count_of k m Hm), Hc.
  symmetry. apply count_occ_In_Z.
Qed.

Lemma generate_counts_facts rows k :
  Stats.count_of k (GenerateCsvStats.category_stats (GenerateCsvStats.aggregate rows))
  = Z.of_nat (count_occ String.string_dec
                (flat_map GenerateCsvStats.category_names rows) k)
  /\ Stats.count_of k (GenerateCsvStats.geo_stats (GenerateCsvStats.aggregate rows))
     = Z.of_nat (count_occ String.string_dec
                   (flat_map GenerateCsvStats.geo_names rows) k)
  /\ Stats.count_of k (GenerateCsvStats.template_stats (GenerateCsvStats.aggregate rows))
     = Z.of_nat (count_occ String.string_dec
                   (flat_map GenerateCsvStats.template_names rows) k).
Proof.
  destruct (fold_step_counts_json rows k GenerateCsvStats.empty) as (Hc & Hg & Ht).
  fold (GenerateCsvStats.aggregate rows) in Hc, Hg, Ht.
  cbn [GenerateCsvStats.empty GenerateCsvStats.category_stats
       GenerateCsvStats.geo_stats GenerateCsvStats.template_stats] in Hc, Hg, Ht.
  rewrite count_of_nil in Hc, Hg, Ht. repeat split; lia.
Qed.

Lemma generate_keys_named rows k :
  (In k (Stats.keys (GenerateCsvStats.category_stats (GenerateCsvStats.aggregate rows)))
   <-> In k (flat_map GenerateCsvStats.category_names rows))
  /\ (In k (Stats.keys (GenerateCsvStats.geo_stats (GenerateCsvStats.aggregate rows)))
      <-> In k (flat_map GenerateCsvStats.geo_names rows))
  /\ (In k (Stats.keys (GenerateCsvStats.template_stats (GenerateCsvStats.aggregate rows)))
      <-> In k (flat_map GenerateCsvStats.template_names rows)).
Proof.
  destruct (generate_counts_facts rows k) as (Hc & Hg & Ht).
  destruct (aggregate_wf_json rows) as (Wc & Wg & Wt).
  split; [|split]; apply keys_named; auto using wf_counts_json.
Qed.

Lemma analyze_keys_named rows st k :
  AnalyzeCsv.aggregate rows = Ok st ->
  (In k (Stats.keys (AnalyzeCsv.category_stats st))
   <-> In k (flat_map AnalyzeCsv.category_names rows))
  /\ (In k (Stats.keys (AnalyzeCsv.geo_stats st))
      <-> In k (flat_map AnalyzeCsv.geo_names rows))
  /\ (In k (Stats.keys (AnalyzeCsv.template_stats st))
      <-> In k (flat_map AnalyzeCsv.template_names rows)).
Proof.
  intros Hagg.
  destruct (run_counts_analyze rows k _ _ Hagg) as (Hc & Hg & Ht).
  cbn [AnalyzeCsv.empty AnalyzeCsv.category_stats AnalyzeCsv.geo_stats
       AnalyzeCsv.template_stats] in Hc, Hg, Ht.
  rewrite count_of_nil in Hc, Hg, Ht.
  destruct (aggregate_wf _ _ Hagg) as (Wc & Wg & Wt).
  split; [|split]; apply keys_named; auto using wf_counts_analyze; lia.
Qed.

(** X1.  In the JSON entry point the count of a bucket is the number of
    times the rows name its key: once per trimmed non-empty token of a
    category cell, once for a geo cell, once for the cleaned template cell
    (cells that are empty or ["NULL"] name nothing).  A key has a bucket
    exactly when some row names it. *)
Theorem generate_counts_are_namings rows k :
  (Stats.count_of k (GenerateCsvStats.category_stats (GenerateCsvStats.aggregate rows))
   = Z.of_nat (count_occ String.string_dec
                 (flat_map GenerateCsvStats.category_names rows) k)
   /\ Stats.count_of k (GenerateCsvStats.geo_stats (GenerateCsvStats.aggregate rows))
      = Z.of_nat (count_occ String.string_dec
                    (flat_map GenerateCsvStats.geo_names rows) k)
   /\ Stats.count_of k (GenerateCsvStats.template_stats (GenerateCsvStats.aggregate rows))
      = Z.of_nat (count_occ String.string_dec
                    (flat_map GenerateCsvStats.template_names rows) k))
  /\ ((In k (Stats.keys (GenerateCsvStats.category_stats (GenerateCsvStats.aggregate rows)))
       <-> In k (flat_map GenerateCsvStats.category_names rows))
      /\ (In k (Stats.keys (GenerateCsvStats.geo_stats (GenerateCsvStats.aggregate rows)))
          <-> In k (flat_map GenerateCsvStats.geo_names rows))
      /\ (In k (Stats.keys (GenerateCsvStats.template_stats (GenerateCsvStats.aggregate rows)))
          <-> In k (flat_map GenerateCsvStats.template_names rows))).
Proof.
  split; [apply generate_counts_facts | apply generate_keys_named].
Qed.

(** X2.  In the table entry point, when no row raises, the count of a
    bucket is the number of rows with a date that parses whose cell is its
    key (the whole category cell, the geo cell, the formatted template
    cell); a key has a bucket exactly when such a row exists. *)
Theorem analyze_counts_are_namings rows st k :
  AnalyzeCsv.aggregate rows = Ok st ->
  (Stats.count_of k (AnalyzeCsv.category_stats st)
   = Z.of_nat (count_occ String.string_dec
                 (flat_map AnalyzeCsv.category_names rows) k)
   /\ Stats.count_of k (AnalyzeCsv.geo_stats st)
      = Z.of_nat (count_occ String.string_dec
                    (flat_map AnalyzeCsv.geo_names rows) k)
   /\ Stats.count_of k (AnalyzeCsv.template_stats st)
      = Z.of_nat (count_occ String.string_dec
                    (flat_map AnalyzeCsv.template_names rows) k))
  /\ ((In k (Stats.keys (AnalyzeCsv.category_stats st))
       <-> In k (flat_map AnalyzeCsv.category_names rows))
      /\ (In k (Stats.keys (AnalyzeCsv.geo_stats st))
          <-> In k (flat_map AnalyzeCsv.geo_names rows))
      /\ (In k (Stats.keys (AnalyzeCsv.template_stats st))
          <-> In k (flat_map AnalyzeCsv.template_names rows))).
Proof.
  intros Hagg. split; [|now apply analyze_keys_named].
  destruct (run_counts_analyze rows k _ _ Hagg) as (Hc & Hg & Ht).
  cbn [AnalyzeCsv.empty AnalyzeCsv.category_stats AnalyzeCsv.geo_stats
       AnalyzeCsv.template_stats] in Hc, Hg, Ht.
  rewrite count_of_nil in Hc, Hg, Ht. repeat split; lia.
Qed.

Lemma analyze_counts_are_namings_witness :
  let rows := [ complete_row (Some "2024-01-01 08:00:00") (Some "a, b") (Some "it") None;
                complete_row (Some "2024-01-01") (Some "a, b") (Some "it") None;
                complete_row (Some "2024-01-02 09:00:00") (Some "a, b") (Some "NULL") None ] in
  let d1 := PyDate.mk_datetime 2024 1 1 8 0 0 in
  let d2 := PyDate.mk_datetime 2024 1 2 9 0 0 in
  let st := AnalyzeCsv.mk_tables [("a, b", Stats.mk_bucket 2 [d1; d2])]
              [("it", Stats.mk_bucket 1 [d1])] [] in
  Stats.count_of "a, b" (AnalyzeCsv.category_stats st) = 2
  /\ Stats.count_of "it" (AnalyzeCsv.geo_stats st) = 1.
Proof.
  intros rows d1 d2 st.
  destruct (analyze_counts_are_namings rows st "a, b") as [(Hc & _ & _) _];
    [vm_compute; reflexivity|].
  destruct (analyze_counts_are_namings rows st "it") as [(_ & Hg & _) _];
    [vm_compute; reflexivity|].
  rewrite Hc, Hg. split; reflexivity.
Defined.

(** ** The order of the rows *)

(** Whether the table entry point raises on a row does not depend on the
    dictionaries. *)
Lemma step_Ok_any st r st' st2 :
  AnalyzeCsv.step st r = Ok st' -> exists st2', AnalyzeCsv.step st2 r = Ok st2'.
Proof.
  intros H. destruct (step_inv _ _ _ H) as (v & Hv & [[[e He] _] | Hok]).
  - exists st2. now apply (step_unparsed st2 r v e).
  - destruct Hok as (date & category & geo & template & Hd & Hc & Hg & Ht).
    eexists. now apply (step_parsed st2 r v date category geo template).
Qed.

Lemma run_Ok_Forall rows : forall st,
  (exists st', AnalyzeCsv.run st rows = Ok st')
  <-> Forall (fun r => exists st1, AnalyzeCsv.step AnalyzeCsv.empty r = Ok st1) rows.
Proof.
  induction rows as [|r rows IH]; intros st; simpl.
  - split; [constructor | eauto].
  - split.
    + intros (st' & H). apply bind_Ok in H as (st1 & H1 & H).
      constructor; [now apply (step_Ok_any st r st1) | apply (IH st1); eauto].
    + intros H. inversion H as [|? ? (st1 & H1) Hrest]; subst.
      destruct (step_Ok_any _ _ _ st H1) as (st2 & ->). simpl.
      now apply IH.
Qed.

(** X3.  The counts do not depend on the order of the rows: on a
    rearrangement of the rows the JSON entry point counts the same for
    every key of the three groupings, and the table entry point, when it
    does not raise on the rows, does not raise on the rearrangement and
    counts the same. *)
Theorem counts_ignore_row_order rows rows' :
  Permutation rows rows' ->
  (forall k,
      Stats.count_of k (GenerateCsvStats.category_stats (GenerateCsvStats.aggregate rows))
      = Stats.count_of k (GenerateCsvStats.category_stats (GenerateCsvStats.aggregate rows'))
      /\ Stats.count_of k (GenerateCsvStats.geo_stats (GenerateCsvStats.aggregate rows))
         = Stats.count_of k (GenerateCsvStats.geo_stats (GenerateCsvStats.aggregate rows'))
      /\ Stats.count_of k (GenerateCsvStats.template_stats (GenerateCsvStats.aggregate rows))
         = Stats.count_of k (GenerateCsvStats.template_stats (GenerateCsvStats.aggregate rows')))
  /\ (forall st,
        AnalyzeCsv.aggregate rows = Ok st ->
        exists st',
          AnalyzeCsv.aggregate rows' = Ok st'
          /\ forall k,
               Stats.count_of k (AnalyzeCsv.category_stats st)
               = Stats.count_of k (AnalyzeCsv.category_stats st')
               /\ Stats.count_of k (AnalyzeCsv.geo_stats st)
                  = Stats.count_of k (AnalyzeCsv.geo_stats st')
               /\ Stats.count_of k (AnalyzeCsv.template_stats st)
                  = Stats.count_of k (AnalyzeCsv.template_stats st')).
Proof.
  intros Hp.
  assert (Hocc : forall (f : row -> list string) k,
             count_occ String.string_dec (flat_map f rows) k
             = count_occ String.string_dec (flat_map f rows') k).
  { intros f k. apply (Permutation_count_occ String.string_dec).
    now apply Permutation_flat_map. }
  split.
  - intros k.
    destruct (generate_counts_facts rows k) as (-> & -> & ->).
    destruct (generate_counts_facts rows' k) as (-> & -> & ->).
    now rewrite !Hocc.
  - intros st Hagg.
    assert (Hok : exists st', AnalyzeCsv.aggregate rows' = Ok st').
    { apply run_Ok_Forall. eapply Permutation_Forall; [exact Hp|].
      apply (run_Ok_Forall rows AnalyzeCsv.empty). eauto. }
    destruct Hok as (st' & Hagg'). exists st'. split; [exact Hagg'|].
    intros k.
    destruct (run_counts_analyze rows k _ _ Hagg) as (-> & -> & ->).
    destruct (run_counts_analyze rows' k _ _ Hagg') as (-> & -> & ->).
    now rewrite !Hocc.
Qed.

Lemma counts_ignore_row_order_witness :
  let r1 := complete_row (Some "2024-01-01 08:00:00") (Some "a") (Some "it") None in
  let r2 := complete_row (Some "2024-01-02 08:00:00") (Some "b") (Some "it") None in
  Stats.count_of "it" (GenerateCsvStats.geo_stats (GenerateCsvStats.aggregate [r1; r2]))
  = Stats.count_of "it" (GenerateCsvStats.geo_stats (GenerateCsvStats.aggregate [r2; r1])).
Proof.
  intros r1 r2.
  destruct (counts_ignore_row_order [r1; r2] [r2; r1]) as [J _];
    [apply perm_swap|].
  apply (J "it").
Defined.

(** ** Splitting and trimming *)

Section StripFacts.
Import PyStr.

Lemma split_cons sep s : exists t ts, split sep s = t :: ts.
Proof.
  induction s as [|c s (t & ts & IH)]; simpl; [eauto|].
  destruct (Ascii.eqb c sep); [eauto|]. rewrite IH. eauto.
Qed.

(** No token of [s.split(sep)] holds the separator. *)
Lemma split_no_sep sep s :
  Forall (fun t => contains sep t = false) (split sep s).
Proof.
  induction s as [|c s IH]; simpl; [repeat constructor|].
  destruct (Ascii.eqb c sep) eqn:E; [constructor; [reflexivity | exact IH]|].
  destruct (split sep s) as [|t ts]; [repeat constructor; simpl|].
  - now rewrite Ascii.eqb_sym, E.
  - inversion IH as [|? ? Ht Hts]; subst. constructor; [|exact Hts].
    simpl. now rewrite Ascii.eqb_sym, E, Ht.
Qed.

Lemma lstrip_contains c s :
  contains c s = false -> contains c (lstrip s) = false.
Proof.
  induction s as [|a s IH]; simpl; [auto|].
  intros H. apply orb_false_iff in H as [Ha Hs].
  destruct (isspace a); [now apply IH | simpl; now rewrite Ha, Hs].
Qed.

Lemma rstrip_contains c s :
  contains c s = false -> contains c (rstrip s) = false.
Proof.
  induction s as [|a s IH]; simpl; [auto|].
  intros H. apply orb_false_iff in H as [Ha Hs]. specialize (IH Hs).
  destruct (rstrip s) as [|b r].
  - destruct (isspace a); simpl; [reflexivity | now rewrite Ha].
  - simpl in *. now rewrite Ha, IH.
Qed.

Lemma lstrip_lstrip s : lstrip (lstrip s) = lstrip s.
Proof.
  induction s as [|a s IH]; simpl; [reflexivity|].
  destruct (isspace a) eqn:E; [exact IH | simpl; now rewrite E].
Qed.

Lemma rstrip_rstrip s : rstrip (rstrip s) = rstrip s.
Proof.
  induction s as [|a s IH]; simpl; [reflexivity|].
  destruct (rstrip s) as [|b r] eqn:E.
  - destruct (isspace a) eqn:Ea; simpl; [reflexivity | now rewrite Ea].
  - change (rstrip (String a (String b r))
            = String a (String b r)).
    cbn [rstrip]. fold rstrip. cbn [rstrip] in IH. now rewrite IH.
Qed.

(** Trimming on the right leaves a trimmed left end as it is. *)
Lemma lstrip_rstrip s : lstrip s = s -> lstrip (rstrip s) = rstrip s.
Proof.
  destruct s as [|a s]; [reflexivity|]. simpl.
  destruct (isspace a) eqn:E.
  - intros H. exfalso.
    assert (Hl : forall t, (String.length (lstrip t) <= String.length t)%nat).
    { induction t as [|b t IHt]; simpl; [lia|].
      destruct (isspace b); simpl; lia. }
    specialize (Hl s). rewrite H in Hl. simpl in Hl. lia.
  - intros _. destruct (rstrip s); simpl; now rewrite E.
Qed.

(** [strip] gives a string with no white space at either end. *)
Lemma strip_strip s : strip (strip s) = strip s.
Proof.
  unfold strip.
  rewrite (lstrip_rstrip (lstrip s)) by apply lstrip_lstrip.
  apply rstrip_rstrip.
Qed.

Lemma strip_contains c s :
  contains c s = false -> contains c (strip s) = false.
Proof. intros H. unfold strip. now apply rstrip_contains, lstrip_contains. Qed.

(** The keys of a category cell: not empty, trimmed, without a comma. *)
Lemma category_keys_shape c k :
  In k (GenerateCsvStats.category_keys c) ->
  k <> "" /\ strip k = k /\ contains "," k = false.
Proof.
  unfold GenerateCsvStats.category_keys. intros H.
  apply filter_In in H as [H Hne].
  apply in_map_iff in H as (t & <- & Ht).
  pose proof (split_no_sep "," c) as Hsep.
  rewrite List.Forall_forall in Hsep.
  split; [|split].
  - intros E. rewrite E in Hne. discriminate.
  - apply strip_strip.
  - apply strip_contains, Hsep, Ht.
Qed.

End StripFacts.

(** ** The names of the buckets *)

Lemma cell_names_inv key_of col r k :
  In k (AnalyzeCsv.cell_names key_of col r) ->
  exists g, k = key_of g /\ g <> "" /\ g <> "NULL"
            /\ r !! col = Some (Some g) /\ AnalyzeCsv.dated r = true.
Proof.
  unfold AnalyzeCsv.cell_names.
  destruct (AnalyzeCsv.dated r); [|intros []].
  destruct (r !! col) as [v|]; [|intros []].
  destruct (Stats.grouping v) as [g|] eqn:E; [|intros []].
  apply grouping_inv in E as (-> & H1 & H2).
  intros [<-|[]]. eauto 6.
Qed.

(** X4.  The names of the buckets.  In the JSON entry point a category
    bucket is never named by the empty string, its name has no white space
    at either end and holds no comma, and a geo bucket is never named by
    the empty string or ["NULL"].  In the table entry point neither a
    category nor a geo bucket is named by the empty string or ["NULL"]. *)
Theorem bucket_names_shape :
  (forall rows k,
      In k (Stats.keys (GenerateCsvStats.category_stats (GenerateCsvStats.aggregate rows))) ->
      k <> "" /\ PyStr.strip k = k /\ PyStr.contains "," k = false)
  /\ (forall rows k,
      In k (Stats.keys (GenerateCsvStats.geo_stats (GenerateCsvStats.aggregate rows))) ->
      k <> "" /\ k <> "NULL")
  /\ (forall rows st k,
      AnalyzeCsv.aggregate rows = Ok st ->
      In k (Stats.keys (AnalyzeCsv.category_stats st))
      \/ In k (Stats.keys (AnalyzeCsv.geo_stats st)) ->
      k <> "" /\ k <> "NULL").
Proof.
  split; [|split].
  - intros rows k Hk.
    apply (generate_keys_named rows k) in Hk.
    apply in_flat_map in Hk as (r & _ & Hk).
    unfold GenerateCsvStats.category_names in Hk.
    destruct (Stats.grouping _) as [c|]; [|destruct Hk].
    now apply (category_keys_shape c).
  - intros rows k Hk.
    apply (generate_keys_named rows k) in Hk.
    apply in_flat_map in Hk as (r & _ & Hk).
    unfold GenerateCsvStats.geo_names in Hk.
    destruct (Stats.grouping _) as [g|] eqn:E; [|destruct Hk].
    apply grouping_inv in E as (_ & H1 & H2).
    destruct Hk as [<-|[]]. auto.
  - intros rows st k Hagg Hk.
    destruct (analyze_keys_named rows st k Hagg) as (Hc & Hg & _).
    assert (Hin : exists col r, In k (AnalyzeCsv.cell_names id col r)).
    { destruct Hk as [Hk|Hk].
      - apply Hc, in_flat_map in Hk as (r & _ & Hk). eauto.
      - apply Hg, in_flat_map in Hk as (r & _ & Hk). eauto. }
    destruct Hin as (col & r & Hin).
    apply cell_names_inv in Hin as (g & -> & H1 & H2 & _). auto.
Qed.

Lemma bucket_names_shape_witness :
  let rows := [complete_row (Some "2024-01-01 08:00:00") (Some " a ,, b")
                 (Some "it") None] in
  ("a" <> "" /\ PyStr.strip "a" = "a" /\ PyStr.contains "," "a" = false)
  /\ ("it" <> "" /\ "it" <> "NULL")
  /\ (" a ,, b" <> "" /\ " a ,, b" <> "NULL").
Proof.
  intros rows.
  destruct bucket_names_shape as (Jc & Jg & T). split; [|split].
  - apply (Jc rows "a"). vm_compute. auto.
  - apply (Jg rows "it"). vm_compute. auto.
  - apply (T rows
             (AnalyzeCsv.mk_tables
                [(" a ,, b", Stats.mk_bucket 1 [PyDate.mk_datetime 2024 1 1 8 0 0])]
                [("it", Stats.mk_bucket 1 [PyDate.mk_datetime 2024 1 1 8 0 0])] [])
             " a ,, b").
    + vm_compute. reflexivity.
    + left. simpl. auto.
Defined.

(** ** No name twice *)

Section DistinctFacts.
Import Stats.










End DistinctFacts.

(** ** The order of the output *)

Section SortFacts.
Context {A : Type} (key : A -> Z).
Import Stats.

Definition desc (a b : A) : Prop := key b <= key a.

Lemma insert_desc_sorted x l :
  StronglySorted desc l -> StronglySorted desc (insert_desc key x l).
Proof.
  induction 1 as [|y l Hs IH Hy]; simpl.
  - repeat constructor.
  - destruct (Z.ltb_spec (key x) (key y)) as [Hlt|Hge].
    + constructor; [exact IH|].
      eapply Permutation_Forall; [symmetry; apply insert_desc_perm|].
      constructor; [unfold desc; lia | exact Hy].
    + constructor; [now constructor|].
      constructor; [exact Hge|].
      eapply Forall_impl; [exact Hy|]. unfold desc. intros z Hz. lia.
Qed.

Lemma sort_desc_sorted l : StronglySorted desc (sort_desc key l).
Proof.
  induction l as [|x l IH]; simpl; [constructor | now apply insert_desc_sorted].
Qed.

(** Among the elements of one key the sort changes nothing. *)
Lemma filter_insert_desc c x l :
  List.filter (fun y => key y =? c) (insert_desc key x l)
  = List.filter (fun y => key y =? c) (x :: l).
Proof.
  induction l as [|y l IH]; [reflexivity|].
  cbn [insert_desc]. destruct (Z.ltb_spec (key x) (key y)) as [Hlt|Hge];
    [|reflexivity].
  cbn [List.filter] in *. rewrite IH.
  destruct (Z.eqb_spec (key x) c), (Z.eqb_spec (key y) c); try reflexivity.
  lia.
Qed.

Lemma filter_sort_desc c l :
  List.filter (fun y => key y =? c) (sort_desc key l)
  = List.filter (fun y => key y =? c) l.
Proof.
  induction l as [|x l IH]; [reflexivity|].
  cbn [sort_desc fold_right]. fold (sort_desc key l).
  rewrite filter_insert_desc. cbn [List.filter]. now rewrite IH.
Qed.


End SortFacts.

Section ResultFacts.
Import PyDate Stats GenerateCsvStats.

Lemma entry_of_name_count name data e :
  entry_of name data = Ok e ->
  GenerateCsvStats.name e = name /\ GenerateCsvStats.count e = Stats.count data.
Proof.
  unfold entry_of.
  destruct (parsed_dates (dates data)) as [|x l]; [now intros [= <-]|].
  cbv zeta. intros H.
  apply bind_Ok in H as (last_date & _ & H).
  destruct (1 <? length _)%nat; [|now injection H as <-].
  apply bind_Ok in H as (first_date & _ & H).
  destruct ((0 <? _) && _); [|now injection H as <-].
  apply bind_Ok in H as (avg & _ & H). now injection H as <-.
Qed.

Lemma entries_name_count m : forall es,
  entries m = Ok es ->
  map (fun e => (GenerateCsvStats.name e, GenerateCsvStats.count e)) es
  = map (fun kb => (fst kb, Stats.count (snd kb))) m.
Proof.
  induction m as [|[name data] m IH]; simpl; intros es H.
  - now injection H as <-.
  - apply bind_Ok in H as (e & He & H).
    apply bind_Ok in H as (es' & Hes & H). injection H as <-.
    apply entry_of_name_count in He as [Hn Hc]. simpl. rewrite Hn, Hc.
    f_equal. now apply IH.
Qed.

End ResultFacts.

(** X6.  Each result list of the JSON entry point has one entry for every
    bucket of its dictionary, carrying the bucket's name and count, and
    lists the entries by count from the greatest down. *)
Theorem results_complete_and_sorted m es :
  GenerateCsvStats.calculate_stats m = Ok es ->
  Permutation
    (map (fun e => (GenerateCsvStats.name e, GenerateCsvStats.count e)) es)
    (map (fun kb => (fst kb, Stats.count (snd kb))) m)
  /\ StronglySorted
       (fun e e' => GenerateCsvStats.count e' <= GenerateCsvStats.count e) es.
Proof.
  unfold GenerateCsvStats.calculate_stats. intros H.
  apply bind_Ok in H as (results & Hr & H). injection H as <-. split.
  - rewrite <- (entries_name_count m results Hr).
    apply Permutation_map, sort_desc_perm.
  - apply (sort_desc_sorted GenerateCsvStats.count).
Qed.

Lemma results_complete_and_sorted_witness :
  let m := [("a", Stats.mk_bucket 1 ["2024-01-01"]);
            ("b", Stats.mk_bucket 3 []);
            ("c", Stats.mk_bucket 1 [])] in
  let es := [GenerateCsvStats.mk_entry "b" 3 "N/A" "N/A";
             GenerateCsvStats.mk_entry "a" 1 "2024-01-01" "N/A";
             GenerateCsvStats.mk_entry "c" 1 "N/A" "N/A"] in
  Permutation
    (map (fun e => (GenerateCsvStats.name e, GenerateCsvStats.count e)) es)
    (map (fun kb => (fst kb, Stats.count (snd kb))) m)
  /\ StronglySorted
       (fun e e' => GenerateCsvStats.count e' <= GenerateCsvStats.count e) es.
Proof.
  intros m es. apply (results_complete_and_sorted m es). reflexivity.
Defined.

(** X7.  Entries of equal count stay in the order in which their buckets
    entered the dictionary: the names of the entries of any one count are
    the keys of the buckets of that count, in dictionary order. *)
Theorem results_keep_order_among_equal_counts m es c :
  GenerateCsvStats.calculate_stats m = Ok es ->
  map GenerateCsvStats.name
    (List.filter (fun e => GenerateCsvStats.count e =? c) es)
  = map fst (List.filter (fun kb => Stats.count (snd kb) =? c) m).
Proof.
  unfold GenerateCsvStats.calculate_stats. intros H.
  apply bind_Ok in H as (results & Hr & H). injection H as <-.
  rewrite filter_sort_desc.
  pose proof (entries_name_count m results Hr) as Hnc.
  clear Hr. revert results Hnc.
  induction m as [|[k b] m IH]; intros [|e results] Hnc; simpl in *;
    try discriminate; [reflexivity|].
  injection Hnc as Hn Hc Hrest. rewrite Hc.
  destruct (Stats.count b =? c); simpl; rewrite ?Hn; f_equal; auto.
Qed.

Lemma results_keep_order_among_equal_counts_witness :
  map GenerateCsvStats.name
    (List.filter (fun e => GenerateCsvStats.count e =? 1)
       [GenerateCsvStats.mk_entry "b" 3 "N/A" "N/A";
        GenerateCsvStats.mk_entry "a" 1 "2024-01-01" "N/A";
        GenerateCsvStats.mk_entry "c" 1 "N/A" "N/A"])
  = ["a"; "c"].
Proof.
  apply (results_keep_order_among_equal_counts
           [("a", Stats.mk_bucket 1 ["2024-01-01"]);
            ("b", Stats.mk_bucket 3 []);
            ("c", Stats.mk_bucket 1 [])]).
  reflexivity.
Defined.

(** ** The span of a bucket *)

(** X8.  The span of a bucket is never negative: between an earliest and a
    latest of the datetimes the table entry point collected, and of the
    dates the JSON entry point parsed, the days count zero or more. *)
Theorem span_never_negative :
  (forall rows st m name data lo hi,
      AnalyzeCsv.aggregate rows = Ok st ->
      In m (AnalyzeCsv.groupings st) -> In (name, data) m ->
      PyDate.bounds lo hi (Stats.dates data) ->
      0 <= PyDate.sub_days hi lo)
  /\ (forall dates lo hi,
      PyDate.bounds lo hi (GenerateCsvStats.parsed_dates dates) ->
      0 <= PyDate.sub_days hi lo).
Proof.
  split.
  - intros rows st m name data lo hi Hagg Hm Hin (Hlo & Hhi & Hb).
    apply aggregate_wf in Hagg.
    destruct (wf_groupings _ _ _ _ Hagg Hm Hin) as (_ & _ & Hv).
    rewrite List.Forall_forall in Hv.
    apply sub_days_nonneg; auto. apply Hb, Hlo.
  - intros dates lo hi (Hlo & Hhi & Hb).
    pose proof (parsed_dates_valid dates) as Hv.
    rewrite List.Forall_forall in Hv.
    apply sub_days_nonneg; auto. apply Hb, Hlo.
Qed.

Lemma span_never_negative_witness :
  0 <= PyDate.sub_days (PyDate.mk_datetime 2024 3 1 0 0 0)
         (PyDate.mk_datetime 2023 12 31 0 0 0).
Proof.
  destruct span_never_negative as [_ J].
  apply (J ["2024-03-01 10:00:00"; "bad"; "2023-12-31"]).
  split; [right; now left|]. split; [now left|].
  intros d [<-|[<-|[]]]; split; reflexivity.
Defined.

(** ** Which frequency is reported *)

(** X9.  What the table entry point prints for a bucket it built.  The
    frequency is ["N/A"] exactly when the bucket counts one row, and
    ["< 1 day"] exactly when it counts two rows or more and the days from
    its earliest to its latest datetime are zero. *)
Theorem analyze_frequency_cases rows st m name data :
  AnalyzeCsv.aggregate rows = Ok st ->
  In m (AnalyzeCsv.groupings st) -> In (name, data) m ->
  exists c,
    AnalyzeCsv.cells_of name data = Ok c
    /\ (AnalyzeCsv.frequency c = "N/A" <-> Stats.count data = 1)
    /\ (forall lo hi,
          PyDate.bounds lo hi (Stats.dates data) ->
          (AnalyzeCsv.frequency c = "< 1 day"
           <-> 2 <= Stats.count data /\ PyDate.sub_days hi lo = 0)).
Proof.
  intros Hagg Hm Hin. apply aggregate_wf in Hagg.
  destruct (wf_groupings _ _ _ _ Hagg Hm Hin) as (H1 & H2 & _).
  unfold AnalyzeCsv.cells_of.
  destruct (Nat.ltb_spec (length (Stats.dates data)) 2) as [Hs|Hl].
  - (* one row *)
    rewrite (calculate_frequency_short _ Hs). cbn [bind].
    eexists. split; [reflexivity|]. cbn [AnalyzeCsv.frequency].
    split; [split; [lia | reflexivity]|].
    intros lo hi _. split; [discriminate | lia].
  - assert (Hne : Stats.dates data <> [])
      by (destruct (Stats.dates data); simpl in Hl; [lia | congruence]).
    destruct (sorted_ends _ Hne) as (lo & hi & _ & _ & Hb).
    destruct (Z.eq_dec (PyDate.sub_days hi lo) 0) as [Hz|Hz].
    + rewrite (calculate_frequency_zero _ lo hi Hl Hb Hz). cbn [bind].
      eexists. split; [reflexivity|]. cbn [AnalyzeCsv.frequency].
      split; [split; [discriminate | lia]|].
      intros lo' hi' Hb'.
      destruct (bounds_unique _ _ _ _ _ Hb Hb') as [<- <-].
      split; [intros _; split; lia | reflexivity].
    + destruct (calculate_frequency_span _ lo hi Hl Hb Hz) as (avg & _ & ->).
      cbn [bind]. eexists. split; [reflexivity|]. cbn [AnalyzeCsv.frequency].
      split; [split; [intros E; now apply days_not_NA in E | lia]|].
      intros lo' hi' Hb'.
      destruct (bounds_unique _ _ _ _ _ Hb Hb') as [<- <-].
      split; [intros E; now apply days_not_under_a_day in E | tauto].
Qed.

Lemma analyze_frequency_cases_witness :
  exists c,
    AnalyzeCsv.cells_of "a" (Stats.mk_bucket 1 [PyDate.mk_datetime 2024 1 1 8 0 0])
    = Ok c
    /\ AnalyzeCsv.frequency c = "N/A"
    /\ AnalyzeCsv.frequency_column c = "1 every N/A       ".
Proof.
  destruct (analyze_frequency_cases
              [complete_row (Some "2024-01-01 08:00:00") (Some "a") None None]
              (AnalyzeCsv.mk_tables
                 [("a", Stats.mk_bucket 1 [PyDate.mk_datetime 2024 1 1 8 0 0])] [] [])
              [("a", Stats.mk_bucket 1 [PyDate.mk_datetime 2024 1 1 8 0 0])]
              "a" (Stats.mk_bucket 1 [PyDate.mk_datetime 2024 1 1 8 0 0]))
    as (c & Hc & Hna & _);
    [reflexivity | left; reflexivity | left; reflexivity |].
  exists c. split; [exact Hc|].
  assert (Hf : AnalyzeCsv.frequency c = "N/A") by now apply Hna.
  split; [exact Hf|]. unfold AnalyzeCsv.frequency_column. now rewrite Hf.
Defined.

(** X10.  What the JSON entry point reports for a bucket it built.  With
    no parseable date the last entry and the frequency are ["N/A"]; with
    one, the last entry is that date and the frequency ["N/A"]; with two or
    more, the last entry is the latest date and the frequency is ["N/A"]
    exactly when the earliest and the latest are the same calendar day. *)
Theorem generate_frequency_cases rows m name data :
  In m (GenerateCsvStats.groupings (GenerateCsvStats.aggregate rows)) ->
  In (name, data) m ->
  exists e,
    GenerateCsvStats.entry_of name data = Ok e
    /\ (GenerateCsvStats.parsed_dates (Stats.dates data) = [] ->
        GenerateCsvStats.lastEntry e = "N/A"
        /\ GenerateCsvStats.frequency e = "N/A")
    /\ (forall x,
          GenerateCsvStats.parsed_dates (Stats.dates data) = [x] ->
          GenerateCsvStats.lastEntry e = PyDate.strftime_ymd x
          /\ GenerateCsvStats.frequency e = "N/A")
    /\ (forall lo hi,
          (2 <= length (GenerateCsvStats.parsed_dates (Stats.dates data)))%nat ->
          PyDate.bounds lo hi (GenerateCsvStats.parsed_dates (Stats.dates data)) ->
          GenerateCsvStats.lastEntry e = PyDate.strftime_ymd hi
          /\ (GenerateCsvStats.frequency e = "N/A" <-> PyDate.same_day lo hi)).
Proof.
  intros Hm Hin.
  destruct (wf_groupings_json _ _ _ _ (aggregate_wf_json rows) Hm Hin)
    as (H1 & H2).
  pose proof (length_parsed_dates (Stats.dates data)) as Hp.
  destruct (entry_of_Ok name data) as (e & He). exists e.
  split; [exact He|]. split; [|split].
  - intros E. unfold GenerateCsvStats.entry_of in He. rewrite E in He.
    injection He as <-. split; reflexivity.
  - intros x E. unfold GenerateCsvStats.entry_of in He. rewrite E in He.
    injection He as <-. split; reflexivity.
  - intros lo hi Hlen Hb.
    rewrite (entry_of_many name data lo hi Hlen Hb) in He.
    pose proof (parsed_dates_valid (Stats.dates data)) as Hv.
    pose proof (parsed_dates_midnight (Stats.dates data)) as Hmid.
    rewrite List.Forall_forall in Hv, Hmid.
    destruct Hb as (Hlo & Hhi & Hb).
    assert (Hle : PyDate.le lo hi) by apply Hb, Hlo.
    destruct (same_day_dec lo hi) as [Hs|Hn].
    + rewrite (same_day_sub_days lo hi) in He by auto.
      cbn [Z.ltb Z.compare andb] in He. injection He as <-.
      split; [reflexivity | tauto].
    + pose proof (sub_days_midnight lo hi (Hv _ Hlo) (Hv _ Hhi)
                    (Hmid _ Hlo) (Hmid _ Hhi) Hle Hn) as Hpos.
      destruct (Z.ltb_spec 0 (PyDate.sub_days hi lo)); [|lia].
      destruct (Z.ltb_spec 1 (Stats.count data)); [|lia].
      cbn [andb] in He. rewrite truediv_Ok in He by lia. cbn [bind] in He.
      injection He as <-. split; [reflexivity|].
      cbn [GenerateCsvStats.frequency]. split; [discriminate | tauto].
Qed.

Lemma generate_frequency_cases_witness :
  exists e,
    GenerateCsvStats.entry_of "a" (Stats.mk_bucket 2 ["soon"; "2024-01-01"]) = Ok e
    /\ GenerateCsvStats.lastEntry e = "2024-01-01"
    /\ GenerateCsvStats.frequency e = "N/A".
Proof.
  destruct (generate_frequency_cases
              [ complete_row (Some "soon") (Some "a") None None;
                complete_row (Some "2024-01-01") (Some "a") None None ]
              [("a", Stats.mk_bucket 2 ["soon"; "2024-01-01"])]
              "a" (Stats.mk_bucket 2 ["soon"; "2024-01-01"]))
    as (e & He & _ & Hone & _); [left; reflexivity | left; reflexivity |].
  exists e. split; [exact He|].
  apply (Hone (PyDate.mk_datetime 2024 1 1 0 0 0)). reflexivity.
Defined.

(** ** The buckets of the JSON entry point *)

Section GenerateBuckets.
Import Stats GenerateCsvStats.

Definition dated_strings (b : bucket string) : Prop :=
  Forall (fun d => d <> "") (dates b).

Lemma dated_strings_recorded date_str b :
  (b = fresh \/ dated_strings b) -> dated_strings (recorded date_str b).
Proof.
  assert (H : forall b : bucket string,
             dated_strings b -> dated_strings (recorded date_str b)).
  { clear b. intros b Hb. unfold recorded, dated_strings in *.
    destruct date_str as [d|]; [|exact Hb].
    destruct (String.eqb_spec d ""); [exact Hb|]. simpl.
    apply Forall_app. split; [exact Hb | repeat constructor; assumption]. }
  intros [-> | Hb]; apply H; [constructor | exact Hb].
Qed.

Lemma dated_strings_record k date_str m :
  Forall (fun kb => dated_strings (snd kb)) m ->
  Forall (fun kb => dated_strings (snd kb)) (record k date_str m).
Proof.
  intros Hm. rewrite record_update_json.
  apply Forall_update; auto using dated_strings_recorded.
Qed.

Lemma dated_strings_record_tokens tokens date_str : forall m,
  Forall (fun kb => dated_strings (snd kb)) m ->
  Forall (fun kb => dated_strings (snd kb)) (record_tokens tokens date_str m).
Proof.
  induction tokens as [|t tokens IH]; simpl; intros m Hm; [exact Hm|].
  apply IH. destruct (String.eqb (PyStr.strip t) "");
    auto using dated_strings_record.
Qed.

Lemma dated_strings_fold rows : forall st,
  Forall (fun m => Forall (fun kb => dated_strings (snd kb)) m) (groupings st) ->
  Forall (fun m => Forall (fun kb => dated_strings (snd kb)) m)
    (groupings (fold_left step rows st)).
Proof.
  induction rows as [|r rows IH]; simpl; intros st Hst; [exact Hst|].
  apply IH. unfold groupings in *.
  inversion Hst as [|? ? Hc Hst1]; subst.
  inversion Hst1 as [|? ? Hg Hst2]; subst.
  inversion Hst2 as [|? ? Ht _]; subst.
  unfold step. simpl.
  repeat constructor; destruct (grouping _);
    auto using dated_strings_record, dated_strings_record_tokens.
Qed.

(** Adding up the counts. *)
Lemma total_update k f (m : stats string) :
  total (update k f m)
  = total m + Stats.count (f (default fresh (lookup k m)))
    - Stats.count (default fresh (lookup k m)).
Proof.
  induction m as [|[k' b] m IH]; simpl; [lia|].
  destruct (String.eqb k k'); simpl; [lia|]. rewrite IH. lia.
Qed.

Lemma total_record k date_str m : total (record k date_str m) = total m + 1.
Proof. rewrite record_update_json, total_update, count_recorded. lia. Qed.

Lemma total_record_tokens tokens date_str : forall m,
  total (record_tokens tokens date_str m)
  = total m
    + Z.of_nat (length (List.filter (fun t => negb (String.eqb t ""))
                          (map PyStr.strip tokens))).
Proof.
  induction tokens as [|t tokens IH]; intros m; [simpl; lia|].
  cbn [record_tokens map List.filter]. rewrite IH.
  destruct (String.eqb (PyStr.strip t) ""); cbn [negb length];
    [lia | rewrite total_record; lia].
Qed.

Lemma total_step st r :
  total (category_stats (step st r))
  = total (category_stats st) + Z.of_nat (length (category_names r))
  /\ total (geo_stats (step st r))
     = total (geo_stats st) + Z.of_nat (length (geo_names r))
  /\ total (template_stats (step st r))
     = total (template_stats st) + Z.of_nat (length (template_names r)).
Proof.
  unfold step, category_names, geo_names, template_names.
  cbn [category_stats geo_stats template_stats].
  split; [|split]; destruct (grouping _); simpl length;
    rewrite ?total_record_tokens, ?total_record; try lia.
  reflexivity.
Qed.

Lemma total_fold rows : forall st,
  total (category_stats (fold_left step rows st))
  = total (category_stats st) + Z.of_nat (length (flat_map category_names rows))
  /\ total (geo_stats (fold_left step rows st))
     = total (geo_stats st) + Z.of_nat (length (flat_map geo_names rows))
  /\ total (template_stats (fold_left step rows st))
     = total (template_stats st) + Z.of_nat (length (flat_map template_names rows)).
Proof.
  induction rows as [|r rows IH]; intros st; simpl.
  - repeat split; lia.
  - destruct (IH (step st r)) as (Hc & Hg & Ht).
    destruct (total_step st r) as (Hc' & Hg' & Ht').
    rewrite !length_app, !Nat2Z.inj_add. repeat split; lia.
Qed.

Lemma sum_counts_perm l l' :
  Permutation (map GenerateCsvStats.count l) (map GenerateCsvStats.count l') ->
  sum_counts l = sum_counts l'.
Proof.
  assert (H : forall zs zs' : list Z, Permutation zs zs' ->
             fold_right Z.add 0 zs = fold_right Z.add 0 zs').
  { induction 1; simpl; lia. }
  assert (E : forall l, sum_counts l = fold_right Z.add 0 (map GenerateCsvStats.count l)).
  { induction l0 as [|e l0 IH]; simpl; [reflexivity | now rewrite <- IH]. }
  intros Hp. rewrite !E. now apply H.
Qed.

Lemma sum_counts_calculate_stats m es :
  calculate_stats m = Ok es -> sum_counts es = total m.
Proof.
  unfold calculate_stats. intros H.
  apply bind_Ok in H as (results & Hr & H). injection H as <-.
  rewrite (sum_counts_perm _ results)
    by apply Permutation_map, sort_desc_perm.
  apply entries_name_count in Hr. clear -Hr. revert results Hr.
  induction m as [|[k b] m IH]; intros [|e results] Hr; simpl in *;
    try discriminate; [reflexivity|].
  injection Hr as _ Hc Hrest. rewrite Hc. f_equal. now apply IH.
Qed.

Lemma length_flat_map_le {A B} (f : A -> list B) (l : list A) :
  (forall x, (length (f x) <= 1)%nat) ->
  (length (flat_map f l) <= length l)%nat.
Proof.
  intros H. induction l as [|x l IH]; simpl; [lia|].
  rewrite length_app. specialize (H x). lia.
Qed.

End GenerateBuckets.

(** X11.  Every bucket of the JSON entry point counts at least one row and
    holds at most as many date strings as it counts, none of them empty
    and each parsed at most once. *)
Theorem generate_bucket_invariant rows m name data :
  In m (GenerateCsvStats.groupings (GenerateCsvStats.aggregate rows)) ->
  In (name, data) m ->
  1 <= Stats.count data
  /\ Z.of_nat (length (Stats.dates data)) <= Stats.count data
  /\ Forall (fun d => d <> "") (Stats.dates data)
  /\ (length (GenerateCsvStats.parsed_dates (Stats.dates data))
      <= length (Stats.dates data))%nat.
Proof.
  intros Hm Hin.
  destruct (wf_groupings_json _ _ _ _ (aggregate_wf_json rows) Hm Hin)
    as (H1 & H2).
  split; [exact H1|]. split; [exact H2|]. split; [|apply length_parsed_dates].
  pose proof (dated_strings_fold rows GenerateCsvStats.empty
                ltac:(repeat constructor)) as Hd.
  rewrite List.Forall_forall in Hd. specialize (Hd m Hm).
  rewrite List.Forall_forall in Hd. apply (Hd (name, data) Hin).
Qed.

Lemma generate_bucket_invariant_witness :
  let data := Stats.mk_bucket 3 ["2024-01-01"; "soon"] in
  1 <= Stats.count data
  /\ Z.of_nat (length (Stats.dates data)) <= Stats.count data
  /\ Forall (fun d => d <> "") (Stats.dates data)
  /\ (length (GenerateCsvStats.parsed_dates (Stats.dates data))
      <= length (Stats.dates data))%nat.
Proof.
  intros data.
  apply (generate_bucket_invariant
           [ complete_row (Some "2024-01-01") None (Some "it") None;
             complete_row (Some "") None (Some "it") None;
             complete_row (Some "soon") None (Some "it") None ]
           [("it", data)] "it" data).
  - right. left. reflexivity.
  - left. reflexivity.
Defined.

(** X12.  In the output of the JSON entry point the counts of a result
    list add up to the number of times the rows name a bucket of that
    grouping.  A row names at most one geo and one template bucket, so
    these two sums stay at or below [totalArticles]. *)
Theorem generate_counts_add_up rows out :
  GenerateCsvStats.main rows = Ok out ->
  GenerateCsvStats.sum_counts (GenerateCsvStats.categories out)
  = Z.of_nat (length (flat_map GenerateCsvStats.category_names rows))
  /\ GenerateCsvStats.sum_counts (GenerateCsvStats.geos out)
     = Z.of_nat (length (flat_map GenerateCsvStats.geo_names rows))
  /\ GenerateCsvStats.sum_counts (GenerateCsvStats.templates out)
     = Z.of_nat (length (flat_map GenerateCsvStats.template_names rows))
  /\ GenerateCsvStats.sum_counts (GenerateCsvStats.geos out)
     <= GenerateCsvStats.totalArticles out
  /\ GenerateCsvStats.sum_counts (GenerateCsvStats.templates out)
     <= GenerateCsvStats.totalArticles out.
Proof.
  unfold GenerateCsvStats.main. intros H.
  apply bind_Ok in H as (cs & Hc & H).
  apply bind_Ok in H as (gs & Hg & H).
  apply bind_Ok in H as (ts & Ht & H). injection H as <-.
  cbn [GenerateCsvStats.categories GenerateCsvStats.geos
       GenerateCsvStats.templates GenerateCsvStats.totalArticles].
  apply sum_counts_calculate_stats in Hc, Hg, Ht.
  destruct (total_fold rows GenerateCsvStats.empty) as (Tc & Tg & Tt).
  fold (GenerateCsvStats.aggregate rows) in Tc, Tg, Tt.
  cbn in Tc, Tg, Tt.
  assert (Lg : (length (flat_map GenerateCsvStats.geo_names rows)
                <= length rows)%nat).
  { apply length_flat_map_le. intros r. unfold GenerateCsvStats.geo_names.
    destruct (Stats.grouping _); simpl; lia. }
  assert (Lt : (length (flat_map GenerateCsvStats.template_names rows)
                <= length rows)%nat).
  { apply length_flat_map_le. intros r. unfold GenerateCsvStats.template_names.
    destruct (Stats.grouping _); simpl; lia. }
  rewrite Hc, Hg, Ht. repeat split; lia.
Qed.

Lemma generate_counts_add_up_witness :
  let out := GenerateCsvStats.mk_output
               [GenerateCsvStats.mk_entry "a" 2 "2024-01-01" "N/A";
                GenerateCsvStats.mk_entry "b" 1 "2024-01-01" "N/A"]
               [GenerateCsvStats.mk_entry "it" 1 "2024-01-01" "N/A"] [] 2 in
  GenerateCsvStats.sum_counts (GenerateCsvStats.categories out) = 3
  /\ GenerateCsvStats.sum_counts (GenerateCsvStats.geos out) = 1
  /\ GenerateCsvStats.sum_counts (GenerateCsvStats.geos out)
     <= GenerateCsvStats.totalArticles out.
Proof.
  intros out.
  destruct (generate_counts_add_up
              [ complete_row (Some "2024-01-01") (Some "a, b") (Some "it") None;
                complete_row (Some "x") (Some "a") (Some "NULL") (Some "") ]
              out) as (Hc & Hg & _ & Hle & _); [vm_compute; reflexivity|].
  rewrite Hc, Hg in *. repeat split; try reflexivity. exact Hle.
Defined.

(** ** The lines of a table *)

Section LineFacts.
Import PyDate Stats AnalyzeCsv.

Lemma length_take n s : String.length (PyStr.take n s) = Nat.min n (String.length s).
Proof.
  revert s. induction n as [|n IH]; intros [|c s]; simpl; auto.
Qed.




End LineFacts.

Section NameFacts.
Import Stats.




End NameFacts.




(** X14.  The name shown on a line of a table is never longer than 45
    characters: a name of up to 45 characters is shown whole, a longer one
    as its first 42 characters and three dots. *)
Theorem display_name_bound name data c :
  AnalyzeCsv.cells_of name data = Ok c ->
  (PyStr.len (AnalyzeCsv.display_name c) <= 45)%nat
  /\ ((PyStr.len name <= 45)%nat -> AnalyzeCsv.display_name c = name)
  /\ ((45 < PyStr.len name)%nat ->
      PyStr.len (AnalyzeCsv.display_name c) = 45%nat
      /\ PyStr.take 42 (AnalyzeCsv.display_name c) = PyStr.take 42 name
      /\ PyStr.drop 42 (AnalyzeCsv.display_name c) = "...").
Proof.
  unfold AnalyzeCsv.cells_of. intros H.
  apply bind_Ok in H as (f & _ & H).
  match type of H with Ok ?x = Ok c => replace c with x by congruence end.
  clear H. cbn [AnalyzeCsv.display_name]. unfold PyStr.len.
  destruct (Nat.ltb_spec 45 (String.length name)) as [Hlong|Hshort].
  - assert (Ht : String.length (PyStr.take 42 name) = 42%nat)
      by (rewrite length_take; lia).
    split; [rewrite length_append, Ht; simpl; lia|].
    split; [lia|]. intros _.
    split; [rewrite length_append, Ht; reflexivity|].
    pose proof (take_app_length (PyStr.take 42 name) "...") as Htake.
    pose proof (drop_app_length (PyStr.take 42 name) "...") as Hdrop.
    rewrite Ht in Htake, Hdrop. split; assumption.
  - split; [exact Hshort|]. split; [reflexivity | lia].
Qed.

Lemma display_name_bound_witness :
  exists c,
    AnalyzeCsv.cells_of "an-unusually-long-category-name-that-needs-cutting"
      (Stats.mk_bucket 1 [PyDate.mk_datetime 2024 1 1 0 0 0]) = Ok c
    /\ (PyStr.len (AnalyzeCsv.display_name c) <= 45)%nat.
Proof.
  exists (AnalyzeCsv.mk_cells "an-unusually-long-category-name-that-needs..." 1 "2024-01-01" "N/A").
  split; [vm_compute; reflexivity|].
  apply (display_name_bound
           "an-unusually-long-category-name-that-needs-cutting"
           (Stats.mk_bucket 1 [PyDate.mk_datetime 2024 1 1 0 0 0])).
  vm_compute. reflexivity.
Defined.

(** ** What of a date string is read *)

Section WordFacts.
Import PyStr.

Lemma word_nospace w : has_space w = false -> word w = w.
Proof.
  induction w as [|a w IH]; simpl; [reflexivity|].
  intros H. apply orb_false_iff in H as [-> Hw]. now rewrite IH.
Qed.

Lemma word_app w c rest :
  has_space w = false -> isspace c = true ->
  word (String.append w (String c rest)) = w.
Proof.
  intros Hw Hc. induction w as [|a w IH].
  - simpl. now rewrite Hc.
  - simpl in Hw. apply orb_false_iff in Hw as [Ha Hw].
    rewrite append_cons. simpl. now rewrite Ha, IH.
Qed.

Lemma first_word_nospace w rest :
  w <> "" -> has_space w = false ->
  (rest = "" \/ exists c r, rest = String c r /\ isspace c = true) ->
  first_word (String.append w rest) = Ok w.
Proof.
  intros Hne Hw Hrest. destruct w as [|a w]; [congruence|].
  pose proof Hw as Hw'. simpl in Hw'. apply orb_false_iff in Hw' as [Ha _].
  unfold first_word. rewrite append_cons. cbn [lstrip]. rewrite Ha.
  rewrite <- append_cons. f_equal.
  destruct Hrest as [-> | (c & r & -> & Hc)].
  - rewrite append_empty_r. now apply word_nospace.
  - now apply word_app.
Qed.

End WordFacts.

(** X15.  Of a date string the JSON entry point reads the first word only:
    white space before it is passed over, and what follows the first
    white space after it, a time of day or anything else, is not looked
    at. *)
Theorem parse_reads_first_word :
  (forall w c rest,
      w <> "" -> PyStr.has_space w = false -> PyStr.isspace c = true ->
      GenerateCsvStats.parse (String.append w (String c rest))
      = PyDate.strptime_ymd w)
  /\ (forall w,
      w <> "" -> PyStr.has_space w = false ->
      GenerateCsvStats.parse w = PyDate.strptime_ymd w)
  /\ (forall c s,
      PyStr.isspace c = true ->
      GenerateCsvStats.parse (String c s) = GenerateCsvStats.parse s).
Proof.
  unfold GenerateCsvStats.parse. split; [|split].
  - intros w c rest Hne Hw Hc.
    rewrite first_word_nospace; eauto.
  - intros w Hne Hw.
    rewrite <- (append_empty_r w) at 1.
    rewrite first_word_nospace; auto.
  - intros c s Hc. unfold PyStr.first_word. cbn [PyStr.lstrip].
    now rewrite Hc.
Qed.

Lemma parse_reads_first_word_witness :
  GenerateCsvStats.parse "2024-01-01 at some time"
  = Ok (PyDate.mk_datetime 2024 1 1 0 0 0).
Proof.
  destruct parse_reads_first_word as (H & _ & _).
  change "2024-01-01 at some time"
    with (String.append "2024-01-01" (String " " "at some time")).
  rewrite (H "2024-01-01" " "%char "at some time");
    reflexivity || discriminate.
Defined.

(** ** Printing a date and reading it back *)

Section RoundTrip.

Lemma of_Z_year_digits :
  forallb (fun n =>
             match PyStr.of_Z (Z.of_nat n) with
             | String a (String b (String c (String d EmptyString))) =>
                 match PyDate.digit a, PyDate.digit b, PyDate.digit c,
                       PyDate.digit d with
                 | Some p, Some q, Some r, Some t =>
                     100 * (10 * p + q) + (10 * r + t) =? Z.of_nat n
                 | _, _, _, _ => false
                 end
             | _ => false
             end) (List.seq 1000 (Z.to_nat 9000)) = true.
Proof. vm_compute. reflexivity. Qed.

(** A year of four digits prints as four digits that read as the year. *)
Lemma of_Z_year y :
  1000 <= y <= 9999 ->
  exists a b c d p q r t,
    PyStr.of_Z y = String a (String b (String c (String d EmptyString)))
    /\ PyDate.digit a = Some p /\ PyDate.digit b = Some q
    /\ PyDate.digit c = Some r /\ PyDate.digit d = Some t
    /\ 100 * (10 * p + q) + (10 * r + t) = y.
Proof.
  intros Hy. pose proof of_Z_year_digits as H.
  rewrite forallb_forall in H.
  specialize (H (Z.to_nat y)). rewrite Z2Nat.id in H by lia.
  assert (Hin : In (Z.to_nat y) (List.seq 1000 (Z.to_nat 9000)))
    by (apply in_seq; lia).
  specialize (H Hin).
  destruct (PyStr.of_Z y) as [|a [|b [|c [|d [|? ?]]]]]; try discriminate.
  destruct (PyDate.digit a) as [p|] eqn:Ea; [|discriminate].
  destruct (PyDate.digit b) as [q|] eqn:Eb; [|discriminate].
  destruct (PyDate.digit c) as [r|] eqn:Ec; [|discriminate].
  destruct (PyDate.digit d) as [t|] eqn:Ed; [|discriminate].
  apply Z.eqb_eq in H. exists a, b, c, d, p, q, r, t.
  repeat split; auto.
Qed.

Lemma of_Z_year_shape :
  forallb (fun n =>
             let s := PyStr.of_Z (Z.of_nat n) in
             negb (PyStr.has_space s) && (1 <=? String.length s)%nat
             && (if (n <? 1000)%nat then (String.length s <=? 3)%nat else true))
    (List.seq 1 (Z.to_nat 9999)) = true.
Proof. vm_compute. reflexivity. Qed.

(** A year prints without white space, and below 1000 in three characters
    at most. *)
Lemma of_Z_year_short y :
  1 <= y <= 9999 ->
  PyStr.has_space (PyStr.of_Z y) = false
  /\ (1 <= String.length (PyStr.of_Z y))%nat
  /\ (y < 1000 -> (String.length (PyStr.of_Z y) <= 3)%nat).
Proof.
  intros Hy. pose proof of_Z_year_shape as H.
  rewrite forallb_forall in H.
  specialize (H (Z.to_nat y)). cbv zeta in H. rewrite Z2Nat.id in H by lia.
  assert (Hin : In (Z.to_nat y) (List.seq 1 (Z.to_nat 9999)))
    by (apply in_seq; lia).
  specialize (H Hin).
  apply andb_true_iff in H as [H H3]. apply andb_true_iff in H as [H1 H2].
  apply negb_true_iff in H1. apply Nat.leb_le in H2.
  split; [exact H1|]. split; [exact H2|]. intros Hlt.
  destruct (Nat.ltb_spec (Z.to_nat y) 1000) as [_|Hge]; [|lia].
  now apply Nat.leb_le.
Qed.

Lemma re_Y_digits a b c d p q r t rest :
  PyDate.digit a = Some p -> PyDate.digit b = Some q ->
  PyDate.digit c = Some r -> PyDate.digit d = Some t ->
  PyDate.re_Y (String a (String b (String c (String d rest))))
  = [(100 * (10 * p + q) + (10 * r + t), rest)].
Proof.
  intros Ha Hb Hc Hd. unfold PyDate.re_Y, PyDate.seq, PyDate.two, PyDate.ret.
  simpl. rewrite Ha, Hb. simpl. rewrite Hc, Hd. reflexivity.
Qed.

(** [%Y] of [strptime] wants four digits: it matches no text with a hyphen
    among its first four characters. *)
Lemma re_Y_short s rest :
  (1 <= String.length s <= 3)%nat ->
  PyDate.re_Y (String.append s (String "-" rest)) = [].
Proof.
  intros H.
  destruct s as [|a [|b [|c [|? ?]]]]; simpl in H; try lia;
    rewrite ?append_cons; change (String.append "" ?x) with x;
    unfold PyDate.re_Y, PyDate.seq, PyDate.two, PyDate.ret;
    repeat first
      [ reflexivity
      | progress cbn [flat_map app]
      | progress change (PyDate.digit "-") with (@None Z)
      | match goal with
        | |- context [PyDate.digit ?x] => destruct (PyDate.digit x)
        end
      | destruct rest ].
Qed.

Lemma has_space_app s t :
  PyStr.has_space (String.append s t) = PyStr.has_space s || PyStr.has_space t.
Proof.
  induction s as [|a s IH]; [reflexivity|].
  rewrite append_cons. simpl. now rewrite IH, orb_assoc.
Qed.

Ltac month_case m :=
  let H := fresh in
  assert (H : m = 1 \/ m = 2 \/ m = 3 \/ m = 4 \/ m = 5 \/ m = 6 \/ m = 7
              \/ m = 8 \/ m = 9 \/ m = 10 \/ m = 11 \/ m = 12) by lia;
  repeat (destruct H as [H|H]; [subst m|]); [..|subst m].

Ltac day_case d :=
  let H := fresh in
  assert (H : d = 1 \/ d = 2 \/ d = 3 \/ d = 4 \/ d = 5 \/ d = 6 \/ d = 7
              \/ d = 8 \/ d = 9 \/ d = 10 \/ d = 11 \/ d = 12 \/ d = 13
              \/ d = 14 \/ d = 15 \/ d = 16 \/ d = 17 \/ d = 18 \/ d = 19
              \/ d = 20 \/ d = 21 \/ d = 22 \/ d = 23 \/ d = 24 \/ d = 25
              \/ d = 26 \/ d = 27 \/ d = 28 \/ d = 29 \/ d = 30 \/ d = 31)
    by lia;
  repeat (destruct H as [H|H]; [subst d|]); [..|subst d].

Lemma has_space_zfill2 n :
  1 <= n <= 31 -> PyStr.has_space (PyStr.zfill 2 n) = false.
Proof. intros H. day_case n; reflexivity. Qed.

(** A printed date is one word. *)
Lemma strftime_one_word d :
  PyDate.valid d = true ->
  PyStr.has_space (PyDate.strftime_ymd d) = false
  /\ PyDate.strftime_ymd d <> "".
Proof.
  intros V. split.
  - unfold PyDate.valid in V. rewrite !andb_true_iff, !Z.leb_le in V.
    pose proof (days_in_month_pos (PyDate.year d) (PyDate.month d)).
    destruct (of_Z_year_short (PyDate.year d)) as (Hy & _); [lia|].
    unfold PyDate.strftime_ymd.
    rewrite has_space_app, Hy. cbn [PyStr.has_space orb].
    rewrite has_space_app, has_space_zfill2 by lia.
    cbn [PyStr.has_space orb]. rewrite has_space_zfill2 by lia. reflexivity.
  - intros E. pose proof (length_strftime d) as H. rewrite E in H.
    simpl in H. lia.
Qed.

(** The printed date of a year of four digits matches ['%Y-%m-%d']
    whole. *)
Lemma printed_date_reads_back y m d :
  1000 <= y <= 9999 -> 1 <= m <= 12 -> 1 <= d <= 31 ->
  PyDate.full_match PyDate.re_ymd
    (String.append (PyStr.of_Z y)
       (String "-" (String.append (PyStr.zfill 2 m)
          (String "-" (PyStr.zfill 2 d)))))
  = Ok (y, m, d).
Proof.
  intros Hy Hm Hd.
  destruct (of_Z_year y Hy) as (a & b & c & e & p & q & r & t
                                & -> & Ha & Hb & Hc & He & Ey).
  unfold PyDate.full_match, PyDate.re_ymd. unfold PyDate.seq at 1.
  month_case m; day_case d;
    (match goal with
     | |- context [PyDate.re_Y ?s] =>
         let s' := eval cbv in s in
         change s with s'
     end;
     rewrite (re_Y_digits a b c e p q r t) by assumption;
     rewrite Ey; vm_compute; reflexivity).
Qed.

(** The printed date of an earlier year does not match it. *)
Lemma printed_date_short_year y rest :
  1 <= y < 1000 ->
  PyDate.full_match PyDate.re_ymd
    (String.append (PyStr.of_Z y) (String "-" rest))
  = Raise ValueError.
Proof.
  intros Hy. destruct (of_Z_year_short y) as (_ & H1 & H3); [lia|].
  unfold PyDate.full_match, PyDate.re_ymd. unfold PyDate.seq at 1.
  rewrite re_Y_short by (split; [exact H1 | apply H3; lia]). reflexivity.
Qed.

End RoundTrip.

(** X16.  Printing a date and reading it back.  A date as the scripts
    print it, ['%Y-%m-%d'] of a valid date without a time of day, is one
    word.  From the year 1000 on it reads back as the same date: [strptime]
    with the same format accepts it, and so does the JSON entry point's
    parse of a date string.  Below the year 1000 the year is printed in
    fewer than four digits, and both raise [ValueError] on the printed
    text. *)
Theorem printed_date_parses_back d :
  PyDate.valid d = true -> PyDate.midnight d ->
  (1000 <= PyDate.year d ->
   PyDate.strptime_ymd (PyDate.strftime_ymd d) = Ok d
   /\ GenerateCsvStats.parse (PyDate.strftime_ymd d) = Ok d)
  /\ (PyDate.year d < 1000 ->
      PyDate.strptime_ymd (PyDate.strftime_ymd d) = Raise ValueError
      /\ GenerateCsvStats.parse (PyDate.strftime_ymd d) = Raise ValueError).
Proof.
  intros V Hmid.
  destruct (strftime_one_word d V) as [Hsp Hne].
  assert (Hparse : GenerateCsvStats.parse (PyDate.strftime_ymd d)
                   = PyDate.strptime_ymd (PyDate.strftime_ymd d)).
  { unfold GenerateCsvStats.parse.
    rewrite <- (append_empty_r (PyDate.strftime_ymd d)) at 1.
    rewrite first_word_nospace; auto. }
  rewrite Hparse.
  destruct Hmid as (H1 & H2 & H3). destruct d as [y m dd h mi s].
  simpl in H1, H2, H3. subst h mi s.
  pose proof V as V'. unfold PyDate.valid in V'. simpl in V'.
  rewrite !andb_true_iff, !Z.leb_le in V'.
  assert (Hd : dd <= 31) by (pose proof (days_in_month_pos y m); lia).
  cbn [PyDate.year]. split; intros Hy.
  - assert (E : PyDate.strptime_ymd
                  (PyDate.strftime_ymd (PyDate.mk_datetime y m dd 0 0 0))
                = Ok (PyDate.mk_datetime y m dd 0 0 0)).
    { unfold PyDate.strptime_ymd, PyDate.strftime_ymd.
      cbn [PyDate.year PyDate.month PyDate.day].
      rewrite printed_date_reads_back by lia.
      cbn [bind]. unfold PyDate.make. now rewrite V. }
    split; exact E.
  - assert (E : PyDate.strptime_ymd
                  (PyDate.strftime_ymd (PyDate.mk_datetime y m dd 0 0 0))
                = Raise ValueError).
    { unfold PyDate.strptime_ymd, PyDate.strftime_ymd.
      cbn [PyDate.year PyDate.month PyDate.day].
      rewrite printed_date_short_year by lia. reflexivity. }
    split; exact E.
Qed.

Lemma printed_date_parses_back_witness :
  GenerateCsvStats.parse "2024-02-29" = Ok (PyDate.mk_datetime 2024 2 29 0 0 0)
  /\ PyDate.strftime_ymd (PyDate.mk_datetime 999 1 1 0 0 0) = "999-01-01"
  /\ PyDate.strptime_ymd "999-01-01" = Raise ValueError.
Proof.
  split; [|split].
  - apply (printed_date_parses_back (PyDate.mk_datetime 2024 2 29 0 0 0));
      [reflexivity | repeat split | simpl; lia].
  - reflexivity.
  - apply (printed_date_parses_back (PyDate.mk_datetime 999 1 1 0 0 0));
      [reflexivity | repeat split | simpl; lia].
Defined.

(** ** Where the two entry points count alike *)

(** A category cell that is one key: no comma, no white space around it. *)
Definition single_key (c : string) : Prop :=
  PyStr.contains "," c = false /\ PyStr.strip c = c.

(** A template cell that is a bare name, or a bare name between
    ["templates/post-"] and [".php"]. *)
Definition plain_template (t : string) : Prop :=
  exists name,
    PyStr.contains "/" name = false /\ PyStr.contains "." name = false
    /\ (t = name
        \/ t = String.append "templates/post-" (String.append name ".php")).

(** The cell of the column [col], when it names a group, satisfies [P]. *)
Definition cell_is (P : string -> Prop) (col : string) (r : row) : Prop :=
  forall s, r !! col = Some (Some s) -> s <> "" -> s <> "NULL" -> P s.

Section Agreement.
Import PyStr.

Lemma split_absent sep s : contains sep s = false -> split sep s = [s].
Proof.
  induction s as [|c s IH]; simpl; [reflexivity|].
  intros H. apply orb_false_iff in H as [Hc Hs].
  rewrite Ascii.eqb_sym, Hc, (IH Hs). reflexivity.
Qed.

Lemma category_keys_single c :
  c <> "" -> single_key c -> GenerateCsvStats.category_keys c = [c].
Proof.
  intros Hne [Hsep Hstrip]. unfold GenerateCsvStats.category_keys.
  rewrite (split_absent _ _ Hsep). cbn [map]. rewrite Hstrip.
  apply String.eqb_neq in Hne. cbn [List.filter]. now rewrite Hne.
Qed.

Lemma endswith_contains c p s :
  endswith p s = true -> contains c p = true -> contains c s = true.
Proof.
  intros H Hc. pose proof (endswith_drop_last p s H) as E.
  rewrite E, contains_app, Hc. apply orb_true_r.
Qed.

(** A bare name is the key of both entry points. *)
Lemma template_keys_bare name :
  contains "/" name = false -> contains "." name = false ->
  AnalyzeCsv.formatted_template name = name
  /\ GenerateCsvStats.clean_template name = name.
Proof.
  intros Hslash Hdot. split.
  - unfold AnalyzeCsv.formatted_template.
    rewrite (remove_absent "/" "templates/post-" name) by (reflexivity || assumption).
    apply (remove_absent "." ".php"); reflexivity || assumption.
  - unfold GenerateCsvStats.clean_template, startswith.
    destruct (String.prefix "templates/post-" name) eqn:Ep.
    { rewrite (prefix_contains "/" _ _ Ep) in Hslash by reflexivity.
      discriminate. }
    destruct (endswith ".php" name) eqn:Es; [|reflexivity].
    rewrite (endswith_contains "." _ _ Es) in Hdot by reflexivity.
    discriminate.
Qed.

(** So is the bare name of a post template. *)
Lemma template_keys_post name :
  contains "/" name = false -> contains "." name = false ->
  let t := String.append "templates/post-" (String.append name ".php") in
  AnalyzeCsv.formatted_template t = name
  /\ GenerateCsvStats.clean_template t = name.
Proof.
  intros Hslash Hdot. cbv zeta. split.
  - unfold AnalyzeCsv.formatted_template.
    rewrite remove_front by discriminate.
    rewrite (remove_absent "/" "templates/post-") by
      (reflexivity || (rewrite contains_app, Hslash; reflexivity)).
    apply (remove_back "." "php"). exact Hdot.
  - unfold GenerateCsvStats.clean_template, startswith.
    rewrite prefix_app.
    rewrite (drop_app_length "templates/post-"), endswith_app.
    apply (drop_last_app ".php").
Qed.

Lemma plain_template_keys t :
  plain_template t ->
  AnalyzeCsv.formatted_template t = GenerateCsvStats.clean_template t.
Proof.
  intros (name & Hslash & Hdot & [-> | ->]).
  - destruct (template_keys_bare name Hslash Hdot) as [-> ->]. reflexivity.
  - destruct (template_keys_post name Hslash Hdot) as [-> ->]. reflexivity.
Qed.

(** What a row names in the table entry point, from what it names in the
    JSON entry point. *)
Lemma geo_names_dated r :
  AnalyzeCsv.geo_names r
  = if AnalyzeCsv.dated r then GenerateCsvStats.geo_names r else [].
Proof.
  unfold AnalyzeCsv.geo_names, AnalyzeCsv.cell_names,
    GenerateCsvStats.geo_names, GenerateCsvStats.get.
  destruct (AnalyzeCsv.dated r); [|reflexivity].
  destruct (r !! "geo") as [v|]; [|reflexivity].
  destruct (Stats.grouping v); reflexivity.
Qed.

Lemma category_names_single r :
  AnalyzeCsv.dated r = true -> cell_is single_key "category" r ->
  AnalyzeCsv.category_names r = GenerateCsvStats.category_names r.
Proof.
  intros Hd Hcell.
  unfold AnalyzeCsv.category_names, AnalyzeCsv.cell_names,
    GenerateCsvStats.category_names, GenerateCsvStats.get.
  rewrite Hd. unfold cell_is in Hcell.
  destruct (r !! "category") as [v|]; [|reflexivity].
  destruct (Stats.grouping v) as [g|] eqn:E; [|reflexivity].
  apply grouping_inv in E as (-> & H1 & H2).
  rewrite category_keys_single; auto.
Qed.

Lemma template_names_plain r :
  AnalyzeCsv.dated r = true -> cell_is plain_template "template_articolo" r ->
  AnalyzeCsv.template_names r = GenerateCsvStats.template_names r.
Proof.
  intros Hd Hcell.
  unfold AnalyzeCsv.template_names, AnalyzeCsv.cell_names,
    GenerateCsvStats.template_names, GenerateCsvStats.get.
  rewrite Hd. unfold cell_is in Hcell.
  destruct (r !! "template_articolo") as [v|]; [|reflexivity].
  destruct (Stats.grouping v) as [g|] eqn:E; [|reflexivity].
  apply grouping_inv in E as (-> & H1 & H2).
  rewrite plain_template_keys; auto.
Qed.

Lemma flat_map_Forall_eq {A B} (f g : A -> list B) (l : list A) :
  Forall (fun x => f x = g x) l -> flat_map f l = flat_map g l.
Proof.
  induction 1 as [|x l Hx _ IH]; simpl; [reflexivity|]. now rewrite Hx, IH.
Qed.

Lemma count_occ_geo_le rows k :
  (count_occ String.string_dec (flat_map AnalyzeCsv.geo_names rows) k
   <= count_occ String.string_dec (flat_map GenerateCsvStats.geo_names rows) k)%nat.
Proof.
  induction rows as [|r rows IH]; simpl; [lia|].
  rewrite !count_occ_app, geo_names_dated.
  destruct (AnalyzeCsv.dated r); simpl; lia.
Qed.

End Agreement.

(** X17.  Where the two entry points count alike.  On rows the table
    entry point does not raise on, it never counts more for a geo bucket
    than the JSON entry point does.  When moreover every row has a date the
    table entry point parses, the geo counts are the same; so are the
    category counts when every category cell is one key, without a comma
    and without white space around it; and so are the template counts when
    every template cell is a bare name, or one between
    ["templates/post-"] and [".php"]. *)
Theorem entry_points_count_alike rows st :
  AnalyzeCsv.aggregate rows = Ok st ->
  (forall k,
      Stats.count_of k (AnalyzeCsv.geo_stats st)
      <= Stats.count_of k (GenerateCsvStats.geo_stats (GenerateCsvStats.aggregate rows)))
  /\ (Forall (fun r => AnalyzeCsv.dated r = true) rows ->
      (forall k,
          Stats.count_of k (AnalyzeCsv.geo_stats st)
          = Stats.count_of k (GenerateCsvStats.geo_stats (GenerateCsvStats.aggregate rows)))
      /\ (Forall (cell_is single_key "category") rows ->
          forall k,
            Stats.count_of k (AnalyzeCsv.category_stats st)
            = Stats.count_of k
                (GenerateCsvStats.category_stats (GenerateCsvStats.aggregate rows)))
      /\ (Forall (cell_is plain_template "template_articolo") rows ->
          forall k,
            Stats.count_of k (AnalyzeCsv.template_stats st)
            = Stats.count_of k
                (GenerateCsvStats.template_stats (GenerateCsvStats.aggregate rows)))).
Proof.
  intros Hagg.
  assert (HA : forall k,
             Stats.count_of k (AnalyzeCsv.category_stats st)
             = Z.of_nat (count_occ String.string_dec
                           (flat_map AnalyzeCsv.category_names rows) k)
             /\ Stats.count_of k (AnalyzeCsv.geo_stats st)
                = Z.of_nat (count_occ String.string_dec
                              (flat_map AnalyzeCsv.geo_names rows) k)
             /\ Stats.count_of k (AnalyzeCsv.template_stats st)
                = Z.of_nat (count_occ String.string_dec
                              (flat_map AnalyzeCsv.template_names rows) k)).
  { intros k. destruct (run_counts_analyze rows k _ _ Hagg) as (Hc & Hg & Ht).
    cbn [AnalyzeCsv.empty AnalyzeCsv.category_stats AnalyzeCsv.geo_stats
         AnalyzeCsv.template_stats] in Hc, Hg, Ht.
    rewrite count_of_nil in Hc, Hg, Ht. repeat split; lia. }
  split.
  - intros k. destruct (HA k) as (_ & -> & _).
    destruct (generate_counts_facts rows k) as (_ & -> & _).
    apply inj_le, count_occ_geo_le.
  - intros Hd. split; [|split].
    + intros k. destruct (HA k) as (_ & -> & _).
      destruct (generate_counts_facts rows k) as (_ & -> & _).
      f_equal. f_equal. apply flat_map_Forall_eq.
      eapply Forall_impl; [exact Hd|]. cbv beta.
      intros r Hr. now rewrite geo_names_dated, Hr.
    + intros Hs k. destruct (HA k) as (-> & _ & _).
      destruct (generate_counts_facts rows k) as (-> & _ & _).
      f_equal. f_equal. apply flat_map_Forall_eq.
      rewrite List.Forall_forall in Hd, Hs. apply List.Forall_forall.
      intros r Hr. apply category_names_single; auto.
    + intros Hp k. destruct (HA k) as (_ & _ & ->).
      destruct (generate_counts_facts rows k) as (_ & _ & ->).
      f_equal. f_equal. apply flat_map_Forall_eq.
      rewrite List.Forall_forall in Hd, Hp. apply List.Forall_forall.
      intros r Hr. apply template_names_plain; auto.
Qed.

Lemma entry_points_count_alike_witness :
  let rows := [ complete_row (Some "2024-01-01 08:00:00") (Some "news")
                  (Some "it") (Some "templates/post-video.php");
                complete_row (Some "2024-01-03 09:30:00") (Some "news")
                  (Some "NULL") (Some "single") ] in
  Stats.count_of "news"
    (GenerateCsvStats.category_stats (GenerateCsvStats.aggregate rows)) = 2
  /\ Stats.count_of "video"
       (GenerateCsvStats.template_stats (GenerateCsvStats.aggregate rows)) = 1.
Proof.
  intros rows.
  set (d1 := PyDate.mk_datetime 2024 1 1 8 0 0).
  set (d2 := PyDate.mk_datetime 2024 1 3 9 30 0).
  set (st := AnalyzeCsv.mk_tables
               [("news", Stats.mk_bucket 2 [d1; d2])]
               [("it", Stats.mk_bucket 1 [d1])]
               [("video", Stats.mk_bucket 1 [d1]);
                ("single", Stats.mk_bucket 1 [d2])]).
  destruct (entry_points_count_alike rows st) as [_ H];
    [vm_compute; reflexivity|].
  destruct H as (_ & Hc & Ht).
  { repeat (constructor; [vm_compute; reflexivity|]). constructor. }
  split.
  - rewrite <- Hc; [reflexivity|].
    repeat (constructor;
            [intros s Hs _ _; vm_compute in Hs; injection Hs as <-;
             split; reflexivity|]).
    constructor.
  - rewrite <- Ht; [reflexivity|].
    constructor.
    { intros s Hs _ _. vm_compute in Hs. injection Hs as <-.
      exists "video". repeat split; try reflexivity. right. reflexivity. }
    constructor; [|constructor].
    intros s Hs _ _. vm_compute in Hs. injection Hs as <-.
    exists "single". repeat split; try reflexivity. left. reflexivity.
Defined.

(** ** The table entry point as a whole *)

Section AnalyzeMain.
Import Stats.





End AnalyzeMain.



(** ** The columns of a table line *)

Section Columns.
Import PyStr.

Lemma length_spaces n : String.length (spaces n) = n.
Proof. induction n; simpl; auto. Qed.

Lemma length_ljust w s : String.length (ljust w s) = Nat.max w (String.length s).
Proof.
  unfold ljust, len. rewrite length_append, length_spaces. lia.
Qed.

Lemma length_rjust w s : String.length (rjust w s) = Nat.max w (String.length s).
Proof.
  unfold rjust, len. rewrite length_append, length_spaces. lia.
Qed.

End Columns.

(** X19.  The columns of a table line.  The name column is 45 characters
    wide on every data line, so the count column starts at the same place
    on each of them: the first 45 characters are the shown name and its
    padding, what follows is a space and the other columns.  A data line
    is at least 86 characters long, longer than the 80 characters of the
    rules above it. *)
Theorem data_line_columns name data c :
  AnalyzeCsv.cells_of name data = Ok c ->
  let line := AnalyzeCsv.format_cells c in
  PyStr.len (PyStr.ljust 45 (AnalyzeCsv.display_name c)) = 45%nat
  /\ PyStr.take 45 line = PyStr.ljust 45 (AnalyzeCsv.display_name c)
  /\ PyStr.drop 45 line
     = String.append " "
         (String.append (PyStr.rjust 8 (PyStr.of_Z (AnalyzeCsv.shown_count c)))
         (String.append " "
         (String.append (PyStr.ljust 12 (AnalyzeCsv.last_date c))
         (String.append " " (AnalyzeCsv.frequency_column c)))))
  /\ (86 <= PyStr.len line)%nat
  /\ PyStr.len (AnalyzeCsv.repeat_char "=" 80) = 80%nat.
Proof.
  intros H. cbv zeta.
  assert (Hn : (String.length (AnalyzeCsv.display_name c) <= 45)%nat).
  { unfold AnalyzeCsv.cells_of in H. apply bind_Ok in H as (f & _ & H).
    match type of H with Ok ?x = Ok c => replace c with x by congruence end.
    cbn [AnalyzeCsv.display_name]. unfold PyStr.len.
    destruct (Nat.ltb_spec 45 (String.length name)) as [Hlong|Hshort];
      [|exact Hshort].
    rewrite length_append, length_take.
    change (String.length "...") with 3%nat. lia. }
  assert (H45 : String.length (PyStr.ljust 45 (AnalyzeCsv.display_name c))
                = 45%nat)
    by (rewrite length_ljust; lia).
  unfold AnalyzeCsv.format_cells, PyStr.len.
  split; [exact H45|]. split; [|split; [|split]].
  - rewrite <- H45 at 1. apply take_app_length.
  - rewrite <- H45 at 1. apply drop_app_length.
  - unfold AnalyzeCsv.frequency_column.
    rewrite !length_append, H45, length_rjust, !length_ljust. simpl. lia.
  - reflexivity.
Qed.

Lemma data_line_columns_witness :
  exists c,
    AnalyzeCsv.cells_of "news"
      (Stats.mk_bucket 2 [PyDate.mk_datetime 2024 1 1 8 0 0;
                          PyDate.mk_datetime 2024 1 5 8 0 0]) = Ok c
    /\ PyStr.take 45 (AnalyzeCsv.format_cells c)
       = PyStr.ljust 45 (AnalyzeCsv.display_name c).
Proof.
  exists (AnalyzeCsv.mk_cells "news" 2 "2024-01-05" "4.0 days").
  split; [vm_compute; reflexivity|].
  apply (data_line_columns "news"
           (Stats.mk_bucket 2 [PyDate.mk_datetime 2024 1 1 8 0 0;
                               PyDate.mk_datetime 2024 1 5 8 0 0])).
  vm_compute. reflexivity.
Defined.

(** ** The model on inputs whose results are known from Python *)

Example strip_split_examples :
  PyStr.strip "  a b	 " = "a b"
  /\ PyStr.split "," " a ,b,, c d " = [" a "; "b"; ""; " c d "]
  /\ GenerateCsvStats.category_keys " a ,b,, c d " = ["a"; "b"; "c d"]
  /\ PyStr.split "," "" = [""]
  /\ PyStr.first_word "  2024-01-01 10:00:00" = Ok "2024-01-01"
  /\ PyStr.first_word "  " = Raise IndexError.
Proof. repeat split; reflexivity. Qed.

Example template_examples :
  AnalyzeCsv.formatted_template "templates/post-a.php.orig" = "a.orig"
  /\ GenerateCsvStats.clean_template "templates/post-a.php.orig" = "a.php.orig"
  /\ PyStr.remove "aba" "xababay" = "xbay".
Proof. repeat split; reflexivity. Qed.

Example strptime_ymd_examples :
  PyDate.strptime_ymd "2024-01-11" = Ok (PyDate.mk_datetime 2024 1 11 0 0 0)
  /\ PyDate.strptime_ymd "2024-01- 5" = Ok (PyDate.mk_datetime 2024 1 5 0 0 0)
  /\ PyDate.strptime_ymd "2024-1-05" = Ok (PyDate.mk_datetime 2024 1 5 0 0 0)
  /\ PyDate.strptime_ymd "2024-1-1" = Ok (PyDate.mk_datetime 2024 1 1 0 0 0)
  /\ PyDate.strptime_ymd "2024-02-29" = Ok (PyDate.mk_datetime 2024 2 29 0 0 0)
  /\ PyDate.strptime_ymd "2023-02-29" = Raise ValueError
  /\ PyDate.strptime_ymd "2024-01-011" = Raise ValueError
  /\ PyDate.strptime_ymd "20240101" = Raise ValueError
  /\ PyDate.strptime_ymd " 2024-01-01" = Raise ValueError
  /\ PyDate.strptime_ymd "2024-01-01 " = Raise ValueError
  /\ PyDate.strptime_ymd "2024-13-01" = Raise ValueError
  /\ PyDate.strptime_ymd "2024-00-10" = Raise ValueError
  /\ PyDate.strptime_ymd "0000-01-01" = Raise ValueError
  /\ PyDate.strptime_ymd "2024-01-01 10:00:00" = Raise ValueError.
Proof. vm_compute. repeat split; reflexivity. Qed.

Example strptime_ymd_hms_examples :
  PyDate.strptime_ymd_hms "2024-1-5  7:05:59"
  = Ok (PyDate.mk_datetime 2024 1 5 7 5 59)
  /\ PyDate.strptime_ymd_hms "2024-01-05 1:2:3"
     = Ok (PyDate.mk_datetime 2024 1 5 1 2 3)
  /\ PyDate.strptime_ymd_hms "2024-01-05	
10:00:00"
     = Ok (PyDate.mk_datetime 2024 1 5 10 0 0)
  /\ PyDate.strptime_ymd_hms "2024-01-5 10:00:00"
     = Ok (PyDate.mk_datetime 2024 1 5 10 0 0)
  /\ PyDate.strptime_ymd_hms "2024-01-05 24:00:00" = Raise ValueError
  /\ PyDate.strptime_ymd_hms "2024-01-05 10:00" = Raise ValueError
  /\ PyDate.strptime_ymd_hms "2024-01-0510:00:00" = Raise ValueError
  /\ PyDate.strptime_ymd_hms "2024-1-510:00:00" = Raise ValueError
  /\ PyDate.strptime_ymd_hms "2024-02-29 23:59:60" = Raise ValueError
  /\ PyDate.strptime_ymd_hms "2024-01-01" = Raise ValueError.
Proof. vm_compute. repeat split; reflexivity. Qed.

Example date_examples :
  PyDate.toordinal (PyDate.mk_datetime 1 1 1 0 0 0) = 1
  /\ PyDate.toordinal (PyDate.mk_datetime 2024 1 1 0 0 0) = 738886
  /\ PyDate.strftime_ymd (PyDate.mk_datetime 2024 1 1 0 0 0) = "2024-01-01"
  /\ PyDate.strftime_ymd (PyDate.mk_datetime 999 1 1 0 0 0) = "999-01-01"
  /\ PyDate.strftime_ymd (PyDate.mk_datetime 5 3 7 0 0 0) = "5-03-07"
  /\ PyDate.sub_days (PyDate.mk_datetime 2024 1 2 1 0 0)
       (PyDate.mk_datetime 2024 1 1 23 0 0) = 0
  /\ PyDate.sub_days (PyDate.mk_datetime 2024 1 1 1 0 0)
       (PyDate.mk_datetime 2024 1 2 23 0 0) = -2.
Proof. vm_compute. repeat split; reflexivity. Qed.

Example format_examples :
  (x <-- PyFloat.truediv 7 20 ;; Ok (PyFloat.format_1f x)) = Ok "0.3"
  /\ (x <-- PyFloat.truediv 1 4 ;; Ok (PyFloat.format_1f x)) = Ok "0.2"
  /\ (x <-- PyFloat.truediv 3 4 ;; Ok (PyFloat.format_1f x)) = Ok "0.8"
  /\ (x <-- PyFloat.truediv 10 3 ;; Ok (PyFloat.format_1f x)) = Ok "3.3"
  /\ (x <-- PyFloat.truediv 29 20 ;; Ok (PyFloat.format_1f x)) = Ok "1.4"
  /\ (x <-- PyFloat.truediv 999999 7 ;; Ok (PyFloat.format_1f x)) = Ok "142857.0"
  /\ (x <-- PyFloat.truediv 10 1 ;; Ok (PyFloat.format_1f x)) = Ok "10.0"
  /\ PyFloat.truediv (2 ^ 60 + 1) 3
     = Ok (S754_finite false 6004799503160661 6)
  /\ PyFloat.truediv 3652058 123457
     = Ok (S754_finite false 8326485662991689 (-48))
  /\ PyFloat.truediv 1 0 = Raise ZeroDivisionError.
Proof. vm_compute. repeat split; reflexivity. Qed.

Example table_line_examples :
  AnalyzeCsv.format_cells (AnalyzeCsv.mk_cells "a" 2 "2024-01-11" "10.0 days")
  = "a                                                    2 2024-01-11   1 every 10.0 days "
  /\ (c <-- AnalyzeCsv.cells_of "xxxxxxxxxxxxxxxxxxxxxxxxxxxxxxxxxxxxxxxxxxxxxxxxxx"
              (Stats.mk_bucket 1 [PyDate.mk_datetime 2024 1 1 0 0 0]) ;;
      Ok (AnalyzeCsv.display_name c, AnalyzeCsv.frequency c))
     = Ok ("xxxxxxxxxxxxxxxxxxxxxxxxxxxxxxxxxxxxxxxxxx...", "N/A").
Proof. vm_compute. repeat split; reflexivity. Qed.
